(** * FundChat: retrieval-augmented query pipeline

    A shallow embedding of the back end of FundChat
    ([Backend/app/services/rag_service.py], [document_processor.py],
    [mongodb_service_fixed.py] and the endpoints of [Backend/app/main.py])
    together with the properties of the retrieval planner, the context
    assembler, the source deduplicator, the indexer and the fund store.

    Conventions of the embedding.
    - A Python [str] is a [string] whose characters are code points below
      256: an [ascii] holds the code point itself, not a byte of an
      encoding.  [lower] and [isspace] are Python's on this range; a text
      with a code point above 255 has no counterpart in the embedding.
    - A Python [int] is a [Z]; [len] is a [nat].
    - A metadata [dict] is a [gmap string value]; a dict whose iteration
      order is observed is an association list in insertion order.
    - The external services (vector index, language model chain, text
      splitter, file system) are variables of the sections that use them.
    - An exception is an explicit result: [None], or [HTTPException]. *)

From Stdlib Require Import ZArith Ascii String List Lia Bool.
From stdpp Require Import gmap strings list fin_maps pretty.
Import ListNotations.

Local Open Scope Z_scope.

(** ** Python strings *)

Module PyStr.

(** The line feed, [\n]. *)
Definition nl : string := String "010"%char "".

(** [c.lower()] on one character: the letters A..Z (65..90) and the
    letters 192..222 without the multiplication sign 215 are moved up by 32;
    no other code point below 256 changes. *)
Definition lower_char (c : ascii) : ascii :=
  let n := nat_of_ascii c in
  if (((65 <=? n)%nat && (n <=? 90)%nat)
      || ((192 <=? n)%nat && (n <=? 222)%nat && negb (n =? 215)%nat))%bool
  then ascii_of_nat (n + 32) else c.

(** [s.lower()] *)
Fixpoint lower (s : string) : string :=
  match s with
  | EmptyString => EmptyString
  | String c s' => String (lower_char c) (lower s')
  end.

(** [s.startswith(p)] *)
Fixpoint startswith (p s : string) : bool :=
  match p, s with
  | EmptyString, _ => true
  | String _ _, EmptyString => false
  | String a p', String b s' => if decide (a = b) then startswith p' s' else false
  end.

(** [sub in s] *)
Fixpoint contains (sub s : string) : bool :=
  if startswith sub s then true
  else match s with
       | EmptyString => false
       | String _ s' => contains sub s'
       end.

(** [c.isspace()], which is also what [strip] removes: tab, line feed,
    vertical tab, form feed, carriage return, the four separators 28..31,
    the space, the next-line character 133 (U+0085) and the no-break space
    160 (U+00A0).  These are all the white space characters below 256. *)
Definition isspace (c : ascii) : bool :=
  let n := nat_of_ascii c in
  (((9 <=? n)%nat && (n <=? 13)%nat) || ((28 <=? n)%nat && (n <=? 32)%nat)
   || (n =? 133)%nat || (n =? 160)%nat)%bool.

(** [s.lstrip()], [s.rstrip()] and [s.strip()] *)
Fixpoint lstrip (s : string) : string :=
  match s with
  | EmptyString => EmptyString
  | String c s' => if isspace c then lstrip s' else s
  end.

Definition rstrip (s : string) : string := String.rev (lstrip (String.rev s)).

Definition strip (s : string) : string := rstrip (lstrip s).

(** Every character of [s] is white space. *)
Fixpoint all_space (s : string) : bool :=
  match s with
  | EmptyString => true
  | String c s' => (isspace c && all_space s')%bool
  end.

(** [sep.join(parts)] *)
Fixpoint join (sep : string) (parts : list string) : string :=
  match parts with
  | [] => ""
  | [p] => p
  | p :: rest => p +:+ sep +:+ join sep rest
  end.

(** Truth value of a string: [if s:] *)
Definition truthy (s : string) : bool :=
  match s with EmptyString => false | _ => true end.

(** [s.endswith(suffix)] *)
Fixpoint endswith (suffix s : string) : bool :=
  if decide (s = suffix) then true
  else match s with
       | EmptyString => false
       | String _ s' => endswith suffix s'
       end.

(** [s[:n]] for [n >= 0] *)
Fixpoint take (n : nat) (s : string) : string :=
  match n, s with
  | S n', String c s' => String c (take n' s')
  | _, _ => EmptyString
  end.

End PyStr.

(** ** Python values held in metadata dictionaries *)

Inductive value : Type :=
| VStr (s : string)
| VInt (z : Z).

#[global] Instance value_eq_dec : EqDecision value.
Proof. solve_decision. Defined.

#[global] Instance value_countable : Countable value :=
  inj_countable'
    (fun v => match v with VStr s => inl s | VInt z => inr z end)
    (fun x => match x with inl s => VStr s | inr z => VInt z end)
    (fun v => match v with VStr _ => eq_refl | VInt _ => eq_refl end).

(** [str(v)], which is what an f-string field [{v}] prints. *)
Definition str (v : value) : string :=
  match v with
  | VStr s => s
  | VInt z => pretty z
  end.

(** [d.get(key, default)] *)
Definition dict_get (d : gmap string value) (key : string) (default : value) : value :=
  match d !! key with
  | Some v => v
  | None => default
  end.

(** ** The query service: [rag_service.py] *)

Module RAG.

(** A LangChain [Document]: the chunk text and its metadata dictionary. *)
Record Document : Type := mkDocument {
  page_content : string;
  metadata : gmap string value
}.

#[global] Instance Document_eq_dec : EqDecision Document.
Proof. solve_decision. Defined.

(** [filter_dict]: [{"fund_id": fund_id}], with ["doc_id": {"$in": ids}]
    when a document filter applies. *)
Record Filter : Type := mkFilter {
  filter_fund_id : string;
  filter_doc_id_in : option (list string)
}.

(** The keywords of a broad query (line 52). *)
Definition broad_keywords : list string :=
  ["summarize"; "summary"; "overview"; "describe"; "what is"].

(** [any(keyword in query.lower() for keyword in [...])] *)
Definition is_broad (query : string) : bool :=
  existsb (fun keyword => PyStr.contains keyword (PyStr.lower query)) broad_keywords.

(** Lines 50-56: the result count handed to the retriever. *)
Definition adjusted_top_k (query : string) (top_k : Z) : Z :=
  if is_broad query then Z.max top_k 10 else top_k.

(** [if document_ids:] on an [Optional[List[str]]]. *)
Definition has_document_ids (document_ids : option (list string)) : bool :=
  match document_ids with
  | Some (_ :: _) => true
  | _ => false
  end.

(** Lines 58-61. *)
Definition filter_dict (fund_id : string) (document_ids : option (list string)) : Filter :=
  {| filter_fund_id := fund_id;
     filter_doc_id_in := if has_document_ids document_ids then document_ids else None |}.

(** Lines 102-107: an image source gets its picture attached.  The
    dictionary is the document's own metadata, so the document sees the
    new key as well. *)
Definition attach_image (get_image_data : string -> option string)
    (source : gmap string value) : gmap string value :=
  if decide (source !! "type" = Some (VStr "image")) then
    match source !! "image_path" with
    | Some (VStr path) =>
        match get_image_data path with
        | Some image_data =>
            if PyStr.truthy image_data
            then <["image_base64" := VStr image_data]> source
            else source
        | None => source
        end
    | Some (VInt _) => source
    | None => source
    end
  else source.

(** [doc.metadata.get("file_name", "Unknown")] *)
Definition source_name (doc : Document) : value :=
  dict_get (metadata doc) "file_name" (VStr "Unknown").

(** Lines 113-115 on the insertion-ordered dictionary [docs_by_source]:
    a new key goes to the end, a known key keeps its place and its list
    grows by [doc]. *)
Fixpoint add_doc (name : value) (doc : Document)
    (by_source : list (value * list Document)) : list (value * list Document) :=
  match by_source with
  | [] => [(name, [doc])]
  | (name', source_docs) :: rest =>
      if decide (name = name')
      then (name', source_docs ++ [doc]) :: rest
      else (name', source_docs) :: add_doc name doc rest
  end.

(** Lines 110-115. *)
Definition docs_by_source (docs : list Document) : list (value * list Document) :=
  fold_left (fun by_source doc => add_doc (source_name doc) doc by_source) docs [].

(** The variables that the inner loop of lines 123-126 assigns, and the
    loop variable [doc] itself.  They outlive the loop. *)
Record Locals : Type := mkLocals {
  doc_type : value;
  page : value;
  chunk : value;
  doc : Document
}.

(** Lines 123-126: each pass overwrites the four variables. *)
Definition inner_loop (source_docs : list Document) (vars : option Locals) : option Locals :=
  fold_left
    (fun _ d =>
       Some {| doc_type := dict_get (metadata d) "type" (VStr "text");
               page := dict_get (metadata d) "page_number" (VStr "Unknown page");
               chunk := dict_get (metadata d) "chunk" (VStr "Unknown chunk");
               doc := d |})
    source_docs vars.

(** Line 121. *)
Definition header (name : value) : string :=
  PyStr.nl +:+ "--- DOCUMENT: " +:+ str name +:+ " ---" +:+ PyStr.nl.

(** Lines 128-133: the entry appended after the inner loop, from the
    variables as that loop left them. *)
Definition render (vars : Locals) : string :=
  if decide (doc_type vars = VStr "table") then
    "[TABLE from page " +:+ str (page vars) +:+ ", chunk " +:+ str (chunk vars)
      +:+ "]:" +:+ PyStr.nl +:+ page_content (doc vars)
  else if decide (doc_type vars = VStr "image") then
    "[IMAGE from page " +:+ str (page vars) +:+ ", chunk " +:+ str (chunk vars) +:+ "]"
  else
    "[CONTENT from page " +:+ str (page vars) +:+ ", chunk " +:+ str (chunk vars)
      +:+ "]:" +:+ PyStr.nl +:+ page_content (doc vars).

(** One pass of the outer loop (lines 119-133).  [None] is the
    [NameError] of reading [doc_type] before any assignment. *)
Definition format_group (state : option (list string * option Locals))
    (entry : value * list Document) : option (list string * option Locals) :=
  match state with
  | None => None
  | Some (formatted, vars) =>
      let formatted := formatted ++ [header (fst entry)] in
      match inner_loop (snd entry) vars with
      | None => None
      | Some vars' => Some (formatted ++ [render vars'], Some vars')
      end
  end.

(** Lines 118-133. *)
Definition formatted_docs (by_source : list (value * list Document)) : option (list string) :=
  fst <$> fold_left format_group by_source (Some ([], None)).

(** Lines 109-135: the context string. *)
Definition format_context (docs : list Document) : option string :=
  PyStr.join (PyStr.nl +:+ PyStr.nl) <$> formatted_docs (docs_by_source docs).

(** Line 156. *)
Definition source_id (source : gmap string value) : string :=
  str (dict_get source "file_name" (VStr "")) +:+ "-"
    +:+ str (dict_get source "page_number" (VStr "")) +:+ "-"
    +:+ str (dict_get source "type" (VStr "")).

(** Lines 155-159, one pass: [unique_sources] and the set [source_paths]. *)
Definition dedup_step (state : list (gmap string value) * gset string)
    (source : gmap string value) : list (gmap string value) * gset string :=
  let '(unique, source_paths) := state in
  if decide (source_id source ∈ source_paths) then state
  else (unique ++ [source], {[source_id source]} ∪ source_paths).

(** Lines 153-159. *)
Definition unique_sources (sources : list (gmap string value)) : list (gmap string value) :=
  fst (fold_left dedup_step sources ([], ∅)).

(** What one call of [query] computes. *)
Record Run : Type := mkRun {
  run_top_k : Z;
  run_filter : Filter;
  run_docs : list Document;
  run_sources : list (gmap string value);
  run_context : string;
  run_answer : string;
  run_unique_sources : list (gmap string value)
}.

Section Query.

(** The vector index: [similarity_search(query, k, filter)] on the
    stored chunks. *)
Variable similarity_search : list Document -> string -> Z -> Filter -> list Document.

(** [RetrievalQA] of type "stuff" over [self.llm] and [self.qa_prompt]:
    the completion for the documents its retriever returns and the
    question; [None] when the call raises. *)
Variable qa_chain : list Document -> string -> option string.

(** [DocumentProcessor.get_image_data] *)
Variable get_image_data : string -> option string.

(** [query] with the context assembly of lines 109-135 left open.
    [vectordb] is [None] when the index could not be loaded, and then
    the first search raises. *)
Definition query_with (assemble : list Document -> option string)
    (vectordb : option (list Document))
    (query fund_id : string) (top_k : Z) (document_ids : option (list string))
    : option Run :=
  index ← vectordb;
  let k := adjusted_top_k query top_k in
  let flt := filter_dict fund_id document_ids in
  let retriever := fun q => similarity_search index q k flt in
  let docs :=
    (fun d => {| page_content := page_content d;
                 metadata := attach_image get_image_data (metadata d) |})
      <$> retriever query in
  let sources := metadata <$> docs in
  context ← assemble docs;
  answer ← qa_chain (retriever query) query;
  Some {| run_top_k := k;
          run_filter := flt;
          run_docs := docs;
          run_sources := sources;
          run_context := context;
          run_answer := answer;
          run_unique_sources := unique_sources sources |}.

Definition query_run := query_with format_context.

(** [RAGService.query]: the answer and the deduplicated sources. *)
Definition query (vectordb : option (list Document))
    (q fund_id : string) (top_k : Z) (document_ids : option (list string))
    : option (string * list (gmap string value)) :=
  (fun r => (run_answer r, run_unique_sources r))
    <$> query_run vectordb q fund_id top_k document_ids.

End Query.

End RAG.

(** ** The fund store: [mongodb_service_fixed.py] *)

Module Mongo.

(** A record of the [funds] collection, without its [_id], which is the
    key it is stored under.  [summary] and [document_count] are read with
    [.get], so they may be absent. *)
Record Fund : Type := mkFund {
  fund_name : string;
  summary : option string;
  created_at : Z;
  updated_at : Z;
  document_count : option Z
}.

#[global] Instance Fund_eq_dec : EqDecision Fund.
Proof. solve_decision. Defined.

(** A record of the [documents] collection. *)
Record DocRecord : Type := mkDocRecord {
  doc_oid : string;
  doc_file_name : string;
  doc_file_type : string;
  doc_id : string;
  doc_size_bytes : Z;
  doc_fund_id : string;
  doc_created_at : Z
}.

(** [doc_data] as [process_file] builds it (lines 270-275). *)
Record DocData : Type := mkDocData {
  data_file_name : string;
  data_file_type : string;
  data_doc_id : string;
  data_size_bytes : Z
}.

(** The database: [funds_collection] by [_id], [documents_collection] in
    insertion order. *)
Record DB : Type := mkDB {
  funds_collection : gmap string Fund;
  documents_collection : list DocRecord
}.

Definition is_hex (c : ascii) : bool :=
  let n := nat_of_ascii c in
  (((48 <=? n)%nat && (n <=? 57)%nat)
   || ((65 <=? n)%nat && (n <=? 70)%nat)
   || ((97 <=? n)%nat && (n <=? 102)%nat))%bool.

Fixpoint all_hex (s : string) : bool :=
  match s with
  | EmptyString => true
  | String c s' => (is_hex c && all_hex s')%bool
  end.

(** [ObjectId(s)]: 24 hexadecimal digits, read without regard to case;
    [None] is [InvalidId].  The result is the identifier as [str] prints
    it, in lower case. *)
Definition ObjectId (s : string) : option string :=
  if ((String.length s =? 24)%nat && all_hex s)%bool then Some (PyStr.lower s) else None.

(** Each operation takes [self.db], which is [None] when the connection
    failed, and returns it with the result. *)

(** [create_fund]; [new_oid] is the [_id] the database assigns. *)
Definition create_fund (db : option DB) (name : string) (fund_summary : option string)
    (now : Z) (new_oid : string) : option DB * option string :=
  match db with
  | None => (db, None)
  | Some d =>
      match funds_collection d !! new_oid with
      | Some _ => (db, None)
      | None =>
          let fund := {| fund_name := name;
                         summary := Some (match fund_summary with
                                          | Some s => s
                                          | None => "Empty"
                                          end);
                         created_at := now;
                         updated_at := now;
                         document_count := Some 0 |} in
          (Some {| funds_collection := <[new_oid := fund]> (funds_collection d);
                   documents_collection := documents_collection d |},
           Some new_oid)
      end
  end.

(** [list_funds] *)
Definition list_funds (db : option DB) : list (string * Fund) :=
  match db with
  | None => []
  | Some d => map_to_list (funds_collection d)
  end.

(** [get_fund]: the fund with its [_id]. *)
Definition get_fund (db : option DB) (fund_id : string) : option (string * Fund) :=
  d ← db;
  object_id ← ObjectId fund_id;
  fund ← funds_collection d !! object_id;
  Some (object_id, fund).

(** [$inc] of [document_count] by one; an absent field counts as 0. *)
Definition inc_document_count (fund : Fund) : Fund :=
  {| fund_name := fund_name fund;
     summary := summary fund;
     created_at := created_at fund;
     updated_at := updated_at fund;
     document_count := Some (match document_count fund with
                             | Some n => n + 1
                             | None => 1
                             end) |}.

(** [add_document_to_fund]: the record is inserted before [ObjectId] is
    applied to [fund_id], so it stays when that raises. *)
Definition add_document_to_fund (db : option DB) (fund_id : string) (doc_data : DocData)
    (now : Z) (new_oid : string) : option DB * option string :=
  match db with
  | None => (db, None)
  | Some d =>
      let record := {| doc_oid := new_oid;
                       doc_file_name := data_file_name doc_data;
                       doc_file_type := data_file_type doc_data;
                       doc_id := data_doc_id doc_data;
                       doc_size_bytes := data_size_bytes doc_data;
                       doc_fund_id := fund_id;
                       doc_created_at := now |} in
      let documents := documents_collection d ++ [record] in
      match ObjectId fund_id with
      | None => (Some {| funds_collection := funds_collection d;
                         documents_collection := documents |}, None)
      | Some object_id =>
          (Some {| funds_collection := alter inc_document_count object_id (funds_collection d);
                   documents_collection := documents |},
           Some new_oid)
      end
  end.

Definition set_summary (fund : Fund) (s : string) (now : Z) : Fund :=
  {| fund_name := fund_name fund;
     summary := Some s;
     created_at := created_at fund;
     updated_at := now;
     document_count := document_count fund |}.

(** [update_fund_summary]: [modified_count > 0] holds when the fund is
    found and the update changes it. *)
Definition update_fund_summary (db : option DB) (fund_id : string) (s : string) (now : Z)
    : option DB * bool :=
  match db with
  | None => (db, false)
  | Some d =>
      match ObjectId fund_id with
      | None => (db, false)
      | Some object_id =>
          match funds_collection d !! object_id with
          | None => (db, false)
          | Some fund =>
              (Some {| funds_collection :=
                         <[object_id := set_summary fund s now]> (funds_collection d);
                       documents_collection := documents_collection d |},
               bool_decide (set_summary fund s now ≠ fund))
          end
      end
  end.

(** [get_fund_documents] *)
Definition get_fund_documents (db : option DB) (fund_id : string) : list DocRecord :=
  match db with
  | None => []
  | Some d => filter (fun r => doc_fund_id r = fund_id) (documents_collection d)
  end.

(** [delete_fund] *)
Definition delete_fund (db : option DB) (fund_id : string) : option DB * bool :=
  match db with
  | None => (db, false)
  | Some d =>
      match ObjectId fund_id with
      | None => (db, false)
      | Some object_id =>
          let documents := filter (fun r => doc_fund_id r ≠ fund_id) (documents_collection d) in
          let success := bool_decide (is_Some (funds_collection d !! object_id)) in
          (Some {| funds_collection := delete object_id (funds_collection d);
                   documents_collection := documents |},
           success)
      end
  end.

Definition set_count (fund : Fund) (n : Z) : Fund :=
  {| fund_name := fund_name fund;
     summary := summary fund;
     created_at := created_at fund;
     updated_at := updated_at fund;
     document_count := Some n |}.

(** [funds_collection.update_one({"_id": oid}, {"$set": {"document_count": n}})],
    as [main.py] calls it directly (lines 274-277). *)
Definition set_document_count (db : option DB) (object_id : string) (n : Z) : option DB :=
  match db with
  | None => None
  | Some d =>
      Some {| funds_collection := alter (fun fund => set_count fund n) object_id (funds_collection d);
              documents_collection := documents_collection d |}
  end.

(** [get_document]: the first record with this [doc_id]; failing that,
    the record with this [_id], when the identifier is an [ObjectId]. *)
Definition get_document (db : option DB) (document_id : string) : option DocRecord :=
  d ← db;
  match List.find (fun r => bool_decide (doc_id r = document_id)) (documents_collection d) with
  | Some document => Some document
  | None =>
      match ObjectId document_id with
      | Some object_id =>
          List.find (fun r => bool_decide (doc_oid r = object_id)) (documents_collection d)
      | None => None
      end
  end.

End Mongo.

(** ** The application state *)

(** The two stores the services share: the database behind
    [MongoDBService] and the vector index [DocumentProcessor.vectordb]
    ([None] when it could not be loaded). *)
Record App : Type := mkApp {
  mongodb : option Mongo.DB;
  vectordb : option (list RAG.Document)
}.

(** ** The indexer: [document_processor.py] *)

Module DocumentProcessor.

(** The arguments of [RecursiveCharacterTextSplitter]. *)
Record Splitter : Type := mkSplitter {
  chunk_size : Z;
  chunk_overlap : Z;
  separators : list string;
  keep_separator : bool
}.

(** Lines 164-169. *)
Definition text_splitter : Splitter :=
  {| chunk_size := 1000;
     chunk_overlap := 200;
     separators := [PyStr.nl +:+ PyStr.nl; PyStr.nl; " "; ""];
     keep_separator := true |}.

(** [s.replace(".", "")] *)
Fixpoint remove_dots (s : string) : string :=
  match s with
  | EmptyString => EmptyString
  | String c s' => if decide (c = "."%char) then remove_dots s' else String c (remove_dots s')
  end.

(** Lines 177-184: the metadata of chunk [i] out of [total]. *)
Definition chunk_metadata (metadata : gmap string value) (doc_id : string)
    (total i : nat) : gmap string value :=
  <["file_name" := dict_get metadata "file_name" (VStr "Unknown")]>
    (<["doc_id" := VStr doc_id]>
       (<["total_chunks" := VInt (Z.of_nat total)]>
          (<["chunk" := VInt (Z.of_nat i)]>
             (<["chunk_id" := VStr (doc_id +:+ "_" +:+ pretty (Z.of_nat i))]> metadata)))).

(** Lines 175-187: every chunk gets its metadata. *)
Definition set_metadata (metadata : gmap string value) (doc_id : string)
    (docs : list RAG.Document) : list RAG.Document :=
  imap (fun i d => {| RAG.page_content := RAG.page_content d;
                      RAG.metadata := chunk_metadata metadata doc_id (length docs) i |})
       docs.

Section Processor.

(** [RecursiveCharacterTextSplitter.split_text] of LangChain. *)
Variable split_text : Splitter -> string -> list string.

(** Lines 214-246: the text of the file at a path with a given
    extension; [None] when reading raises. *)
Variable extract_text : string -> string -> option string.

(** [os.path.basename], the extension of [os.path.splitext] and
    [os.path.getsize] ([None] when it raises). *)
Variable basename : string -> string.
Variable splitext : string -> string.
Variable getsize : string -> option Z.

(** [datetime.isoformat] of a time stamp. *)
Variable isoformat : Z -> string.

(** [text_splitter.create_documents([text])] *)
Definition create_documents (text : string) : list RAG.Document :=
  (fun t => {| RAG.page_content := t; RAG.metadata := ∅ |}) <$> split_text text_splitter text.

(** The chunks that [_add_to_pinecone] builds (lines 161-187);
    [uuid4] is the identifier drawn at line 161. *)
Definition chunks (text : string) (metadata : gmap string value) (uuid4 : string)
    : list RAG.Document :=
  set_metadata metadata uuid4 (create_documents text).

(** [_add_to_pinecone]: the index after the call and the document
    identifier; no identifier when the index is absent and the call
    raises. *)
Definition _add_to_pinecone (index : option (list RAG.Document))
    (text : string) (metadata : gmap string value) (uuid4 : string)
    : option (list RAG.Document) * option string :=
  match index with
  | Some stored => (Some (stored ++ chunks text metadata uuid4), Some uuid4)
  | None => (None, None)
  end.

(** Lines 251-256. *)
Definition file_metadata (file_name file_extension fund_id : string) (now : Z)
    : gmap string value :=
  <["created_at" := VStr (isoformat now)]>
    (<["fund_id" := VStr fund_id]>
       (<["file_type" := VStr (remove_dots file_extension)]>
          (<["file_name" := VStr file_name]> ∅))).

(** Line 258: [not text or text.strip() == ""] *)
Definition is_blank (text : string) : bool :=
  (negb (PyStr.truthy text) || bool_decide (PyStr.strip text = ""))%bool.

(** [process_file].  [now] is the clock, [uuid4] the identifier drawn
    for the document and [new_oid] the [_id] the database assigns. *)
Definition process_file (app : App) (file_path fund_id : string)
    (now : Z) (uuid4 new_oid : string) : App * bool :=
  let file_extension := PyStr.lower (splitext file_path) in
  let file_name := basename file_path in
  match extract_text file_path file_extension with
  | None => (app, false)
  | Some text =>
      let metadata := file_metadata file_name file_extension fund_id now in
      if is_blank text then (app, false)
      else
        match _add_to_pinecone (vectordb app) text metadata uuid4 with
        | (_, None) => (app, false)
        | (index, Some doc_id) =>
            match getsize file_path with
            | None => ({| mongodb := mongodb app; vectordb := index |}, false)
            | Some size =>
                let doc_data := {| Mongo.data_file_name := file_name;
                                   Mongo.data_file_type := remove_dots file_extension;
                                   Mongo.data_doc_id := doc_id;
                                   Mongo.data_size_bytes := size |} in
                ({| mongodb := fst (Mongo.add_document_to_fund (mongodb app) fund_id
                                      doc_data now new_oid);
                    vectordb := index |},
                 true)
            end
        end
  end.

End Processor.

End DocumentProcessor.

(** ** The endpoints: [main.py] *)

Module Api.

(** What an endpoint returns: a body, or [HTTPException(status_code)]. *)
Inductive Response (A : Type) : Type :=
| Ok (body : A)
| HTTPException (status_code : Z).
Arguments Ok {A} body.
Arguments HTTPException {A} status_code.

(** The calls an endpoint makes to the services, in order. *)
Inductive Call : Type :=
| RagQuery (query fund_id : string) (top_k : Z)
| UpdateFundSummary (fund_id summary : string).

Record ChatRequest : Type := mkChatRequest {
  message : string;
  top_k : Z;
  document_ids : option (list string)
}.

Record ChatResponse : Type := mkChatResponse {
  chat_answer : string;
  chat_sources : list (gmap string value)
}.

Record DocumentInfo : Type := mkDocumentInfo {
  document_id : string;
  file_name : string;
  file_type : string;
  info_created_at : Z
}.

Record FundResponse : Type := mkFundResponse {
  fund_id : string;
  fund_name : string;
  summary : string;
  created_at : Z;
  updated_at : Z;
  document_count : Z;
  documents : list DocumentInfo
}.

(** The answer of the prompt when the context does not hold one. *)
Definition not_enough_information : string :=
  "I don't have enough information to answer this question.".

(** Lines 227-232. *)
Definition document_info (record : Mongo.DocRecord) : DocumentInfo :=
  {| document_id := Mongo.doc_oid record;
     file_name := Mongo.doc_file_name record;
     file_type := Mongo.doc_file_type record;
     info_created_at := Mongo.doc_created_at record |}.

(** [fund.get("document_count", 0)] *)
Definition stored_count (fund : Mongo.Fund) : Z :=
  match Mongo.document_count fund with
  | Some n => n
  | None => 0
  end.

(** The condition of line 235, with [live] for [len(document_list)]. *)
Definition summary_needed (fund : Mongo.Fund) (live : Z) : bool :=
  (bool_decide (Mongo.summary fund = Some "Empty")
   || (bool_decide (stored_count fund ≠ live) && (0 <? stored_count fund)))%bool.

(** Lines 239-242. *)
Definition summary_query (live : Z) : string :=
  if 1 <? live then
    "Create a comprehensive summary of this fund that covers all " +:+ pretty live
      +:+ " documents. Include key information from each document."
  else "Provide a good summary of this fund based on the available document.".

(** Lines 200-205, and lines 263-269 with 283-285: the response for a
    fund, with the count and the documents it reports. *)
Definition fund_response (object_id : string) (fund : Mongo.Fund)
    (count : Z) (document_list : list DocumentInfo) : FundResponse :=
  {| fund_id := object_id;
     fund_name := Mongo.fund_name fund;
     summary := match Mongo.summary fund with
                | Some s => s
                | None => "No summary available"
                end;
     created_at := Mongo.created_at fund;
     updated_at := Mongo.updated_at fund;
     document_count := count;
     documents := document_list |}.

(** Lines 304-311: the result count that [chat_with_fund] passes on. *)
Definition chat_top_k (request : ChatRequest) (doc_count : nat) : Z :=
  if ((1 <? doc_count)%nat && negb (RAG.has_document_ids (document_ids request)))%bool
  then Z.max (top_k request) (Z.min 15 (5 * Z.of_nat doc_count))
  else top_k request.

(** Lines 323-332: the note on the documents an answer draws on.  The
    names are a Python [set]; they are listed in the order of the set. *)
Definition doc_names (sources : list (gmap string value)) : gset value :=
  list_to_set (omap (fun s => s !! "file_name") sources).

Definition reference_note (names : gset value) : string :=
  PyStr.nl +:+ PyStr.nl +:+ "This answer references information from multiple documents: "
    +:+ PyStr.join ", " ((fun name => "'" +:+ str name +:+ "'") <$> elements names) +:+ ".".

Section Endpoints.

Variable similarity_search : list RAG.Document -> string -> Z -> RAG.Filter -> list RAG.Document.
Variable qa_chain : list RAG.Document -> string -> option string.
Variable get_image_data : string -> option string.

Definition rag_run := RAG.query_run similarity_search qa_chain get_image_data.
Definition rag_query := RAG.query similarity_search qa_chain get_image_data.

(** [list_funds]: [GET /api/funds] *)
Definition list_funds (app : App) : list FundResponse :=
  (fun entry => fund_response (fst entry) (snd entry) (stored_count (snd entry)) [])
    <$> Mongo.list_funds (mongodb app).

(** Lines 235-260 of [get_fund]: the summary is generated and stored
    when needed.  The result is the database, the fund as the rest of
    the endpoint sees it, and the calls made.  An exception in the
    [try] block is caught there, the one of line 251 included. *)
Definition refresh_summary (app : App) (id : string) (fund : string * Mongo.Fund)
    (live : Z) (now : Z) : option Mongo.DB * option (string * Mongo.Fund) * list Call :=
  if summary_needed (snd fund) live then
    let q := summary_query live in
    match rag_query (vectordb app) q id 10 None with
    | None => (mongodb app, Some fund, [RagQuery q id 10])
    | Some (generated_summary, _) =>
        if (PyStr.truthy generated_summary
            && bool_decide (generated_summary ≠ not_enough_information))%bool
        then
          let '(db, update_success) :=
            Mongo.update_fund_summary (mongodb app) id generated_summary now in
          (db,
           if update_success then Mongo.get_fund db id else Some fund,
           [RagQuery q id 10; UpdateFundSummary id generated_summary])
        else (mongodb app, Some fund, [RagQuery q id 10])
    end
  else (mongodb app, Some fund, []).

(** [get_fund]: [GET /api/funds/{fund_id}] *)
Definition get_fund (app : App) (id : string) (now : Z)
    : App * Response FundResponse * list Call :=
  match Mongo.get_fund (mongodb app) id with
  | None => (app, HTTPException 404, [])
  | Some fund =>
      let documents := Mongo.get_fund_documents (mongodb app) id in
      let document_list := document_info <$> documents in
      let live := Z.of_nat (length document_list) in
      let '(db, refreshed, calls) := refresh_summary app id fund live now in
      match refreshed with
      | None => ({| mongodb := db; vectordb := vectordb app |}, HTTPException 500, calls)
      | Some (object_id, fund') =>
          let db' := if decide (stored_count fund' ≠ live)
                     then Mongo.set_document_count db object_id live
                     else db in
          ({| mongodb := db'; vectordb := vectordb app |},
           Ok (fund_response object_id fund' live document_list),
           calls)
      end
  end.

(** Lines 294-318 of [chat_with_fund]: the query that the chat issues,
    with the number of documents of the fund. *)
Definition chat_query (app : App) (id : string) (request : ChatRequest)
    : Response (nat * RAG.Run) :=
  match Mongo.get_fund (mongodb app) id with
  | None => HTTPException 404
  | Some _ =>
      let doc_count := length (Mongo.get_fund_documents (mongodb app) id) in
      match rag_run (vectordb app) (message request) id
                    (chat_top_k request doc_count) (document_ids request) with
      | None => HTTPException 500
      | Some run => Ok (doc_count, run)
      end
  end.

(** [chat_with_fund]: [POST /api/funds/{fund_id}/chat] *)
Definition chat_with_fund (app : App) (id : string) (request : ChatRequest)
    : Response ChatResponse :=
  match chat_query app id request with
  | HTTPException code => HTTPException code
  | Ok (doc_count, run) =>
      let answer := RAG.run_answer run in
      let sources := RAG.run_unique_sources run in
      let names := doc_names sources in
      let answer :=
        if ((1 <? doc_count)%nat && (1 <? size names)%nat
            && negb (PyStr.contains "references information from" answer))%bool
        then answer +:+ reference_note names
        else answer in
      Ok {| chat_answer := answer; chat_sources := sources |}
  end.

(** [delete_fund]: [DELETE /api/funds/{fund_id}] *)
Definition delete_fund (app : App) (id : string) : App * Response unit :=
  match Mongo.get_fund (mongodb app) id with
  | None => (app, HTTPException 404)
  | Some _ =>
      let '(db, success) := Mongo.delete_fund (mongodb app) id in
      ({| mongodb := db; vectordb := vectordb app |},
       if success then Ok tt else HTTPException 500)
  end.

End Endpoints.

End Api.

(** ** The upload endpoints: [main.py] *)

Module Upload.

(** The body of [POST /api/chat/upload] and of
    [POST /api/funds/{fund_id}/chat/upload]. *)
Record AttachmentResponse : Type := mkAttachmentResponse {
  att_filename : string;
  att_file_type : string;
  att_content : option string;
  att_document_id : option string;
  att_message : option string;
  att_full_path : option string
}.

(** Line 495: the content, cut to 2000 characters and marked when longer. *)
Definition content_preview (file_content : string) : string :=
  if (2000 <? String.length file_content)%nat
  then PyStr.take 2000 file_content +:+ "..."
  else file_content.

(** Lines 529-533: the first record whose file name starts with the base
    name and an underscore and ends with the extension. *)
Definition matching_doc (base_name extension : string) (documents : list Mongo.DocRecord)
    : option Mongo.DocRecord :=
  List.find
    (fun doc => (PyStr.startswith (base_name +:+ "_") (Mongo.doc_file_name doc)
                 && PyStr.endswith extension (Mongo.doc_file_name doc))%bool)
    documents.

(** Lines 538-539: [sorted(documents, key=created_at, reverse=True)[0]],
    the first of the records with the greatest time of creation. *)
Fixpoint newest_doc (documents : list Mongo.DocRecord) : option Mongo.DocRecord :=
  match documents with
  | [] => None
  | doc :: rest =>
      match newest_doc rest with
      | Some later =>
          if Mongo.doc_created_at doc <? Mongo.doc_created_at later
          then Some later
          else Some doc
      | None => Some doc
      end
  end.

(** Lines 524-539. *)
Definition latest_doc (base_name extension : string) (documents : list Mongo.DocRecord)
    : option Mongo.DocRecord :=
  match documents with
  | [] => None
  | _ =>
      match matching_doc base_name extension documents with
      | Some doc => Some doc
      | None => newest_doc documents
      end
  end.

(** One status record of [POST /api/upload]. *)
Record DocumentUploadResponse : Type := mkDocumentUploadResponse {
  filename : string;
  status : string;
  message : string;
  fund_id : option string
}.

(** An uploaded file, with what the environment yields while it is handled:
    [first_pass] is the text that lines 74-102 add to [processed_documents],
    or the text of the exception that reaches line 108; [second_save] is the
    path that lines 158-161 save the file under, or the text of the exception
    they raise; then the clock, the identifier drawn and the [_id] assigned
    while the file is processed. *)
Record UploadFile : Type := mkUploadFile {
  upload_filename : string;
  first_pass : string + string;
  second_save : string + string;
  upload_now : Z;
  upload_uuid4 : string;
  upload_oid : string
}.

(** Lines 72-113, one pass. *)
Definition first_step (state : list DocumentUploadResponse * list string) (file : UploadFile)
    : list DocumentUploadResponse * list string :=
  let '(responses, processed_documents) := state in
  match first_pass file with
  | inl file_content =>
      (responses ++ [{| filename := upload_filename file;
                        status := "success";
                        message := "Document processed successfully";
                        fund_id := None |}],
       processed_documents ++ [file_content])
  | inr e =>
      (responses ++ [{| filename := upload_filename file;
                        status := "error";
                        message := "Error: " +:+ e;
                        fund_id := None |}],
       processed_documents)
  end.

(** Line 122. *)
Definition char_limit (documents : nat) : Z :=
  Z.min (4000 * 10) (40000 / Z.max 1 (Z.of_nat documents)).

(** Line 119. *)
Definition separator : string :=
  PyStr.nl +:+ PyStr.nl +:+ "--- DOCUMENT SEPARATOR ---" +:+ PyStr.nl +:+ PyStr.nl.

(** Line 131: the user message. *)
Definition summary_prompt (documents : nat) (context : string) : string :=
  "Create a brief summary of this fund based on the following document(s) (limited to "
    +:+ pretty (Z.of_nat documents) +:+ " documents, first "
    +:+ pretty (char_limit documents / 1000) +:+ "K chars):" +:+ PyStr.nl +:+ context.

(** [responses[idx].status = "error"; responses[idx].message = msg];
    [None] is the [IndexError]. *)
Definition mark_error (idx : nat) (msg : string) (responses : list DocumentUploadResponse)
    : option (list DocumentUploadResponse) :=
  match responses !! idx with
  | Some response =>
      Some (<[idx := {| filename := filename response;
                        status := "error";
                        message := msg;
                        fund_id := fund_id response |}]> responses)
  | None => None
  end.

(** Lines 171-172. *)
Definition set_fund_id (id : string) (response : DocumentUploadResponse)
    : DocumentUploadResponse :=
  {| filename := filename response;
     status := status response;
     message := message response;
     fund_id := Some id |}.

Section Endpoints.

Variable split_text : DocumentProcessor.Splitter -> string -> list string.
Variable extract_text : string -> string -> option string.
Variable basename splitext : string -> string.
Variable getsize : string -> option Z.
Variable isoformat : Z -> string.

(** The root that [os.path.splitext] returns beside the extension. *)
Variable splitroot : string -> string.

(** [openai_client.chat.completions.create] with the system and the user
    message: the content of the first choice, or the text of the exception. *)
Variable complete : string -> string -> string + string.

Definition process_file :=
  DocumentProcessor.process_file split_text extract_text basename splitext getsize isoformat.

(** [upload_chat_attachment]: [file_content] is the text of lines 470-489. *)
Definition upload_chat_attachment (name file_content file_path : string) : AttachmentResponse :=
  {| att_filename := name;
     att_file_type := DocumentProcessor.remove_dots (PyStr.lower (splitext name));
     att_content := Some (content_preview file_content);
     att_document_id := None;
     att_message := None;
     att_full_path := Some file_path |}.

(** [upload_fund_chat_attachment]: [saved] is the path [save_file] returns,
    [None] when reading or saving raises. *)
Definition upload_fund_chat_attachment (app : App) (id name : string)
    (saved : option string) (now : Z) (uuid4 new_oid : string)
    : App * Api.Response AttachmentResponse :=
  match Mongo.get_fund (mongodb app) id with
  | None => (app, Api.HTTPException 404)
  | Some _ =>
      match saved with
      | None => (app, Api.HTTPException 500)
      | Some file_path =>
          let '(app', success) := process_file app file_path id now uuid4 new_oid in
          if success then
            let documents := Mongo.get_fund_documents (mongodb app') id in
            let file_type := DocumentProcessor.remove_dots (splitext name) in
            match latest_doc (splitroot name) (splitext name) documents with
            | Some doc =>
                (app',
                 Api.Ok {| att_filename := name;
                           att_file_type := file_type;
                           att_content := None;
                           att_document_id := Some (Mongo.doc_id doc);
                           att_message := Some "Document processed and added to fund chat";
                           att_full_path := None |})
            | None =>
                (app',
                 Api.Ok {| att_filename := name;
                           att_file_type := file_type;
                           att_content := None;
                           att_document_id := None;
                           att_message := Some "Document processed but metadata not found";
                           att_full_path := None |})
            end
          else (app', Api.HTTPException 500)
      end
  end.

(** Lines 115-145. *)
Definition fund_summary (processed_documents : list string) : string :=
  match processed_documents with
  | [] => "No content available for summary"
  | _ =>
      let all_docs_content := PyStr.join separator processed_documents in
      let limit := char_limit (length processed_documents) in
      let context := PyStr.take (Z.to_nat limit) all_docs_content in
      match complete "You are an assistant that creates concise fund summaries."
                     (summary_prompt (length processed_documents) context) with
      | inl content => PyStr.strip content
      | inr api_error =>
          if PyStr.contains "insufficient_quota" api_error
          then "No summary available - OpenAI API quota exceeded. You may need to update your billing information or use a different API key."
          else "Error generating summary: " +:+ PyStr.take 100 api_error
      end
  end.

(** Lines 156-169, one pass on file [idx].  The responses are [None] once
    an [IndexError] has escaped the loop. *)
Definition second_step (id : string)
    (state : App * option (list DocumentUploadResponse)) (entry : nat * UploadFile)
    : App * option (list DocumentUploadResponse) :=
  let '(idx, file) := entry in
  match state with
  | (app, None) => (app, None)
  | (app, Some responses) =>
      match second_save file with
      | inl file_path =>
          let '(app', success) :=
            process_file app file_path id (upload_now file) (upload_uuid4 file)
              (upload_oid file) in
          if success then (app', Some responses)
          else (app', mark_error idx "Failed to process document" responses)
      | inr e => (app, mark_error idx ("Error: " +:+ e) responses)
      end
  end.

(** [upload_document]: [POST /api/upload].  [now] and [new_oid] are the
    clock and the [_id] assigned when the fund is created. *)
Definition upload_document (app : App) (files : list UploadFile) (fund_name : string)
    (now : Z) (new_oid : string) : App * Api.Response (list DocumentUploadResponse) :=
  let '(responses, processed_documents) := fold_left first_step files ([], []) in
  match Mongo.create_fund (mongodb app) fund_name (Some (fund_summary processed_documents))
          now new_oid with
  | (_, None) => (app, Api.HTTPException 500)
  | (db, Some id) =>
      if PyStr.truthy id then
        match fold_left (second_step id) (imap pair files)
                ({| mongodb := db; vectordb := vectordb app |}, Some responses) with
        | (app', Some responses') => (app', Api.Ok (set_fund_id id <$> responses'))
        | (app', None) => (app', Api.HTTPException 500)
        end
      else ({| mongodb := db; vectordb := vectordb app |}, Api.HTTPException 500)
  end.

End Endpoints.

End Upload.

(** ** The specification's vocabulary *)

Module Spec.

(** [sub] occurs in [s]. *)
Definition Substring (sub s : string) : Prop :=
  ∃ pre suf, s = pre +:+ sub +:+ suf.

(** A broadening query: its lower-cased text contains one of the
    keywords. *)
Definition broadening (query : string) : Prop :=
  ∃ keyword, keyword ∈ RAG.broad_keywords ∧ Substring keyword (PyStr.lower query).

(** The first element of [l] for each key, in the order of [l]. *)
Fixpoint first_by_key {A K} `{EqDecision K} (key : A → K) (l : list A) : list A :=
  match l with
  | [] => []
  | x :: l' => x :: filter (fun y => key y ≠ key x) (first_by_key key l')
  end.

(** The values of a list in the order of their first occurrence. *)
Definition first_seen {A} `{EqDecision A} (l : list A) : list A :=
  first_by_key id l.

(** The chunks of one file name are next to each other in [l]: a chunk
    between two chunks of one file name has that file name. *)
Definition contiguous (l : list RAG.Document) : Prop :=
  ∀ (i j m : nat) a c b,
    (i < j < m)%nat →
    l !! i = Some a → l !! j = Some c → l !! m = Some b →
    RAG.source_name a = RAG.source_name b →
    RAG.source_name c = RAG.source_name a.

(** The identity key as the specification writes it:
    [f"{file_name}|{page_number}|{content_type}"], the content type being
    the metadata entry ["type"]. *)
Definition source_key (source : gmap string value) : string :=
  str (dict_get source "file_name" (VStr "")) +:+ "|"
    +:+ str (dict_get source "page_number" (VStr "")) +:+ "|"
    +:+ str (dict_get source "type" (VStr "")).

(** The regeneration condition as the specification writes it: the
    summary is the sentinel, or the stored count differs from the live
    count while the live count is positive. *)
Definition regeneration_due (fund : Mongo.Fund) (live : Z) : Prop :=
  Mongo.summary fund = Some "Empty"
  ∨ (Api.stored_count fund ≠ live ∧ 0 < live).

(** The rendering of one chunk that the specification describes: by its
    own type, page and chunk index. *)
Definition render_chunk (d : RAG.Document) : string :=
  RAG.render
    {| RAG.doc_type := dict_get (RAG.metadata d) "type" (VStr "text");
       RAG.page := dict_get (RAG.metadata d) "page_number" (VStr "Unknown page");
       RAG.chunk := dict_get (RAG.metadata d) "chunk" (VStr "Unknown chunk");
       RAG.doc := d |}.

(** The chunks of [docs] that carry the file name [name]. *)
Definition group_of (docs : list RAG.Document) (name : value) : value * list RAG.Document :=
  (name, filter (fun d => RAG.source_name d = name) docs).

(** The entries of one group in the assembled context: the header and
    the rendering of one chunk, the last of the group. *)
Definition emitted_entries (entry : value * list RAG.Document) : list string :=
  RAG.header (fst entry)
    :: match last (snd entry) with
       | Some d => [render_chunk d]
       | None => []
       end.

(** The entries the specification asks for: per group, the header and
    then every chunk of the group. *)
Definition expected_entries (by_source : list (value * list RAG.Document)) : list string :=
  flat_map (fun entry => RAG.header (fst entry) :: (render_chunk <$> snd entry)) by_source.

(** [after] is [before] with some of its entries marked as errors: the same
    files and fund identifiers in the same places, and a status that is the
    one before or "error". *)
Definition marked (before after : list Upload.DocumentUploadResponse) : Prop :=
  length after = length before
  ∧ ∀ (i : nat) r, before !! i = Some r →
      ∃ r', after !! i = Some r'
            ∧ Upload.filename r' = Upload.filename r
            ∧ Upload.fund_id r' = Upload.fund_id r
            ∧ (Upload.status r' = Upload.status r ∨ Upload.status r' = "error")
            ∧ (Upload.status r = "error" → Upload.status r' = "error").

(** The stored count of the fund [id] is the number of records filed under
    it, and its summary is [s]. *)
Definition in_step (id s : string) (app : App) : Prop :=
  ∃ d fund,
    mongodb app = Some d
    ∧ Mongo.funds_collection d !! id = Some fund
    ∧ Mongo.summary fund = Some s
    ∧ Api.stored_count fund = Z.of_nat (length (Mongo.get_fund_documents (Some d) id)).

End Spec.

(** ** Concrete data *)

Module Sample.

(** An index that returns its first [k] chunks, a chain that answers with
    the text of the first document it is given, no image. *)
Definition search (stored : list RAG.Document) (_ : string) (k : Z) (_ : RAG.Filter)
    : list RAG.Document := take (Z.to_nat k) stored.
Definition chain (docs : list RAG.Document) (_ : string) : option string :=
  match docs with
  | d :: _ => Some (RAG.page_content d)
  | [] => Some "I don't have enough information to answer this question."
  end.
Definition image (_ : string) : option string := None.

(** Another way to assemble a context. *)
Definition other_context (_ : list RAG.Document) : option string := Some "no context".

Definition oid : string := "65f0a1b2c3d4e5f601234567".

Definition fund : Mongo.Fund :=
  {| Mongo.fund_name := "Acme Fund";
     Mongo.summary := Some "Three filings of Acme.";
     Mongo.created_at := 100;
     Mongo.updated_at := 100;
     Mongo.document_count := Some 3 |}.

Definition record (n : string) (name : string) : Mongo.DocRecord :=
  {| Mongo.doc_oid := n;
     Mongo.doc_file_name := name;
     Mongo.doc_file_type := "txt";
     Mongo.doc_id := "uuid-" +:+ n;
     Mongo.doc_size_bytes := 10;
     Mongo.doc_fund_id := oid;
     Mongo.doc_created_at := 100 |}.

Definition db : Mongo.DB :=
  {| Mongo.funds_collection := {[ oid := fund ]};
     Mongo.documents_collection :=
       [record "65f0a1b2c3d4e5f60123456a" "q1.txt";
        record "65f0a1b2c3d4e5f60123456b" "q2.txt";
        record "65f0a1b2c3d4e5f60123456c" "q3.txt"] |}.

Definition chunk (name text : string) (i : Z) : RAG.Document :=
  {| RAG.page_content := text;
     RAG.metadata := <["file_name" := VStr name]> (<["chunk" := VInt i]> ∅) |}.

Definition stored : list RAG.Document := [chunk "q1.txt" "Revenue grew 20% in Q1." 0].

Definition app : App :=
  {| mongodb := Some db;
     vectordb := Some stored |}.

Definition request : Api.ChatRequest :=
  {| Api.message := "How did revenue develop?";
     Api.top_k := 5;
     Api.document_ids := None |}.

(** A fund whose stored count is 0 while one document is live. *)
Definition stale_fund : Mongo.Fund :=
  {| Mongo.fund_name := "Acme Fund";
     Mongo.summary := Some "No content available for summary";
     Mongo.created_at := 100;
     Mongo.updated_at := 100;
     Mongo.document_count := Some 0 |}.

Definition stale_app : App :=
  {| mongodb := Some {| Mongo.funds_collection := {[ oid := stale_fund ]};
                        Mongo.documents_collection :=
                          [record "65f0a1b2c3d4e5f60123456a" "q1.txt"] |};
     vectordb := Some stored |}.

(** A file system with one blank file, and a splitter that cuts a text
    into pieces of [chunk_size] characters. *)
Definition extract_text (_ _ : string) : option string :=
  Some (" " +:+ PyStr.nl +:+ "  ").
Definition basename (path : string) : string := path.
Definition splitext (_ : string) : string := ".TXT".
Definition getsize (_ : string) : option Z := Some 4.
Definition isoformat (_ : Z) : string := "2024-05-01T00:00:00".

Fixpoint pieces (fuel : nat) (size : nat) (text : string) : list string :=
  match fuel with
  | O => []
  | S fuel' =>
      match text with
      | EmptyString => []
      | _ => String.substring 0 size text
             :: pieces fuel' size (String.substring size (String.length text - size) text)
      end
  end.

Definition split_text (splitter : DocumentProcessor.Splitter) (text : string) : list string :=
  pieces (String.length text) (Z.to_nat (DocumentProcessor.chunk_size splitter)) text.

(** A batch of two uploads: the first is read and saved, the second is
    neither; and a model that answers with a padded sentence. *)
Definition uploads : list Upload.UploadFile :=
  [{| Upload.upload_filename := "q2.txt";
      Upload.first_pass := inl "Margins rose in Q2.";
      Upload.second_save := inl "q2_1a2b3c4d.txt";
      Upload.upload_now := 310;
      Upload.upload_uuid4 := "0f8fad5b-d9cb-469f-a165-70867728950e";
      Upload.upload_oid := "65f0a1b2c3d4e5f60123456e" |};
   {| Upload.upload_filename := "scan.bin";
      Upload.first_pass := inr "unsupported file";
      Upload.second_save := inr "disk full";
      Upload.upload_now := 320;
      Upload.upload_uuid4 := "7c9e6679-7425-40de-944b-e07fc1f90ae7";
      Upload.upload_oid := "65f0a1b2c3d4e5f60123456f" |}].

Definition complete (_ _ : string) : string + string := inl " Margins rose. ".

Definition new_oid : string := "65f0a1b2c3d4e5f601234599".

(** Chunks of two files as a retriever may rank them: the second chunk of
    [a.txt] comes after the chunk of [b.txt]. *)
Definition interleaved : list RAG.Document :=
  [chunk "a.txt" "Alpha revenue grew." 0;
   chunk "b.txt" "Beta costs fell." 0;
   chunk "a.txt" "Alpha margins rose." 1].

(** The identifier [oid] as a request may spell it: [ObjectId] reads hex
    digits of either case. *)
Definition upper_oid : string := "65F0A1B2C3D4E5F601234567".

(** Two sources whose file name and page differ and whose joined
    identifiers coincide. *)
Definition two_chunks : list RAG.Document :=
  [chunk "q1.txt" "Revenue grew 20% in Q1." 0; chunk "q1.txt" "Costs fell 5% in Q1." 1].

Definition source_a : gmap string value :=
  <["file_name" := VStr "report"]>
    (<["page_number" := VStr "1-2"]> (<["type" := VStr "text"]> ∅)).

Definition source_b : gmap string value :=
  <["file_name" := VStr "report-1"]>
    (<["page_number" := VStr "2"]> (<["type" := VStr "text"]> ∅)).

End Sample.

(** * Properties *)

(** ** Strings *)

Lemma append_cons (c : ascii) (s t : string) : String c s +:+ t = String c (s +:+ t).
Proof. reflexivity. Qed.

Lemma append_nil_l (s : string) : "" +:+ s = s.
Proof. reflexivity. Qed.

Lemma append_nil_r (s : string) : s +:+ "" = s.
Proof. induction s as [|c s IH]; [reflexivity|]. by rewrite append_cons, IH. Qed.

Lemma append_assoc (s1 s2 s3 : string) : (s1 +:+ s2) +:+ s3 = s1 +:+ s2 +:+ s3.
Proof. induction s1 as [|c s1 IH]; [reflexivity|]. by rewrite !append_cons, IH. Qed.

Lemma startswith_spec (p s : string) :
  PyStr.startswith p s = true ↔ ∃ suf, s = p +:+ suf.
Proof.
  revert s. induction p as [|a p IH]; intros s.
  - split; [intros _; by exists s | by destruct s].
  - destruct s as [|b s]; cbn.
    + split; [done | by intros [suf Hsuf]].
    + destruct (decide (a = b)) as [->|Hne].
      * rewrite IH. split; intros [suf Hsuf]; exists suf.
        -- by rewrite append_cons, Hsuf.
        -- rewrite append_cons in Hsuf. congruence.
      * split; [done | intros [suf Hsuf]].
        rewrite append_cons in Hsuf. congruence.
Qed.

Lemma contains_spec (sub s : string) :
  PyStr.contains sub s = true ↔ Spec.Substring sub s.
Proof.
  induction s as [|c s IH]; cbn.
  - destruct (PyStr.startswith sub "") eqn:Hp.
    + split; [intros _ | done].
      apply startswith_spec in Hp as [suf Hsuf]. by exists "", suf.
    + split; [done | intros (pre & suf & Heq)].
      destruct pre; [|done]. rewrite append_nil_l in Heq.
      assert (PyStr.startswith sub "" = true) by (apply startswith_spec; eauto).
      congruence.
  - destruct (PyStr.startswith sub (String c s)) eqn:Hp.
    + split; [intros _ | done].
      apply startswith_spec in Hp as [suf Hsuf]. by exists "", suf.
    + rewrite IH. split.
      * intros (pre & suf & ->). by exists (String c pre), suf.
      * intros (pre & suf & Heq). destruct pre as [|c' pre].
        -- rewrite append_nil_l in Heq.
           assert (PyStr.startswith sub (String c s) = true)
             by (apply startswith_spec; eauto).
           congruence.
        -- rewrite append_cons in Heq. injection Heq as -> ->. by exists pre, suf.
Qed.

(** ** The retrieval planner *)

Lemma is_broad_spec (query : string) :
  RAG.is_broad query = true ↔ Spec.broadening query.
Proof.
  unfold RAG.is_broad, Spec.broadening. rewrite existsb_exists.
  split; intros (keyword & Hin & Hsub); exists keyword.
  - split; [by apply list_elem_of_In | by apply contains_spec].
  - split; [by apply list_elem_of_In | by apply contains_spec].
Qed.

(** C4. The count handed to the retriever is [max(requested_k, 10)] when
    the lower-cased query contains one of the keywords summarize, summary,
    overview, describe, what is, and [requested_k] otherwise; "Summarize the
    fund" with 5 gives 10; the count is never below [requested_k]. *)
Theorem C4_keyword_widening (query : string) (requested_k : Z) :
  (Spec.broadening query → RAG.adjusted_top_k query requested_k = Z.max requested_k 10)
  ∧ (¬ Spec.broadening query → RAG.adjusted_top_k query requested_k = requested_k)
  ∧ RAG.adjusted_top_k "Summarize the fund" 5 = 10
  ∧ requested_k ≤ RAG.adjusted_top_k query requested_k.
Proof.
  unfold RAG.adjusted_top_k at 1 2 4.
  destruct (RAG.is_broad query) eqn:Hb.
  - apply is_broad_spec in Hb. repeat split; [done | lia].
  - assert (¬ Spec.broadening query) as Hn.
    { intros H. apply is_broad_spec in H. congruence. }
    repeat split; [done | lia].
Qed.

(** ** What a run of [query] holds *)

Section QueryFacts.

Variable similarity_search : list RAG.Document -> string -> Z -> RAG.Filter -> list RAG.Document.
Variable qa_chain : list RAG.Document -> string -> option string.
Variable get_image_data : string -> option string.

Lemma query_with_Some assemble index q id k ids run :
  RAG.query_with similarity_search qa_chain get_image_data assemble index q id k ids = Some run →
  ∃ stored,
    index = Some stored
    ∧ RAG.run_top_k run = RAG.adjusted_top_k q k
    ∧ RAG.run_filter run = RAG.filter_dict id ids
    ∧ qa_chain (similarity_search stored q (RAG.adjusted_top_k q k) (RAG.filter_dict id ids)) q
      = Some (RAG.run_answer run)
    ∧ assemble (RAG.run_docs run) = Some (RAG.run_context run)
    ∧ RAG.run_unique_sources run = RAG.unique_sources (RAG.run_sources run).
Proof.
  unfold RAG.query_with. intros Hrun.
  destruct index as [stored|]; [|done]. exists stored. cbn in Hrun.
  destruct (assemble _) as [context|] eqn:Hctx; [|done]. cbn in Hrun.
  destruct (qa_chain _ _) as [answer|] eqn:Hans; [|done]. cbn in Hrun.
  injection Hrun as <-. cbn. by rewrite Hctx.
Qed.

End QueryFacts.

(** C3. In a chat on a fund with more than one document and no document
    filter (none given, or an empty list), the count handed to the retriever
    is the keyword-widened count raised to [min(15, 5 * doc_count)]; with
    three documents and a requested count of 5 it is 15, broadening query or
    not. *)
Theorem C3_multi_document_widening
    (similarity_search : list RAG.Document -> string -> Z -> RAG.Filter -> list RAG.Document)
    (qa_chain : list RAG.Document -> string -> option string)
    (get_image_data : string -> option string)
    (app : App) (id : string) (request : Api.ChatRequest) (doc_count : nat) (run : RAG.Run) :
  Api.chat_query similarity_search qa_chain get_image_data app id request
    = Api.Ok (doc_count, run) →
  (1 < doc_count)%nat →
  RAG.has_document_ids (Api.document_ids request) = false →
  doc_count = length (Mongo.get_fund_documents (mongodb app) id)
  ∧ RAG.run_top_k run
    = Z.max (RAG.adjusted_top_k (Api.message request) (Api.top_k request))
            (Z.min 15 (5 * Z.of_nat doc_count))
  ∧ (doc_count = 3%nat → Api.top_k request = 5 → RAG.run_top_k run = 15).
Proof.
  unfold Api.chat_query, Api.rag_run, RAG.query_run. intros Hq Hcount Hids.
  destruct (Mongo.get_fund _ _); [|done].
  destruct (RAG.query_with _ _ _ _ _ _ _ _ _) as [run'|] eqn:Hrun; [|done].
  injection Hq as <- <-. split; [done|].
  apply query_with_Some in Hrun as (_ & _ & Hk & _).
  rewrite Hk. unfold Api.chat_top_k. rewrite Hids.
  apply Nat.ltb_lt in Hcount as Hc. rewrite Hc. cbn [andb negb].
  unfold RAG.adjusted_top_k. destruct (RAG.is_broad _); split; lia.
Qed.

Lemma C3_multi_document_widening_witness :
  ∃ run,
    Api.chat_query Sample.search Sample.chain Sample.image Sample.app Sample.oid Sample.request
      = Api.Ok (3%nat, run)
    ∧ RAG.run_top_k run = 15.
Proof.
  eexists. split; [vm_compute; reflexivity|].
  eapply (C3_multi_document_widening Sample.search Sample.chain Sample.image
            Sample.app Sample.oid Sample.request 3);
    [vm_compute; reflexivity | lia | reflexivity | reflexivity | reflexivity].
Defined.

(** ** First occurrences *)

Section FirstByKey.

Context {A K : Type} `{EqDecision K} (key : A → K).

Lemma first_by_key_cons (x : A) (l : list A) :
  Spec.first_by_key key (x :: l)
  = x :: filter (fun y => key y ≠ key x) (Spec.first_by_key key l).
Proof. reflexivity. Qed.

Lemma first_by_key_sublist (l : list A) : Spec.first_by_key key l `sublist_of` l.
Proof.
  induction l as [|x l IH]; [done|]. cbn.
  apply sublist_skip. etrans; [apply sublist_filter | done].
Qed.

Lemma first_by_key_NoDup (l : list A) : NoDup (key <$> Spec.first_by_key key l).
Proof.
  induction l as [|x l IH]; cbn; [constructor|].
  apply NoDup_cons. split.
  - intros (y & Hkey & Hy)%list_elem_of_fmap.
    apply list_elem_of_filter in Hy as [Hne _]. congruence.
  - apply (sublist_NoDup _ (key <$> Spec.first_by_key key l)); [exact IH|].
    apply fmap_sublist, sublist_filter.
Qed.

Lemma first_by_key_keys (l : list A) (x : A) :
  x ∈ l → key x ∈ key <$> Spec.first_by_key key l.
Proof.
  induction l as [|y l IH]; [by intros ?%elem_of_nil|].
  intros [->|Hin]%elem_of_cons; cbn; [by left|].
  destruct (decide (key x = key y)) as [->|Hne]; [by left|]. right.
  apply IH in Hin as (z & Hkey & Hz)%list_elem_of_fmap.
  apply list_elem_of_fmap. exists z. split; [done|].
  apply list_elem_of_filter. split; [congruence | done].
Qed.

Lemma first_by_key_first (pre post : list A) (x : A) :
  key x ∉ key <$> pre → x ∈ Spec.first_by_key key (pre ++ x :: post).
Proof.
  induction pre as [|y pre IH]; cbn; intros Hnot; [by left|].
  right. apply list_elem_of_filter. split.
  - intros Heq. apply Hnot. rewrite Heq. by left.
  - apply IH. intros Hin. apply Hnot. by right.
Qed.

Lemma first_by_key_filter (P : A → Prop) `{!∀ x, Decision (P x)} (l : list A) :
  (∀ x y, key x = key y → P x → P y) →
  Spec.first_by_key key (filter P l) = filter P (Spec.first_by_key key l).
Proof.
  intros HP. induction l as [|x l IH]; [done|].
  rewrite filter_cons. destruct (decide (P x)) as [Hx|Hx]; rewrite !first_by_key_cons.
  - rewrite filter_cons_True by done. f_equal.
    rewrite IH, !list_filter_filter. apply list_filter_iff. tauto.
  - rewrite filter_cons_False by done. rewrite IH, list_filter_filter.
    apply list_filter_iff. intros y. split; [|tauto].
    intros Hy. split; [done|]. intros Heq. apply Hx. by eapply HP.
Qed.

Lemma first_by_key_snoc (l : list A) (x : A) :
  Spec.first_by_key key (l ++ [x])
  = if decide (key x ∈ key <$> l)
    then Spec.first_by_key key l
    else Spec.first_by_key key l ++ [x].
Proof.
  induction l as [|y l IH].
  - cbn. rewrite decide_False; [done | apply not_elem_of_nil].
  - rewrite <- app_comm_cons, !first_by_key_cons, fmap_cons, IH.
    destruct (decide (key x ∈ key <$> l)) as [Hin|Hnin].
    + rewrite decide_True; [done | by apply elem_of_cons; right].
    + destruct (decide (key x = key y)) as [Heq|Hne].
      * rewrite decide_True by (apply elem_of_cons; by left).
        rewrite filter_app, filter_cons_False, filter_nil, app_nil_r; [done|]. tauto.
      * rewrite decide_False by (intros [?|?]%elem_of_cons; tauto).
        by rewrite filter_app, filter_cons_True, filter_nil.
Qed.

End FirstByKey.

(** ** The source deduplicator *)

Lemma filter_all {A} (P : A → Prop) `{!∀ x, Decision (P x)} (l : list A) :
  (∀ x, x ∈ l → P x) → filter P l = l.
Proof.
  induction l as [|x l IH]; intros HP; [done|].
  rewrite filter_cons_True by (apply HP, elem_of_cons; by left).
  rewrite IH; [done|]. intros y Hy. apply HP, elem_of_cons. by right.
Qed.

Lemma dedup_fold (sources unique : list (gmap string value)) (source_paths : gset string) :
  (∀ k, k ∈ source_paths ↔ k ∈ RAG.source_id <$> unique) →
  fst (fold_left RAG.dedup_step sources (unique, source_paths))
  = unique ++ filter (fun s => RAG.source_id s ∉ RAG.source_id <$> unique)
                     (Spec.first_by_key RAG.source_id sources).
Proof.
  revert unique source_paths.
  induction sources as [|s sources IH]; intros unique source_paths Hpaths.
  - cbn. by rewrite app_nil_r.
  - rewrite first_by_key_cons. cbn [fold_left]. unfold RAG.dedup_step at 2.
    destruct (decide (RAG.source_id s ∈ source_paths)) as [Hin|Hnin].
    + rewrite (IH _ _ Hpaths). f_equal.
      rewrite filter_cons_False by (intros Hn; apply Hn; by apply Hpaths).
      rewrite list_filter_filter. apply list_filter_iff. intros x. split; [|tauto].
      intros Hx. split; [done|]. intros Heq. apply Hx. rewrite Heq. by apply Hpaths.
    + rewrite IH.
      * rewrite <- app_assoc. f_equal. cbn [app].
        rewrite filter_cons_True by (intros Hn; apply Hnin; by apply Hpaths). f_equal.
        rewrite list_filter_filter. apply list_filter_iff. intros x.
        rewrite fmap_app, list_fmap_singleton, elem_of_app, list_elem_of_singleton. tauto.
      * intros k. rewrite fmap_app, list_fmap_singleton, elem_of_app,
          list_elem_of_singleton, elem_of_union, elem_of_singleton, Hpaths. tauto.
Qed.

Lemma unique_sources_first (sources : list (gmap string value)) :
  RAG.unique_sources sources = Spec.first_by_key RAG.source_id sources.
Proof.
  unfold RAG.unique_sources. rewrite dedup_fold.
  - cbn. apply filter_all. intros x _. apply not_elem_of_nil.
  - intros k. rewrite elem_of_empty. cbn. by rewrite elem_of_nil.
Qed.

(** C6, as amended.  The deduplicator keys a source by
    [f"{file_name}-{page_number}-{type}"], an absent field printing as the
    empty string.  Its result keeps the order of the input, is no longer
    than the input, holds no two records with one key, holds a record for
    every key of the input, and the record it holds for a key is the first
    one of the input with that key. *)
Theorem C6_dedup_by_source_id (sources : list (gmap string value)) :
  RAG.source_id ∅ = "--"
  ∧ RAG.unique_sources sources `sublist_of` sources
  ∧ (length (RAG.unique_sources sources) ≤ length sources)%nat
  ∧ NoDup (RAG.source_id <$> RAG.unique_sources sources)
  ∧ (∀ s, s ∈ sources → RAG.source_id s ∈ RAG.source_id <$> RAG.unique_sources sources)
  ∧ (∀ pre s post,
       sources = pre ++ s :: post →
       RAG.source_id s ∉ RAG.source_id <$> pre →
       s ∈ RAG.unique_sources sources).
Proof.
  rewrite unique_sources_first. split; [reflexivity|].
  split; [apply first_by_key_sublist|].
  split; [apply sublist_length, first_by_key_sublist|].
  split; [apply first_by_key_NoDup|].
  split; [apply first_by_key_keys|].
  intros pre s post -> Hnot. by apply first_by_key_first.
Qed.

(** C6, as stated, fails: with the key [f"{file_name}|{page_number}|{type}"]
    the two sources below have different keys, and the deduplicator keeps
    only the first of them. *)
Lemma C6_pipe_key_counterexample :
  Spec.source_key Sample.source_a ≠ Spec.source_key Sample.source_b
  ∧ RAG.unique_sources [Sample.source_a; Sample.source_b] = [Sample.source_a]
  ∧ Spec.source_key Sample.source_b
    ∉ Spec.source_key <$> RAG.unique_sources [Sample.source_a; Sample.source_b].
Proof.
  assert (RAG.unique_sources [Sample.source_a; Sample.source_b] = [Sample.source_a]) as Hout
    by (vm_compute; reflexivity).
  rewrite Hout, list_fmap_singleton, list_elem_of_singleton.
  split; [|split; [reflexivity|]]; vm_compute; discriminate.
Qed.

(** ** The context assembler: grouping *)

Lemma docs_by_source_snoc (docs : list RAG.Document) (d : RAG.Document) :
  RAG.docs_by_source (docs ++ [d])
  = RAG.add_doc (RAG.source_name d) d (RAG.docs_by_source docs).
Proof. unfold RAG.docs_by_source. by rewrite fold_left_app. Qed.

Lemma add_doc_groups (f : value → list RAG.Document) (k : value) (d : RAG.Document)
    (ks : list value) :
  NoDup ks →
  RAG.add_doc k d ((fun k' => (k', f k')) <$> ks)
  = if decide (k ∈ ks)
    then (fun k' => (k', if decide (k' = k) then f k' ++ [d] else f k')) <$> ks
    else ((fun k' => (k', f k')) <$> ks) ++ [(k, [d])].
Proof.
  induction ks as [|k0 ks IH]; intros Hnd.
  - cbn. rewrite decide_False; [done | apply not_elem_of_nil].
  - apply NoDup_cons in Hnd as [Hk0 Hnd]. rewrite !fmap_cons. cbn [RAG.add_doc].
    destruct (decide (k = k0)) as [->|Hne].
    + rewrite decide_True by (apply elem_of_cons; by left).
      rewrite decide_True by done. f_equal.
      apply Forall_fmap_ext, Forall_forall. intros k' Hk'.
      rewrite decide_False; [done | by intros ->].
    + rewrite (IH Hnd). destruct (decide (k ∈ ks)) as [Hin|Hnin].
      * rewrite decide_True by (apply elem_of_cons; by right).
        by rewrite decide_False by congruence.
      * by rewrite decide_False by (intros [?|?]%elem_of_cons; tauto).
Qed.

Lemma elem_of_first_seen (ks : list value) (k : value) :
  k ∈ Spec.first_seen ks ↔ k ∈ ks.
Proof.
  unfold Spec.first_seen. split.
  - intros Hin. eapply elem_of_sublist; [done | apply first_by_key_sublist].
  - intros Hin. apply (first_by_key_keys id) in Hin.
    by rewrite list_fmap_id in Hin.
Qed.

Lemma first_seen_NoDup (ks : list value) : NoDup (Spec.first_seen ks).
Proof.
  unfold Spec.first_seen.
  rewrite <- (list_fmap_id (Spec.first_by_key id ks)). apply first_by_key_NoDup.
Qed.

Lemma first_seen_snoc (ks : list value) (k : value) :
  Spec.first_seen (ks ++ [k])
  = if decide (k ∈ ks) then Spec.first_seen ks else Spec.first_seen ks ++ [k].
Proof. unfold Spec.first_seen. by rewrite first_by_key_snoc, list_fmap_id. Qed.

Lemma filter_none {A} (P : A → Prop) `{!∀ x, Decision (P x)} (l : list A) :
  (∀ x, x ∈ l → ¬ P x) → filter P l = [].
Proof.
  induction l as [|x l IH]; intros Hl; [done|].
  rewrite filter_cons_False by (apply Hl, elem_of_cons; by left).
  apply IH. intros y Hy. apply Hl, elem_of_cons. by right.
Qed.

Lemma docs_by_source_groups (docs : list RAG.Document) :
  RAG.docs_by_source docs
  = Spec.group_of docs <$> Spec.first_seen (RAG.source_name <$> docs).
Proof.
  induction docs as [|d docs IH] using rev_ind; [done|].
  rewrite docs_by_source_snoc, IH. unfold Spec.group_of at 1.
  rewrite add_doc_groups by apply first_seen_NoDup.
  rewrite fmap_app, list_fmap_singleton, first_seen_snoc.
  destruct (decide (RAG.source_name d ∈ Spec.first_seen (RAG.source_name <$> docs)))
    as [Hin|Hnin].
  - rewrite decide_True by (by apply elem_of_first_seen).
    apply Forall_fmap_ext, Forall_forall. intros k _. unfold Spec.group_of.
    rewrite filter_app. f_equal. f_equal.
    destruct (decide (k = RAG.source_name d)) as [->|Hne].
    + by rewrite filter_cons_True.
    + rewrite filter_cons_False by congruence. by rewrite app_nil_r.
  - rewrite decide_False by (by rewrite <- elem_of_first_seen).
    rewrite fmap_app, list_fmap_singleton. f_equal.
    + apply Forall_fmap_ext, Forall_forall. intros k Hk. unfold Spec.group_of.
      rewrite filter_app, filter_cons_False, filter_nil, app_nil_r; [done|].
      intros Heq. apply Hnin. by rewrite Heq.
    + unfold Spec.group_of. rewrite filter_app, filter_cons_True by done.
      rewrite (filter_none _ docs); [done|].
      intros x Hx Heq. apply Hnin, elem_of_first_seen.
      rewrite <- Heq. by apply list_elem_of_fmap_2.
Qed.

Lemma contiguous_app (k : value) (block rest : list RAG.Document) :
  (∀ x, x ∈ block → RAG.source_name x = k) →
  (∀ x, x ∈ rest → RAG.source_name x ≠ k) →
  Spec.contiguous rest →
  Spec.contiguous (block ++ rest).
Proof.
  intros Hblock Hrest Hcont i j m a c b [Hij Hjm] Ha Hc Hb Hab.
  destruct (decide (i < length block)%nat) as [Hi|Hi].
  - rewrite lookup_app_l in Ha by done.
    apply list_elem_of_lookup_2, Hblock in Ha.
    destruct (decide (m < length block)%nat) as [Hm|Hm].
    + rewrite lookup_app_l in Hc by lia.
      apply list_elem_of_lookup_2, Hblock in Hc. congruence.
    + rewrite lookup_app_r in Hb by lia.
      apply list_elem_of_lookup_2, Hrest in Hb. congruence.
  - rewrite lookup_app_r in Ha, Hc, Hb by lia.
    eapply (Hcont (i - length block)%nat (j - length block)%nat (m - length block)%nat);
      [lia | done..].
Qed.

Lemma elem_of_concat_groups (docs : list RAG.Document) (ks : list value) (x : RAG.Document) :
  x ∈ concat ((fun k => snd (Spec.group_of docs k)) <$> ks)
  ↔ x ∈ docs ∧ RAG.source_name x ∈ ks.
Proof.
  induction ks as [|k ks IH]; cbn.
  - rewrite !elem_of_nil. tauto.
  - rewrite elem_of_app, IH, list_elem_of_filter, elem_of_cons.
    split; [intros [[-> ?]|[? ?]] | intros [? [->|?]]]; tauto.
Qed.

Lemma groups_contiguous (docs : list RAG.Document) (ks : list value) :
  NoDup ks →
  Spec.contiguous (concat ((fun k => snd (Spec.group_of docs k)) <$> ks)).
Proof.
  induction ks as [|k ks IH]; intros Hnd.
  - intros i j m a c b _ Ha. by cbn in Ha.
  - apply NoDup_cons in Hnd as [Hk Hnd]. rewrite fmap_cons. cbn [concat].
    apply (contiguous_app k).
    + intros x Hx. cbn in Hx. by apply list_elem_of_filter in Hx as [? _].
    + intros x [_ Hx]%elem_of_concat_groups Heq. by rewrite Heq in Hx.
    + by apply IH.
Qed.

(** ** The context assembler: rendering *)

Lemma inner_loop_last (source_docs : list RAG.Document) (vars : option RAG.Locals) :
  RAG.inner_loop source_docs vars
  = match last source_docs with
    | Some d =>
        Some {| RAG.doc_type := dict_get (RAG.metadata d) "type" (VStr "text");
                RAG.page := dict_get (RAG.metadata d) "page_number" (VStr "Unknown page");
                RAG.chunk := dict_get (RAG.metadata d) "chunk" (VStr "Unknown chunk");
                RAG.doc := d |}
    | None => vars
    end.
Proof.
  induction source_docs as [|d ds IH] using rev_ind; [done|].
  unfold RAG.inner_loop. by rewrite fold_left_app, last_snoc.
Qed.

Lemma format_groups (by_source : list (value * list RAG.Document))
    (formatted : list string) (vars : option RAG.Locals) :
  (∀ entry, entry ∈ by_source → snd entry ≠ []) →
  ∃ vars',
    fold_left RAG.format_group by_source (Some (formatted, vars))
    = Some (formatted ++ flat_map Spec.emitted_entries by_source, vars').
Proof.
  revert formatted vars.
  induction by_source as [|entry rest IH]; intros formatted vars Hne.
  - exists vars. cbn. by rewrite app_nil_r.
  - cbn [fold_left flat_map]. unfold RAG.format_group at 2.
    rewrite inner_loop_last. unfold Spec.emitted_entries at 1.
    destruct (last (snd entry)) as [d|] eqn:Hlast.
    + edestruct (IH ((formatted ++ [RAG.header (fst entry)]) ++ [Spec.render_chunk d]))
        as [vars' Hfold]; last first.
      { exists vars'. unfold Spec.render_chunk in Hfold. rewrite Hfold.
        by rewrite <- !app_assoc. }
      intros e He. apply Hne, elem_of_cons. by right.
    + apply last_None in Hlast. exfalso. eapply Hne; [|done]. apply elem_of_cons. by left.
Qed.

Lemma formatted_docs_emitted (docs : list RAG.Document) :
  RAG.formatted_docs (RAG.docs_by_source docs)
  = Some (flat_map Spec.emitted_entries (RAG.docs_by_source docs)).
Proof.
  unfold RAG.formatted_docs.
  destruct (format_groups (RAG.docs_by_source docs) [] None) as [vars' ->]; [|done].
  rewrite docs_by_source_groups. intros entry (k & -> & Hk)%list_elem_of_fmap.
  apply elem_of_first_seen, list_elem_of_fmap in Hk as (d & -> & Hd). cbn.
  intros Hnil. eapply (filter_nil_not_elem_of _ _ d); [exact Hnil | done | done].
Qed.

Lemma filter_disjoint_app {A} (P Q : A → Prop)
    `{!∀ x, Decision (P x)} `{!∀ x, Decision (Q x)} (l : list A) :
  (∀ x, P x → Q x → False) →
  filter P l ++ filter Q l ≡ₚ filter (fun x => P x ∨ Q x) l.
Proof.
  intros Hdisj. induction l as [|x l IH]; [done|].
  destruct (decide (P x)) as [HP|HP]; destruct (decide (Q x)) as [HQ|HQ].
  - destruct (Hdisj x HP HQ).
  - rewrite (filter_cons_True P), (filter_cons_False Q), filter_cons_True by tauto.
    cbn. by rewrite IH.
  - rewrite (filter_cons_False P), (filter_cons_True Q), filter_cons_True by tauto.
    rewrite <- Permutation_middle. by rewrite IH.
  - rewrite (filter_cons_False P), (filter_cons_False Q), filter_cons_False by tauto.
    done.
Qed.

Lemma groups_permutation (docs : list RAG.Document) (ks : list value) :
  NoDup ks →
  concat ((fun k => snd (Spec.group_of docs k)) <$> ks)
  ≡ₚ filter (fun d => RAG.source_name d ∈ ks) docs.
Proof.
  induction ks as [|k ks IH]; intros Hnd.
  - cbn. rewrite filter_none; [done|]. intros x _. apply not_elem_of_nil.
  - apply NoDup_cons in Hnd as [Hk Hnd]. rewrite fmap_cons. cbn [concat].
    rewrite (IH Hnd). cbn [Spec.group_of snd].
    rewrite filter_disjoint_app by (intros x <- Hx; done).
    erewrite list_filter_iff; [done|]. intros x. by rewrite elem_of_cons.
Qed.

(** The dictionary [docs_by_source] of lines 110-115: its keys are the
    file names in the order of their first occurrence in the input, each
    once; a group holds exactly the chunks of its file name, in input order;
    laid end to end, the groups are the input rearranged so that the chunks
    of one file name are next to each other.  What the loop of lines 118-133
    makes of the groups is the last conjunct: one rendered chunk per group. *)
Lemma docs_by_source_grouping (docs : list RAG.Document) :
  fst <$> RAG.docs_by_source docs = Spec.first_seen (RAG.source_name <$> docs)
  ∧ NoDup (fst <$> RAG.docs_by_source docs)
  ∧ (∀ name source_docs,
       (name, source_docs) ∈ RAG.docs_by_source docs →
       source_docs = filter (fun d => RAG.source_name d = name) docs)
  ∧ concat (snd <$> RAG.docs_by_source docs) ≡ₚ docs
  ∧ Spec.contiguous (concat (snd <$> RAG.docs_by_source docs))
  ∧ RAG.formatted_docs (RAG.docs_by_source docs)
    = Some (flat_map Spec.emitted_entries (RAG.docs_by_source docs)).
Proof.
  pose proof (first_seen_NoDup (RAG.source_name <$> docs)) as Hnd.
  rewrite formatted_docs_emitted, docs_by_source_groups, <- !list_fmap_compose.
  assert (fst ∘ Spec.group_of docs <$> Spec.first_seen (RAG.source_name <$> docs)
          = Spec.first_seen (RAG.source_name <$> docs)) as Hfst
    by (rewrite <- (list_fmap_id (Spec.first_seen _)) at 2; done).
  rewrite Hfst. repeat split; try done.
  - intros name source_docs (k & [= -> ->] & _)%list_elem_of_fmap. done.
  - rewrite (groups_permutation docs _ Hnd). rewrite filter_all; [done|].
    intros d Hd. by apply elem_of_first_seen, list_elem_of_fmap_2.
  - by apply groups_contiguous.
Qed.

(** C7 fails on the code.  For chunks of two files that arrive interleaved
    the dictionary is as the claim says: the two chunks of [a.txt] in one
    group, the groups in the order of first occurrence.  The output is not:
    the context holds, under each header, the rendering of the last chunk of
    the group only, so the first chunk of [a.txt] is nowhere in it, where the
    claim has all chunks of a file name appear next to each other.  The
    rendering of lines 128-133 follows the inner loop instead of being part
    of it, the slip of C1. *)
Theorem C7_interleaved_chunk_left_out :
  RAG.docs_by_source Sample.interleaved
  = [(VStr "a.txt", [Sample.chunk "a.txt" "Alpha revenue grew." 0;
                     Sample.chunk "a.txt" "Alpha margins rose." 1]);
     (VStr "b.txt", [Sample.chunk "b.txt" "Beta costs fell." 0])]
  ∧ RAG.formatted_docs (RAG.docs_by_source Sample.interleaved)
    = Some [RAG.header (VStr "a.txt");
            "[CONTENT from page Unknown page, chunk 1]:" +:+ PyStr.nl +:+ "Alpha margins rose.";
            RAG.header (VStr "b.txt");
            "[CONTENT from page Unknown page, chunk 0]:" +:+ PyStr.nl +:+ "Beta costs fell."]
  ∧ (∃ context,
       RAG.format_context Sample.interleaved = Some context
       ∧ PyStr.contains "Alpha revenue grew." context = false
       ∧ PyStr.contains "Alpha margins rose." context = true
       ∧ PyStr.contains "Beta costs fell." context = true)
  ∧ Spec.expected_entries (RAG.docs_by_source Sample.interleaved)
    = [RAG.header (VStr "a.txt");
       "[CONTENT from page Unknown page, chunk 0]:" +:+ PyStr.nl +:+ "Alpha revenue grew.";
       "[CONTENT from page Unknown page, chunk 1]:" +:+ PyStr.nl +:+ "Alpha margins rose.";
       RAG.header (VStr "b.txt");
       "[CONTENT from page Unknown page, chunk 0]:" +:+ PyStr.nl +:+ "Beta costs fell."].
Proof.
  split; [vm_compute; reflexivity|]. split; [vm_compute; reflexivity|].
  split; [|vm_compute; reflexivity].
  eexists. split; [vm_compute; reflexivity|]. split_and!; vm_compute; reflexivity.
Qed.

(** C1 fails on the code.  For two text chunks of one file the assembler
    emits the header and the rendering of the second chunk only, where the
    claim asks for the header and the rendering of both: the rendering
    follows the inner loop instead of being part of it. *)
Theorem C1_only_last_chunk_rendered :
  RAG.formatted_docs (RAG.docs_by_source Sample.two_chunks)
  = Some [RAG.header (VStr "q1.txt");
          "[CONTENT from page Unknown page, chunk 1]:" +:+ PyStr.nl +:+ "Costs fell 5% in Q1."]
  ∧ Spec.expected_entries (RAG.docs_by_source Sample.two_chunks)
    = [RAG.header (VStr "q1.txt");
       "[CONTENT from page Unknown page, chunk 0]:" +:+ PyStr.nl +:+ "Revenue grew 20% in Q1.";
       "[CONTENT from page Unknown page, chunk 1]:" +:+ PyStr.nl +:+ "Costs fell 5% in Q1."].
Proof. split; vm_compute; reflexivity. Qed.

(** ** The answer and the assembled context *)

(** C2. The answer of [query] is the completion of the chain for the
    documents of the retriever and the raw query.  Two runs whose retrievers
    return the same documents give the same answer, however each of them
    assembles its context and whatever images it attaches. *)
Theorem C2_answer_independent_of_context
    (search1 search2 : list RAG.Document -> string -> Z -> RAG.Filter -> list RAG.Document)
    (qa_chain : list RAG.Document -> string -> option string)
    (image1 image2 : string -> option string)
    (assemble1 assemble2 : list RAG.Document -> option string)
    (stored1 stored2 : list RAG.Document)
    (q id : string) (k : Z) (ids : option (list string)) (run1 run2 : RAG.Run) :
  search1 stored1 q (RAG.adjusted_top_k q k) (RAG.filter_dict id ids)
    = search2 stored2 q (RAG.adjusted_top_k q k) (RAG.filter_dict id ids) →
  RAG.query_with search1 qa_chain image1 assemble1 (Some stored1) q id k ids = Some run1 →
  RAG.query_with search2 qa_chain image2 assemble2 (Some stored2) q id k ids = Some run2 →
  RAG.run_answer run1 = RAG.run_answer run2
  ∧ qa_chain (search1 stored1 q (RAG.adjusted_top_k q k) (RAG.filter_dict id ids)) q
    = Some (RAG.run_answer run1).
Proof.
  intros Hsame Hrun1 Hrun2.
  apply query_with_Some in Hrun1 as (s1 & [= <-] & _ & _ & Hans1 & _).
  apply query_with_Some in Hrun2 as (s2 & [= <-] & _ & _ & Hans2 & _).
  split; [|done]. rewrite Hsame in Hans1. congruence.
Qed.

Lemma C2_answer_independent_of_context_witness :
  ∃ run1 run2,
    RAG.query_run Sample.search Sample.chain Sample.image
      (vectordb Sample.app) "What was Q1 revenue growth?" Sample.oid 5 None = Some run1
    ∧ RAG.query_with Sample.search Sample.chain Sample.image Sample.other_context
        (vectordb Sample.app) "What was Q1 revenue growth?" Sample.oid 5 None = Some run2
    ∧ RAG.run_context run1 ≠ RAG.run_context run2
    ∧ RAG.run_answer run1 = RAG.run_answer run2.
Proof.
  eexists. eexists.
  split; [vm_compute; reflexivity|].
  split; [vm_compute; reflexivity|].
  split; [vm_compute; discriminate|].
  eapply (C2_answer_independent_of_context
            Sample.search Sample.search Sample.chain Sample.image Sample.image
            RAG.format_context Sample.other_context Sample.stored Sample.stored
            "What was Q1 revenue growth?" Sample.oid 5 None);
    [reflexivity | vm_compute; reflexivity | vm_compute; reflexivity].
Defined.

(** ** The fund store *)

Lemma get_fund_Some (db : option Mongo.DB) (id oid : string) (fund : Mongo.Fund) :
  Mongo.get_fund db id = Some (oid, fund) →
  ∃ d, db = Some d ∧ Mongo.ObjectId id = Some oid
       ∧ Mongo.funds_collection d !! oid = Some fund.
Proof.
  unfold Mongo.get_fund. intros H.
  destruct db as [d|]; [|done]. cbn in H.
  destruct (Mongo.ObjectId id) as [o|]; [|done]. cbn in H.
  destruct (Mongo.funds_collection d !! o) as [f|] eqn:Hf; [|done]. cbn in H.
  injection H as -> ->. by exists d.
Qed.

Lemma get_fund_lookup (d : Mongo.DB) (id oid : string) :
  Mongo.ObjectId id = Some oid →
  Mongo.get_fund (Some d) id = (fun fund => (oid, fund)) <$> Mongo.funds_collection d !! oid.
Proof.
  intros Hoid. unfold Mongo.get_fund. cbn. rewrite Hoid. cbn.
  by destruct (Mongo.funds_collection d !! oid).
Qed.

(** ** Summary regeneration *)

Lemma summary_needed_spec (fund : Mongo.Fund) (live : Z) :
  Api.summary_needed fund live = true
  ↔ Mongo.summary fund = Some "Empty"
    ∨ (Api.stored_count fund ≠ live ∧ 0 < Api.stored_count fund).
Proof.
  unfold Api.summary_needed.
  rewrite orb_true_iff, andb_true_iff, !bool_decide_eq_true, Z.ltb_lt. tauto.
Qed.

(** The query is the first call made, and the condition holds. *)
Ltac query_issued :=
  split; [done | intros _; eexists _, _; apply elem_of_cons; by left].

(** The store and the fund in hand are the ones the read started with. *)
Ltac store_unchanged d fund :=
  exists d, fund, fund; split; [done|]; split; [done|]; split; [done|]; by left.

Section Regeneration.

Variable similarity_search : list RAG.Document -> string -> Z -> RAG.Filter -> list RAG.Document.
Variable qa_chain : list RAG.Document -> string -> option string.
Variable get_image_data : string -> option string.

(** What lines 235-260 leave behind for a fund that is stored. *)
Lemma refresh_summary_spec (app : App) (id oid : string) (fund : Mongo.Fund)
    (live now : Z) (db : option Mongo.DB) (refreshed : option (string * Mongo.Fund))
    (calls : list Api.Call) :
  Mongo.get_fund (mongodb app) id = Some (oid, fund) →
  Api.refresh_summary similarity_search qa_chain get_image_data app id (oid, fund) live now
  = (db, refreshed, calls) →
  ((∃ q k, Api.RagQuery q id k ∈ calls) ↔ Api.summary_needed fund live = true)
  ∧ (∀ s, Api.UpdateFundSummary id s ∈ calls →
       Api.summary_needed fund live = true
       ∧ s ≠ "" ∧ s ≠ Api.not_enough_information
       ∧ ∃ sources,
           Api.rag_query similarity_search qa_chain get_image_data
             (vectordb app) (Api.summary_query live) id 10 None = Some (s, sources))
  ∧ ∃ d stored_fund seen_fund,
      db = Some d
      ∧ Mongo.funds_collection d !! oid = Some stored_fund
      ∧ refreshed = Some (oid, seen_fund)
      ∧ (Mongo.summary stored_fund = Mongo.summary fund
         ∨ ∃ s, Api.UpdateFundSummary id s ∈ calls ∧ Mongo.summary stored_fund = Some s).
Proof.
  intros Hget Hrefresh.
  destruct (get_fund_Some _ _ _ _ Hget) as (d0 & Hdb & Hoid & Hfund).
  unfold Api.refresh_summary in Hrefresh. cbn [snd] in Hrefresh.
  destruct (Api.summary_needed fund live) eqn:Hneeded.
  - destruct (Api.rag_query _ _ _ _ _ _ _ _) as [[generated sources]|] eqn:Hrag.
    + destruct (PyStr.truthy generated
                && bool_decide (generated ≠ Api.not_enough_information))%bool eqn:Hgood.
      * apply andb_true_iff in Hgood as [Htruthy Hne%bool_decide_eq_true].
        unfold Mongo.update_fund_summary in Hrefresh.
        rewrite Hdb, Hoid, Hfund in Hrefresh.
        assert (refreshed = Some (oid, if bool_decide (Mongo.set_summary fund generated now ≠ fund)
                                       then Mongo.set_summary fund generated now
                                       else fund)) as Hseen.
        { injection Hrefresh as _ <- _. destruct (bool_decide _); [|done].
          rewrite Hoid. cbn. by rewrite lookup_insert_eq. }
        injection Hrefresh as <- _ <-.
        split; [query_issued|].
        split.
        { intros s [[=]|[[= ->]|[]%elem_of_nil]%elem_of_cons]%elem_of_cons.
          repeat split; [by destruct generated | done | by exists sources]. }
        eexists _, (Mongo.set_summary fund generated now), _.
        split; [done|]. split; [apply lookup_insert_eq|]. split; [exact Hseen|].
        right. exists generated. split; [|done].
        apply elem_of_cons. right. apply elem_of_cons. by left.
      * injection Hrefresh as <- <- <-.
        split; [query_issued|].
        split; [by intros s [[=]|[]%elem_of_nil]%elem_of_cons|].
        store_unchanged d0 fund.
    + injection Hrefresh as <- <- <-.
      split; [query_issued|].
      split; [by intros s [[=]|[]%elem_of_nil]%elem_of_cons|].
      store_unchanged d0 fund.
  - injection Hrefresh as <- <- <-.
    split; [split; [by intros (q & k & []%elem_of_nil) | done]|].
    split; [by intros s []%elem_of_nil|].
    store_unchanged d0 fund.
Qed.

End Regeneration.

(** C5, as amended.  When a stored fund is read, the summary query is
    issued if and only if the stored summary is "Empty", or the stored
    document count differs from the live count while the stored count is
    positive.  A summary is written to the store only when the query was
    issued and returned it, non-empty and other than the "not enough
    information" answer; and the summary the store holds after the read is
    the one it held before or the one so written. *)
Theorem C5_summary_regeneration
    (similarity_search : list RAG.Document -> string -> Z -> RAG.Filter -> list RAG.Document)
    (qa_chain : list RAG.Document -> string -> option string)
    (get_image_data : string -> option string)
    (app : App) (id : string) (now : Z) (oid : string) (fund : Mongo.Fund) :
  Mongo.get_fund (mongodb app) id = Some (oid, fund) →
  let live := Z.of_nat (length (Mongo.get_fund_documents (mongodb app) id)) in
  let result := Api.get_fund similarity_search qa_chain get_image_data app id now in
  ((∃ q k, Api.RagQuery q id k ∈ result.2)
   ↔ Mongo.summary fund = Some "Empty"
     ∨ (Api.stored_count fund ≠ live ∧ 0 < Api.stored_count fund))
  ∧ (∀ s, Api.UpdateFundSummary id s ∈ result.2 →
       (∃ q k, Api.RagQuery q id k ∈ result.2)
       ∧ s ≠ "" ∧ s ≠ Api.not_enough_information
       ∧ ∃ sources,
           Api.rag_query similarity_search qa_chain get_image_data
             (vectordb app) (Api.summary_query live) id 10 None = Some (s, sources))
  ∧ ∃ fund',
      Mongo.get_fund (mongodb result.1.1) id = Some (oid, fund')
      ∧ (Mongo.summary fund' = Mongo.summary fund
         ∨ ∃ s, Api.UpdateFundSummary id s ∈ result.2 ∧ Mongo.summary fund' = Some s).
Proof.
  intros Hget live result. subst result. unfold Api.get_fund. rewrite Hget.
  rewrite length_fmap. fold live.
  destruct (Api.refresh_summary _ _ _ _ _ _ _ _) as [[db refreshed] calls] eqn:Hrefresh.
  destruct (refresh_summary_spec _ _ _ _ _ _ _ _ _ _ _ _ Hget Hrefresh)
    as (Hcalls & Hupdate & d & stored_fund & seen_fund & -> & Hstored & -> & Hsummary).
  destruct (get_fund_Some _ _ _ _ Hget) as (d0 & Hdb & Hoid & Hfund).
  cbn [fst snd]. rewrite <- summary_needed_spec.
  split; [done|]. split.
  { intros s Hs. destruct (Hupdate s Hs) as (Hneeded & ? & ? & ?).
    split; [by apply Hcalls | done]. }
  destruct (decide (Api.stored_count seen_fund ≠ live));
    cbn [mongodb Mongo.set_document_count].
  - exists (Mongo.set_count stored_fund live). split; [|done].
    rewrite (get_fund_lookup _ id oid Hoid). cbn.
    by rewrite lookup_alter_eq, Hstored.
  - exists stored_fund. split; [|done].
    rewrite (get_fund_lookup _ id oid Hoid). by rewrite Hstored.
Qed.

Lemma C5_summary_regeneration_witness :
  let result := Api.get_fund Sample.search Sample.chain Sample.image
                  {| mongodb := Some {| Mongo.funds_collection :=
                                          {[ Sample.oid := Mongo.set_count Sample.fund 2 ]};
                                        Mongo.documents_collection :=
                                          Mongo.documents_collection Sample.db |};
                     vectordb := Some Sample.stored |}
                  Sample.oid 200 in
  (∃ q k, Api.RagQuery q Sample.oid k ∈ result.2)
  ∧ ∃ fund',
      Mongo.get_fund (mongodb result.1.1) Sample.oid = Some (Sample.oid, fund')
      ∧ Mongo.summary fund' = Some "Revenue grew 20% in Q1.".
Proof.
  intros result.
  edestruct (C5_summary_regeneration Sample.search Sample.chain Sample.image
               {| mongodb := Some {| Mongo.funds_collection :=
                                       {[ Sample.oid := Mongo.set_count Sample.fund 2 ]};
                                     Mongo.documents_collection :=
                                       Mongo.documents_collection Sample.db |};
                  vectordb := Some Sample.stored |}
               Sample.oid 200 Sample.oid (Mongo.set_count Sample.fund 2))
    as (Hcalls & _ & _); [vm_compute; reflexivity|].
  split.
  - apply Hcalls. right. vm_compute. split; [discriminate | reflexivity].
  - eexists. split; vm_compute; reflexivity.
Defined.

(** C5, as stated, fails: with a stored count of 0 and one live document
    the counts differ and the live count is positive, and the read issues no
    summary query. *)
Lemma C5_live_count_counterexample :
  Spec.regeneration_due Sample.stale_fund
    (Z.of_nat (length (Mongo.get_fund_documents (mongodb Sample.stale_app) Sample.oid)))
  ∧ Mongo.get_fund (mongodb Sample.stale_app) Sample.oid = Some (Sample.oid, Sample.stale_fund)
  ∧ (Api.get_fund Sample.search Sample.chain Sample.image Sample.stale_app Sample.oid 200).2 = [].
Proof.
  split; [|split; vm_compute; reflexivity].
  right. vm_compute. split; [discriminate | reflexivity].
Qed.

(** ** The indexer *)

Lemma lstrip_all_space (s : string) : PyStr.all_space s = true → PyStr.lstrip s = "".
Proof.
  induction s as [|c s IH]; [done|]. cbn.
  intros [Hc Hs]%andb_true_iff. rewrite Hc. by apply IH.
Qed.

Lemma strip_all_space (s : string) : PyStr.all_space s = true → PyStr.strip s = "".
Proof. intros Hs. unfold PyStr.strip. by rewrite lstrip_all_space. Qed.

Lemma is_blank_all_space (text : string) :
  PyStr.all_space text = true → DocumentProcessor.is_blank text = true.
Proof.
  intros Hs. unfold DocumentProcessor.is_blank.
  rewrite strip_all_space by done. rewrite bool_decide_eq_true_2 by done.
  apply orb_true_r.
Qed.

Lemma rev_app_empty (s acc : string) : String.rev_app s acc = "" → s = "" ∧ acc = "".
Proof.
  revert acc. induction s as [|c s IH]; intros acc; cbn; [done|].
  intros [_ [=]]%IH.
Qed.

Lemma all_space_rev_app (s acc : string) :
  PyStr.all_space (String.rev_app s acc) = (PyStr.all_space s && PyStr.all_space acc)%bool.
Proof.
  revert acc. induction s as [|c s IH]; intros acc; cbn; [done|].
  rewrite IH. cbn. by destruct (PyStr.isspace c), (PyStr.all_space s).
Qed.

Lemma all_space_lstrip (s : string) :
  PyStr.all_space (PyStr.lstrip s) = true → PyStr.all_space s = true.
Proof.
  induction s as [|c s IH]; [done|]. cbn.
  destruct (PyStr.isspace c) eqn:Hc; [done|]. cbn. by rewrite Hc.
Qed.

Lemma strip_empty_all_space (s : string) : PyStr.strip s = "" → PyStr.all_space s = true.
Proof.
  unfold PyStr.strip, PyStr.rstrip, String.rev. intros [Hl _]%rev_app_empty.
  apply all_space_lstrip.
  assert (PyStr.all_space (String.rev_app (PyStr.lstrip s) "") = true) as Hrev
    by (apply all_space_lstrip; by rewrite Hl).
  rewrite all_space_rev_app in Hrev. by apply andb_true_iff in Hrev as [? _].
Qed.

(** The test of line 258 holds exactly for the texts that are empty or
    white space throughout. *)
Lemma is_blank_iff (text : string) :
  DocumentProcessor.is_blank text = true ↔ PyStr.all_space text = true.
Proof.
  split; [|apply is_blank_all_space].
  unfold DocumentProcessor.is_blank. intros [Hempty|Hstrip]%orb_true_iff.
  - by destruct text.
  - apply bool_decide_eq_true in Hstrip. by apply strip_empty_all_space.
Qed.

(** A text of no-break spaces and next-line characters is blank, as it is
    for [text.strip() == ""] of line 258. *)
Example no_break_space_is_blank :
  DocumentProcessor.is_blank (String "160"%char (String "133"%char (String "009"%char "")))
  = true.
Proof. vm_compute. reflexivity. Qed.

(** C8. When the text extracted from a file is empty or consists of white
    space only, [process_file] returns [False] and leaves the vector index
    and the database as they were: no chunk of the file is submitted. *)
Theorem C8_blank_text_not_indexed
    (split_text : DocumentProcessor.Splitter -> string -> list string)
    (extract_text : string -> string -> option string)
    (basename splitext : string -> string)
    (getsize : string -> option Z) (isoformat : Z -> string)
    (app : App) (file_path fund_id : string) (now : Z) (uuid4 new_oid text : string) :
  extract_text file_path (PyStr.lower (splitext file_path)) = Some text →
  PyStr.all_space text = true →
  DocumentProcessor.process_file split_text extract_text basename splitext getsize isoformat
    app file_path fund_id now uuid4 new_oid
  = (app, false).
Proof.
  intros Htext Hblank. unfold DocumentProcessor.process_file.
  rewrite Htext. by rewrite is_blank_all_space.
Qed.

Lemma C8_blank_text_not_indexed_witness :
  DocumentProcessor.process_file Sample.split_text Sample.extract_text Sample.basename
    Sample.splitext Sample.getsize Sample.isoformat
    Sample.app "notes.txt" Sample.oid 200 "0f8fad5b-d9cb-469f-a165-70867728950e"
    "65f0a1b2c3d4e5f60123456d"
  = (Sample.app, false).
Proof.
  apply (C8_blank_text_not_indexed _ _ _ _ _ _ _ _ _ _ _ _ (" " +:+ PyStr.nl +:+ "  "));
    reflexivity.
Defined.

(** A text that is not blank is indexed when the index is loaded and the
    file size can be read. *)
Lemma process_file_indexes
    (split_text : DocumentProcessor.Splitter -> string -> list string)
    (extract_text : string -> string -> option string)
    (basename splitext : string -> string)
    (getsize : string -> option Z) (isoformat : Z -> string)
    (app : App) (file_path fund_id : string) (now : Z) (uuid4 new_oid text : string)
    (stored : list RAG.Document) (size : Z) :
  extract_text file_path (PyStr.lower (splitext file_path)) = Some text →
  PyStr.all_space text = false →
  vectordb app = Some stored →
  getsize file_path = Some size →
  let result :=
    DocumentProcessor.process_file split_text extract_text basename splitext getsize isoformat
      app file_path fund_id now uuid4 new_oid in
  result.2 = true
  ∧ vectordb result.1
    = Some (stored ++ DocumentProcessor.chunks split_text text
                        (DocumentProcessor.file_metadata isoformat (basename file_path)
                           (PyStr.lower (splitext file_path)) fund_id now)
                        uuid4).
Proof.
  intros Htext Hblank Hindex Hsize. cbv zeta. unfold DocumentProcessor.process_file.
  rewrite Htext.
  destruct (DocumentProcessor.is_blank text) eqn:Hb.
  { apply is_blank_iff in Hb. congruence. }
  unfold DocumentProcessor._add_to_pinecone. rewrite Hindex, Hsize. done.
Qed.

Lemma chunk_metadata_other (metadata : gmap string value) (doc_id : string)
    (total i : nat) (key : string) :
  key ∉ ["file_name"; "doc_id"; "total_chunks"; "chunk"; "chunk_id"] →
  DocumentProcessor.chunk_metadata metadata doc_id total i !! key = metadata !! key.
Proof.
  intros Hkey. unfold DocumentProcessor.chunk_metadata.
  rewrite !not_elem_of_cons in Hkey. destruct Hkey as (? & ? & ? & ? & ? & _).
  by rewrite !lookup_insert_ne by done.
Qed.


Example chunks_of_sample_text :
  DocumentProcessor.chunks Sample.split_text "Revenue grew 20% in Q1."
    (DocumentProcessor.file_metadata Sample.isoformat "q1.txt" ".txt" Sample.oid 200)
    "0f8fad5b"
  = [{| RAG.page_content := "Revenue grew 20% in Q1.";
        RAG.metadata :=
          DocumentProcessor.chunk_metadata
            (DocumentProcessor.file_metadata Sample.isoformat "q1.txt" ".txt" Sample.oid 200)
            "0f8fad5b" 1 0 |}].
Proof. vm_compute. reflexivity. Qed.

(** ** Deleting a fund *)

(** What [DELETE /api/funds/{fund_id}] does when the fund is found.  The
    fund record is removed under the parsed identifier [oid]; the document
    records removed are those whose [fund_id] is the string of the request;
    the fund is no longer listed, reading it gives 404, deleting it again
    gives 404; and the vector index is what it was. *)
Lemma delete_fund_effect
    (similarity_search : list RAG.Document -> string -> Z -> RAG.Filter -> list RAG.Document)
    (qa_chain : list RAG.Document -> string -> option string)
    (get_image_data : string -> option string)
    (app : App) (id oid : string) (fund : Mongo.Fund) (now : Z) :
  Mongo.get_fund (mongodb app) id = Some (oid, fund) →
  let result := Api.delete_fund app id in
  result.2 = Api.Ok tt
  ∧ (∃ d d',
       mongodb app = Some d ∧ mongodb result.1 = Some d'
       ∧ Mongo.funds_collection d' = delete oid (Mongo.funds_collection d)
       ∧ Mongo.documents_collection d'
         = filter (fun r => Mongo.doc_fund_id r ≠ id) (Mongo.documents_collection d))
  ∧ Mongo.get_fund_documents (mongodb result.1) id = []
  ∧ (∀ entry, entry ∈ Mongo.list_funds (mongodb result.1) → entry.1 ≠ oid)
  ∧ (∀ r, r ∈ Api.list_funds result.1 → Api.fund_id r ≠ oid)
  ∧ Api.get_fund similarity_search qa_chain get_image_data result.1 id now
    = (result.1, Api.HTTPException 404, [])
  ∧ Api.delete_fund result.1 id = (result.1, Api.HTTPException 404)
  ∧ vectordb result.1 = vectordb app.
Proof.
  intros Hget result.
  destruct (get_fund_Some _ _ _ _ Hget) as (d & Hdb & Hoid & Hfund).
  assert (result
          = ({| mongodb :=
                  Some {| Mongo.funds_collection := delete oid (Mongo.funds_collection d);
                          Mongo.documents_collection :=
                            filter (fun r => Mongo.doc_fund_id r ≠ id)
                                   (Mongo.documents_collection d) |};
                vectordb := vectordb app |},
             Api.Ok tt)) as ->.
  { subst result. unfold Api.delete_fund. rewrite Hget.
    unfold Mongo.delete_fund. rewrite Hdb, Hoid.
    by rewrite bool_decide_eq_true_2 by (by rewrite Hfund). }
  cbn [fst snd mongodb vectordb].
  assert (Mongo.get_fund
            (Some {| Mongo.funds_collection := delete oid (Mongo.funds_collection d);
                     Mongo.documents_collection :=
                       filter (fun r => Mongo.doc_fund_id r ≠ id)
                              (Mongo.documents_collection d) |}) id = None) as Hgone.
  { rewrite (get_fund_lookup _ id oid Hoid). cbn. by rewrite lookup_delete_eq. }
  split; [done|]. split; [by eexists _, _|]. split.
  { cbn. apply filter_none. by intros r [Hr _]%list_elem_of_filter. }
  assert (∀ entry : string * Mongo.Fund,
            entry ∈ map_to_list (delete oid (Mongo.funds_collection d)) → entry.1 ≠ oid)
    as Hlist.
  { intros [k f] Hin%elem_of_map_to_list Heq. cbn in Heq. subst k.
    by rewrite lookup_delete_eq in Hin. }
  split; [exact Hlist|]. split.
  { unfold Api.list_funds. cbn.
    intros r (entry & -> & Hentry)%list_elem_of_fmap. by apply Hlist. }
  split; [unfold Api.get_fund; cbn [mongodb]; by rewrite Hgone|].
  split; [unfold Api.delete_fund; cbn [mongodb]; by rewrite Hgone | done].
Qed.

(** C10 fails on the code.  [ObjectId] reads hex digits of either case,
    while the document records are matched on the string of the request
    (lines 168-175).  A delete that names a stored fund by another spelling
    of its identifier answers 200 and removes the fund record: the fund is
    no longer listed, reading it and deleting it again give 404, the vector
    index is what it was.  But no document record of the fund is removed:
    the records filed under the fund's identifier are all still stored,
    where the claim, like the docstring of [delete_fund], has them removed
    with the fund. *)
Theorem C10_records_outlive_fund
    (similarity_search : list RAG.Document -> string -> Z -> RAG.Filter -> list RAG.Document)
    (qa_chain : list RAG.Document -> string -> option string)
    (get_image_data : string -> option string)
    (app : App) (id oid : string) (fund : Mongo.Fund) (now : Z) :
  Mongo.get_fund (mongodb app) id = Some (oid, fund) →
  id ≠ oid →
  let result := Api.delete_fund app id in
  result.2 = Api.Ok tt
  ∧ (∀ r, r ∈ Api.list_funds result.1 → Api.fund_id r ≠ oid)
  ∧ Api.get_fund similarity_search qa_chain get_image_data result.1 id now
    = (result.1, Api.HTTPException 404, [])
  ∧ Api.delete_fund result.1 id = (result.1, Api.HTTPException 404)
  ∧ vectordb result.1 = vectordb app
  ∧ Mongo.get_fund_documents (mongodb result.1) oid
    = Mongo.get_fund_documents (mongodb app) oid.
Proof.
  intros Hget Hspelling result.
  destruct (delete_fund_effect similarity_search qa_chain get_image_data
              app id oid fund now Hget)
    as (Hok & (d & d' & Hdb & Hdb' & _ & Hdocs) & _ & _ & Hlisted & Hread & Hagain & Hindex).
  fold result in Hok, Hdb', Hlisted, Hread, Hagain, Hindex.
  split; [exact Hok|]. split; [exact Hlisted|]. split; [exact Hread|].
  split; [exact Hagain|]. split; [exact Hindex|].
  rewrite Hdb, Hdb'. cbn [Mongo.get_fund_documents]. rewrite Hdocs, list_filter_filter.
  apply list_filter_iff. intros r. split; [by intros [Hr _]|].
  intros Hr. split; [exact Hr|]. rewrite Hr. by intros <-.
Qed.

Lemma C10_records_outlive_fund_witness :
  let result := Api.delete_fund Sample.app Sample.upper_oid in
  Mongo.get_fund (mongodb Sample.app) Sample.upper_oid = Some (Sample.oid, Sample.fund)
  ∧ result.2 = Api.Ok tt
  ∧ Api.list_funds result.1 = []
  ∧ Mongo.get_fund_documents (mongodb result.1) Sample.oid
    = Mongo.documents_collection Sample.db
  ∧ length (Mongo.get_fund_documents (mongodb result.1) Sample.oid) = 3%nat.
Proof.
  intros result.
  destruct (C10_records_outlive_fund Sample.search Sample.chain Sample.image
              Sample.app Sample.upper_oid Sample.oid Sample.fund 200)
    as (Hok & _ & _ & _ & _ & Hdocs); [vm_compute; reflexivity | done |].
  fold result in Hok, Hdocs.
  split; [vm_compute; reflexivity|]. split; [exact Hok|].
  split; [vm_compute; reflexivity|].
  split; rewrite Hdocs; vm_compute; reflexivity.
Defined.

(** * Further properties of the query service *)

Lemma filter_same_key {A K} `{EqDecision K} (key : A → K) (l : list A) (x : A) :
  NoDup (key <$> l) → x ∈ l → filter (fun y => key y = key x) l = [x].
Proof.
  induction l as [|y l IH]; intros Hnd Hx; [by apply elem_of_nil in Hx|].
  rewrite fmap_cons in Hnd. apply NoDup_cons in Hnd as [Hy Hnd].
  apply elem_of_cons in Hx as [->|Hx].
  - rewrite filter_cons_True by done. f_equal.
    apply filter_none. intros z Hz Heq. apply Hy. rewrite <- Heq.
    by apply list_elem_of_fmap_2.
  - rewrite filter_cons_False; [by apply IH|].
    intros Heq. apply Hy. rewrite Heq. by apply list_elem_of_fmap_2.
Qed.

Lemma first_by_key_NoDup_id {A K} `{EqDecision K} (key : A → K) (l : list A) :
  NoDup (key <$> l) → Spec.first_by_key key l = l.
Proof.
  induction l as [|x l IH]; intros Hnd; [done|].
  rewrite fmap_cons in Hnd. apply NoDup_cons in Hnd as [Hx Hnd].
  rewrite first_by_key_cons, (IH Hnd). f_equal.
  apply filter_all. intros y Hy Heq. apply Hx. rewrite <- Heq.
  by apply list_elem_of_fmap_2.
Qed.

Lemma first_by_key_idemp {A K} `{EqDecision K} (key : A → K) (l : list A) :
  Spec.first_by_key key (Spec.first_by_key key l) = Spec.first_by_key key l.
Proof. apply first_by_key_NoDup_id, first_by_key_NoDup. Qed.

(** X1. The context assembly never fails: whatever the retriever returns,
    the loop of lines 118-133 reads [doc_type] only after it was assigned.
    The context holds two entries per distinct file name, and it is the
    empty string when nothing was retrieved. *)
Theorem format_context_total (docs : list RAG.Document) :
  ∃ entries,
    RAG.formatted_docs (RAG.docs_by_source docs) = Some entries
    ∧ RAG.format_context docs = Some (PyStr.join (PyStr.nl +:+ PyStr.nl) entries)
    ∧ length entries = (2 * length (Spec.first_seen (RAG.source_name <$> docs)))%nat
    ∧ (docs = [] → entries = []).
Proof.
  exists (flat_map Spec.emitted_entries (RAG.docs_by_source docs)).
  unfold RAG.format_context. rewrite formatted_docs_emitted.
  split; [done|]. split; [done|]. split; [|by intros ->].
  rewrite docs_by_source_groups.
  assert (∀ k, k ∈ Spec.first_seen (RAG.source_name <$> docs) →
               length (Spec.emitted_entries (Spec.group_of docs k)) = 2%nat) as Htwo.
  { intros k (d & -> & Hd)%elem_of_first_seen%list_elem_of_fmap.
    unfold Spec.emitted_entries, Spec.group_of. cbn [snd fst].
    destruct (last _) eqn:Hlast; [done|]. apply last_None in Hlast.
    by destruct (filter_nil_not_elem_of _ _ d Hlast eq_refl). }
  induction (Spec.first_seen (RAG.source_name <$> docs)) as [|k ks IH]; [done|].
  rewrite fmap_cons. cbn [flat_map]. rewrite length_app, Htwo by (apply elem_of_cons; by left).
  rewrite IH; [cbn; lia|]. intros k' Hk'. apply Htwo, elem_of_cons. by right.
Qed.

Lemma emitted_of_singletons (docs l : list RAG.Document) :
  (∀ d, d ∈ l →
     Spec.emitted_entries (Spec.group_of docs (RAG.source_name d))
     = [RAG.header (RAG.source_name d); Spec.render_chunk d]) →
  flat_map Spec.emitted_entries (Spec.group_of docs <$> (RAG.source_name <$> l))
  = flat_map (fun d => [RAG.header (RAG.source_name d); Spec.render_chunk d]) l.
Proof.
  induction l as [|d l IH]; intros Hone; [done|].
  rewrite !fmap_cons. cbn [flat_map].
  rewrite Hone by (apply elem_of_cons; by left).
  rewrite IH; [done|]. intros d' Hd'. apply Hone, elem_of_cons. by right.
Qed.

(** X2. When the retrieved chunks carry pairwise different file names, the
    context lists every one of them in retrieval order: its header, then the
    chunk rendered by its own type, page and chunk index. *)
Theorem context_of_distinct_files (docs : list RAG.Document) :
  NoDup (RAG.source_name <$> docs) →
  RAG.formatted_docs (RAG.docs_by_source docs)
  = Some (flat_map (fun d => [RAG.header (RAG.source_name d); Spec.render_chunk d]) docs).
Proof.
  intros Hnd. rewrite formatted_docs_emitted, docs_by_source_groups. f_equal.
  unfold Spec.first_seen.
  rewrite (first_by_key_NoDup_id id) by (by rewrite list_fmap_id).
  apply emitted_of_singletons. intros d Hd.
  unfold Spec.emitted_entries, Spec.group_of. cbn [fst snd].
  by rewrite (filter_same_key RAG.source_name docs d Hnd Hd).
Qed.

Lemma context_of_distinct_files_witness :
  RAG.formatted_docs
    (RAG.docs_by_source [Sample.chunk "a.txt" "a0" 0; Sample.chunk "b.txt" "b0" 0])
  = Some [RAG.header (VStr "a.txt");
          "[CONTENT from page Unknown page, chunk 0]:" +:+ PyStr.nl +:+ "a0";
          RAG.header (VStr "b.txt");
          "[CONTENT from page Unknown page, chunk 0]:" +:+ PyStr.nl +:+ "b0"].
Proof.
  rewrite (context_of_distinct_files
             [Sample.chunk "a.txt" "a0" 0; Sample.chunk "b.txt" "b0" 0]).
  - vm_compute. reflexivity.
  - vm_compute. repeat constructor; rewrite ?elem_of_cons, ?elem_of_nil; intuition discriminate.
Defined.

Lemma attach_image_lookup (get_image_data : string -> option string)
    (source : gmap string value) (key : string) :
  key ≠ "image_base64" → RAG.attach_image get_image_data source !! key = source !! key.
Proof.
  intros Hkey. unfold RAG.attach_image.
  destruct (decide _); [|done].
  destruct (source !! "image_path") as [[path|]|]; [|done..].
  destruct (get_image_data path) as [data|]; [|done].
  destruct (PyStr.truthy data); [|done].
  by rewrite lookup_insert_ne.
Qed.

(** X3. Attaching image data (lines 102-107) touches one key only:
    ["image_base64"].  Every other entry of a source stays, so the file name a
    chunk is grouped under and the identifier it is deduplicated by do not
    depend on it; and the key is written only for a source of type "image"
    with an ["image_path"] whose data could be read and is not empty. *)
Theorem attach_image_frame (get_image_data : string -> option string)
    (source : gmap string value) :
  (∀ key, key ≠ "image_base64" →
     RAG.attach_image get_image_data source !! key = source !! key)
  ∧ RAG.source_id (RAG.attach_image get_image_data source) = RAG.source_id source
  ∧ (∀ content,
       RAG.source_name {| RAG.page_content := content;
                          RAG.metadata := RAG.attach_image get_image_data source |}
       = RAG.source_name {| RAG.page_content := content; RAG.metadata := source |})
  ∧ (RAG.attach_image get_image_data source ≠ source →
     source !! "type" = Some (VStr "image")
     ∧ ∃ path data,
         source !! "image_path" = Some (VStr path)
         ∧ get_image_data path = Some data
         ∧ data ≠ ""
         ∧ RAG.attach_image get_image_data source = <["image_base64" := VStr data]> source).
Proof.
  split; [intros key; apply attach_image_lookup|].
  split; [unfold RAG.source_id, dict_get; by rewrite !attach_image_lookup by done|].
  split; [intros content; unfold RAG.source_name, dict_get; cbn;
          by rewrite attach_image_lookup by done|].
  unfold RAG.attach_image.
  destruct (decide _) as [Htype|]; [|done].
  destruct (source !! "image_path") as [[path|]|]; [|done..].
  destruct (get_image_data path) as [data|] eqn:Hdata; [|done].
  destruct data as [|c data]; [done|]. cbn [PyStr.truthy].
  intros _. split; [done|]. by exists path, (String c data).
Qed.

(** X4. Deduplicating sources a second time changes nothing. *)
Theorem unique_sources_idempotent (sources : list (gmap string value)) :
  RAG.unique_sources (RAG.unique_sources sources) = RAG.unique_sources sources.
Proof. rewrite !unique_sources_first. apply first_by_key_idemp. Qed.

(** * Further properties of the chat endpoint *)

(** X5. The count that a chat hands to the retriever is never below the
    requested one and never above the larger of the requested one and 15;
    when the request names documents, or the fund has at most one document,
    it is the keyword-widened count alone. *)
Theorem chat_top_k_bounds
    (similarity_search : list RAG.Document -> string -> Z -> RAG.Filter -> list RAG.Document)
    (qa_chain : list RAG.Document -> string -> option string)
    (get_image_data : string -> option string)
    (app : App) (id : string) (request : Api.ChatRequest) (doc_count : nat) (run : RAG.Run) :
  Api.chat_query similarity_search qa_chain get_image_data app id request
    = Api.Ok (doc_count, run) →
  Api.top_k request ≤ RAG.run_top_k run ≤ Z.max (Api.top_k request) 15
  ∧ (RAG.has_document_ids (Api.document_ids request) = true ∨ (doc_count ≤ 1)%nat →
     RAG.run_top_k run = RAG.adjusted_top_k (Api.message request) (Api.top_k request)).
Proof.
  unfold Api.chat_query, Api.rag_run, RAG.query_run. intros Hq.
  destruct (Mongo.get_fund _ _); [|done].
  destruct (RAG.query_with _ _ _ _ _ _ _ _ _) as [run'|] eqn:Hrun; [|done].
  injection Hq as <- <-.
  apply query_with_Some in Hrun as (_ & _ & Hk & _). rewrite Hk.
  unfold Api.chat_top_k, RAG.adjusted_top_k.
  split.
  - destruct (RAG.is_broad _), (_ && _)%bool; lia.
  - intros [Hids|Hcount].
    + rewrite Hids. by rewrite andb_false_r.
    + apply Nat.ltb_ge in Hcount. by rewrite Hcount.
Qed.

Lemma chat_top_k_bounds_witness :
  ∃ run,
    Api.chat_query Sample.search Sample.chain Sample.image Sample.app Sample.oid
      {| Api.message := "Describe the fund"; Api.top_k := 3;
         Api.document_ids := Some ["uuid-1"] |}
    = Api.Ok (3%nat, run)
    ∧ RAG.run_top_k run = 10.
Proof.
  eexists. split; [vm_compute; reflexivity|].
  eapply (chat_top_k_bounds Sample.search Sample.chain Sample.image Sample.app Sample.oid
            {| Api.message := "Describe the fund"; Api.top_k := 3;
               Api.document_ids := Some ["uuid-1"] |} 3);
    [vm_compute; reflexivity | by left].
Defined.

Section ChatOutcome.

Variable similarity_search : list RAG.Document -> string -> Z -> RAG.Filter -> list RAG.Document.
Variable qa_chain : list RAG.Document -> string -> option string.
Variable get_image_data : string -> option string.

(** A run of [query] exists when the index is loaded and the chain
    answers: assembling the context never stands in the way. *)
Lemma query_run_Some (stored : list RAG.Document) (q id : string) (k : Z)
    (ids : option (list string)) (answer : string) :
  qa_chain (similarity_search stored q (RAG.adjusted_top_k q k) (RAG.filter_dict id ids)) q
  = Some answer →
  ∃ run,
    RAG.query_run similarity_search qa_chain get_image_data (Some stored) q id k ids = Some run
    ∧ RAG.run_answer run = answer
    ∧ RAG.run_unique_sources run
      = RAG.unique_sources
          (RAG.attach_image get_image_data
             <$> (RAG.metadata
                    <$> similarity_search stored q (RAG.adjusted_top_k q k)
                          (RAG.filter_dict id ids))).
Proof.
  intros Hanswer. unfold RAG.query_run, RAG.query_with, RAG.format_context. cbn.
  rewrite formatted_docs_emitted.
  cbn. rewrite Hanswer. cbn. eexists. split; [done|]. split; [done|]. cbn.
  by rewrite <- !list_fmap_compose.
Qed.

End ChatOutcome.

(** X6. How a chat ends.  It answers 404 exactly when the fund is not
    stored.  For a stored fund it answers 500 exactly when the vector index
    is not loaded or the chain raises; otherwise it answers with the chain's
    completion, followed at most by the note on the documents used, and with
    the deduplicated metadata of the retrieved chunks as sources. *)
Theorem chat_with_fund_outcome
    (similarity_search : list RAG.Document -> string -> Z -> RAG.Filter -> list RAG.Document)
    (qa_chain : list RAG.Document -> string -> option string)
    (get_image_data : string -> option string)
    (app : App) (id : string) (request : Api.ChatRequest) :
  let chat := Api.chat_with_fund similarity_search qa_chain get_image_data app id request in
  let retrieved stored :=
    similarity_search stored (Api.message request)
      (RAG.adjusted_top_k (Api.message request)
         (Api.chat_top_k request (length (Mongo.get_fund_documents (mongodb app) id))))
      (RAG.filter_dict id (Api.document_ids request)) in
  (chat = Api.HTTPException 404 ↔ Mongo.get_fund (mongodb app) id = None)
  ∧ (chat = Api.HTTPException 500
     ↔ is_Some (Mongo.get_fund (mongodb app) id)
       ∧ (vectordb app = None
          ∨ ∃ stored, vectordb app = Some stored
                      ∧ qa_chain (retrieved stored) (Api.message request) = None))
  ∧ (∀ stored answer,
       is_Some (Mongo.get_fund (mongodb app) id) →
       vectordb app = Some stored →
       qa_chain (retrieved stored) (Api.message request) = Some answer →
       ∃ response,
         chat = Api.Ok response
         ∧ (Api.chat_answer response = answer
            ∨ Api.chat_answer response
              = answer +:+ Api.reference_note (Api.doc_names (Api.chat_sources response)))
         ∧ Api.chat_sources response
           = RAG.unique_sources
               (RAG.attach_image get_image_data <$> (RAG.metadata <$> retrieved stored))).
Proof.
  intros chat retrieved. subst chat.
  unfold Api.chat_with_fund, Api.chat_query, Api.rag_run.
  destruct (Mongo.get_fund (mongodb app) id) as [fund|] eqn:Hfund.
  2:{ split; [done|]. split; [|by intros ? ? [? [=]]].
      split; [done | by intros [[? [=]] _]]. }
  destruct (vectordb app) as [stored|] eqn:Hindex.
  2:{ split; [done|]. split; [|done]. split; [intros _; split; [by eexists | by left] | done]. }
  destruct (qa_chain (retrieved stored) (Api.message request)) as [answer|] eqn:Hanswer.
  - destruct (query_run_Some similarity_search qa_chain get_image_data stored
                (Api.message request) id _ (Api.document_ids request) answer Hanswer)
      as (run & -> & Hans & Hsources).
    split; [done|]. split.
    { split; [done|]. intros [_ [[=]|(s & [= <-] & Hnone)]]. congruence. }
    intros s a _ [= <-] Ha. eexists. split; [done|]. cbn.
    assert (a = answer) as -> by congruence.
    split; [|by rewrite Hsources]. rewrite Hans.
    destruct (_ && _)%bool; [by right | by left].
  - assert (RAG.query_run similarity_search qa_chain get_image_data (Some stored)
              (Api.message request) id
              (Api.chat_top_k request (length (Mongo.get_fund_documents (mongodb app) id)))
              (Api.document_ids request) = None) as ->.
    { unfold RAG.query_run, RAG.query_with. cbn. fold (retrieved stored).
      rewrite Hanswer. by destruct (RAG.format_context _). }
    split; [done|]. split; [|intros s a _ [= <-]; congruence].
    split; [|done]. intros _. split; [by eexists|]. right. by exists stored.
Qed.

(** * Further properties of the fund read *)

Section FundRead.

Variable similarity_search : list RAG.Document -> string -> Z -> RAG.Filter -> list RAG.Document.
Variable qa_chain : list RAG.Document -> string -> option string.
Variable get_image_data : string -> option string.

(** What lines 235-260 do to the store: at most the summary and the time
    stamp of this fund change, and the fund in hand is the stored one. *)
Lemma refresh_summary_store (app : App) (id oid : string) (fund : Mongo.Fund)
    (live now : Z) (d0 : Mongo.DB) :
  mongodb app = Some d0 →
  Mongo.ObjectId id = Some oid →
  Mongo.funds_collection d0 !! oid = Some fund →
  ∃ d fund' calls,
    Api.refresh_summary similarity_search qa_chain get_image_data app id (oid, fund) live now
    = (Some d, Some (oid, fund'), calls)
    ∧ Mongo.funds_collection d = <[oid := fund']> (Mongo.funds_collection d0)
    ∧ Mongo.documents_collection d = Mongo.documents_collection d0
    ∧ Mongo.document_count fund' = Mongo.document_count fund
    ∧ Mongo.fund_name fund' = Mongo.fund_name fund
    ∧ Mongo.created_at fund' = Mongo.created_at fund.
Proof.
  intros Hdb Hoid Hfund. unfold Api.refresh_summary. cbn [snd].
  assert (<[oid := fund]> (Mongo.funds_collection d0) = Mongo.funds_collection d0) as Hid
    by (by apply insert_id).
  destruct (Api.summary_needed fund live).
  2:{ exists d0, fund, []. rewrite Hdb, Hid. by split_and!. }
  destruct (Api.rag_query _ _ _ _ _ _ _ _) as [[generated sources]|].
  2:{ exists d0, fund, [Api.RagQuery (Api.summary_query live) id 10].
      rewrite Hdb, Hid. by split_and!. }
  destruct (_ && _)%bool.
  2:{ exists d0, fund, [Api.RagQuery (Api.summary_query live) id 10].
      rewrite Hdb, Hid. by split_and!. }
  unfold Mongo.update_fund_summary. rewrite Hdb, Hoid, Hfund.
  destruct (bool_decide (Mongo.set_summary fund generated now ≠ fund)) eqn:Hmod.
  - eexists _, (Mongo.set_summary fund generated now), _.
    split; [rewrite (get_fund_lookup _ id oid Hoid); cbn; by rewrite lookup_insert_eq
           | by split_and!].
  - apply bool_decide_eq_false in Hmod. apply dec_stable in Hmod.
    eexists _, fund, _. split; [done|]. cbn. rewrite Hmod. by split_and!.
Qed.

End FundRead.

(** What a read of a stored fund returns and leaves behind. *)
Lemma get_fund_read_spec
    (similarity_search : list RAG.Document -> string -> Z -> RAG.Filter -> list RAG.Document)
    (qa_chain : list RAG.Document -> string -> option string)
    (get_image_data : string -> option string)
    (app : App) (id : string) (now : Z) (oid : string) (fund : Mongo.Fund) :
  Mongo.get_fund (mongodb app) id = Some (oid, fund) →
  let live := length (Mongo.get_fund_documents (mongodb app) id) in
  let result := Api.get_fund similarity_search qa_chain get_image_data app id now in
  (∃ response,
     result.1.2 = Api.Ok response
     ∧ Api.fund_id response = oid
     ∧ Api.fund_name response = Mongo.fund_name fund
     ∧ Api.document_count response = Z.of_nat live
     ∧ Api.documents response
       = Api.document_info <$> Mongo.get_fund_documents (mongodb app) id)
  ∧ (∃ fund', Mongo.get_fund (mongodb result.1.1) id = Some (oid, fund')
              ∧ Api.stored_count fund' = Z.of_nat live)
  ∧ (∀ other, Mongo.ObjectId other ≠ Some oid →
       Mongo.get_fund (mongodb result.1.1) other = Mongo.get_fund (mongodb app) other)
  ∧ (∀ other, Mongo.get_fund_documents (mongodb result.1.1) other
              = Mongo.get_fund_documents (mongodb app) other)
  ∧ vectordb result.1.1 = vectordb app.
Proof.
  intros Hget live result. subst result.
  destruct (get_fund_Some _ _ _ _ Hget) as (d0 & Hdb & Hoid & Hfund).
  unfold Api.get_fund. rewrite Hget.
  destruct (refresh_summary_store similarity_search qa_chain get_image_data app id oid fund
              (Z.of_nat (length (Api.document_info
                                   <$> Mongo.get_fund_documents (mongodb app) id)))
              now d0 Hdb Hoid Hfund)
    as (d & fund' & calls & -> & Hfunds & Hdocs & Hcount & Hname & _).
  rewrite length_fmap. fold live. cbn [fst snd mongodb vectordb].
  split; [eexists; split; [done|]; by cbn|].
  assert (∀ other, Mongo.get_fund_documents (Some d) other
                   = Mongo.get_fund_documents (mongodb app) other) as Hsame.
  { intros other. rewrite Hdb. cbn. by rewrite Hdocs. }
  destruct (decide (Api.stored_count fund' ≠ Z.of_nat live)) as [Hne|Heq];
    cbn [Mongo.set_document_count].
  - split.
    { exists (Mongo.set_count fund' (Z.of_nat live)). split; [|done].
      rewrite (get_fund_lookup _ id oid Hoid). cbn.
      by rewrite lookup_alter_eq, Hfunds, lookup_insert_eq. }
    split; [|split; [|done]].
    + intros other Hother. rewrite Hdb. unfold Mongo.get_fund. cbn.
      destruct (Mongo.ObjectId other) as [o|]; [|done]. cbn.
      by rewrite lookup_alter_ne, Hfunds, lookup_insert_ne by congruence.
    + intros other. rewrite Hdb. cbn. by rewrite Hdocs.
  - apply dec_stable in Heq. split.
    { exists fund'. split; [|done].
      rewrite (get_fund_lookup _ id oid Hoid). by rewrite Hfunds, lookup_insert_eq. }
    split; [|split; [|done]].
    + intros other Hother. rewrite Hdb. unfold Mongo.get_fund. cbn.
      destruct (Mongo.ObjectId other) as [o|]; [|done]. cbn.
      by rewrite Hfunds, lookup_insert_ne by congruence.
    + intros other. rewrite Hdb. cbn. by rewrite Hdocs.
Qed.


Lemma get_fund_calls
    (similarity_search : list RAG.Document -> string -> Z -> RAG.Filter -> list RAG.Document)
    (qa_chain : list RAG.Document -> string -> option string)
    (get_image_data : string -> option string)
    (app : App) (id : string) (now : Z) (oid : string) (fund : Mongo.Fund) :
  Mongo.get_fund (mongodb app) id = Some (oid, fund) →
  (∃ q k, Api.RagQuery q id k
          ∈ (Api.get_fund similarity_search qa_chain get_image_data app id now).2)
  ↔ Api.summary_needed fund
      (Z.of_nat (length (Mongo.get_fund_documents (mongodb app) id))) = true.
Proof.
  intros Hget. unfold Api.get_fund. rewrite Hget, length_fmap.
  destruct (Api.refresh_summary _ _ _ _ _ _ _ _) as [[db refreshed] calls] eqn:Hrefresh.
  destruct (refresh_summary_spec _ _ _ _ _ _ _ _ _ _ _ _ Hget Hrefresh)
    as (Hcalls & _ & d & stored_fund & seen_fund & -> & _ & -> & _).
  done.
Qed.

(** X7. Reading a stored fund always succeeds, whether or not the summary
    query was issued and whether or not it failed.  The response reports the
    live number of documents and lists them in stored order; after the read
    the stored [document_count] equals the live number; the documents, the
    other funds and the vector index are untouched. *)
Theorem get_fund_repairs_count
    (similarity_search : list RAG.Document -> string -> Z -> RAG.Filter -> list RAG.Document)
    (qa_chain : list RAG.Document -> string -> option string)
    (get_image_data : string -> option string)
    (app : App) (id : string) (now : Z) (oid : string) (fund : Mongo.Fund) :
  Mongo.get_fund (mongodb app) id = Some (oid, fund) →
  let live := length (Mongo.get_fund_documents (mongodb app) id) in
  let result := Api.get_fund similarity_search qa_chain get_image_data app id now in
  (∃ response,
     result.1.2 = Api.Ok response
     ∧ Api.fund_id response = oid
     ∧ Api.fund_name response = Mongo.fund_name fund
     ∧ Api.document_count response = Z.of_nat live
     ∧ Api.documents response
       = Api.document_info <$> Mongo.get_fund_documents (mongodb app) id)
  ∧ (∃ fund', Mongo.get_fund (mongodb result.1.1) id = Some (oid, fund')
              ∧ Api.stored_count fund' = Z.of_nat live)
  ∧ (∀ other, Mongo.ObjectId other ≠ Some oid →
       Mongo.get_fund (mongodb result.1.1) other = Mongo.get_fund (mongodb app) other)
  ∧ (∀ other, Mongo.get_fund_documents (mongodb result.1.1) other
              = Mongo.get_fund_documents (mongodb app) other)
  ∧ vectordb result.1.1 = vectordb app.
Proof. apply get_fund_read_spec. Qed.

Lemma get_fund_repairs_count_witness :
  let result := Api.get_fund Sample.search Sample.chain Sample.image
                  Sample.stale_app Sample.oid 200 in
  ∃ fund', Mongo.get_fund (mongodb result.1.1) Sample.oid = Some (Sample.oid, fund')
           ∧ Api.stored_count fund' = 1.
Proof.
  intros result.
  destruct (get_fund_repairs_count Sample.search Sample.chain Sample.image
              Sample.stale_app Sample.oid 200 Sample.oid Sample.stale_fund)
    as (_ & Hcount & _); [vm_compute; reflexivity|].
  exact Hcount.
Defined.

(** X8. Once a fund has been read, a further read issues the summary query
    only if the stored summary is "Empty": the first read has brought the
    stored document count in line with the live one. *)
Theorem second_read_regenerates_only_empty
    (similarity_search : list RAG.Document -> string -> Z -> RAG.Filter -> list RAG.Document)
    (qa_chain : list RAG.Document -> string -> option string)
    (get_image_data : string -> option string)
    (app : App) (id : string) (now now' : Z) (oid : string) (fund : Mongo.Fund) :
  Mongo.get_fund (mongodb app) id = Some (oid, fund) →
  let first := Api.get_fund similarity_search qa_chain get_image_data app id now in
  let second := Api.get_fund similarity_search qa_chain get_image_data first.1.1 id now' in
  ∃ fund',
    Mongo.get_fund (mongodb first.1.1) id = Some (oid, fund')
    ∧ ((∃ q k, Api.RagQuery q id k ∈ second.2) ↔ Mongo.summary fund' = Some "Empty").
Proof.
  intros Hget first second.
  destruct (get_fund_read_spec similarity_search qa_chain get_image_data
              app id now oid fund Hget)
    as (_ & (fund' & Hget' & Hcount) & _ & Hdocs & _).
  fold first in Hget', Hdocs. exists fund'. split; [done|].
  subst second. rewrite (get_fund_calls _ _ _ _ _ _ _ _ Hget').
  rewrite summary_needed_spec, Hdocs, Hcount. tauto.
Qed.

Lemma second_read_regenerates_only_empty_witness :
  let first := Api.get_fund Sample.search Sample.chain Sample.image
                 Sample.stale_app Sample.oid 200 in
  let second := Api.get_fund Sample.search Sample.chain Sample.image
                  first.1.1 Sample.oid 300 in
  ∃ fund',
    Mongo.get_fund (mongodb first.1.1) Sample.oid = Some (Sample.oid, fund')
    ∧ ((∃ q k, Api.RagQuery q Sample.oid k ∈ second.2)
       ↔ Mongo.summary fund' = Some "Empty").
Proof.
  apply (second_read_regenerates_only_empty Sample.search Sample.chain Sample.image
           Sample.stale_app Sample.oid 200 300 Sample.oid Sample.stale_fund).
  vm_compute. reflexivity.
Defined.

(** * Further properties of the fund store *)

Lemma get_fund_other (d d' : Mongo.DB) (oid other : string) :
  (∀ o, o ≠ oid → Mongo.funds_collection d' !! o = Mongo.funds_collection d !! o) →
  Mongo.ObjectId other ≠ Some oid →
  Mongo.get_fund (Some d') other = Mongo.get_fund (Some d) other.
Proof.
  intros Hsame Hother. unfold Mongo.get_fund. cbn.
  destruct (Mongo.ObjectId other) as [o|]; [|done]. cbn.
  by rewrite Hsame by congruence.
Qed.

(** X9. A fund that was created can be read back under the identifier that
    [create_fund] returned: it has no documents counted, the summary given
    or else "Empty", and both time stamps set to the time of creation.  The
    funds already stored and all document records are as before, and the
    list of funds is longer by one. *)
Theorem create_fund_then_get (d : Mongo.DB) (name : string) (fund_summary : option string)
    (now : Z) (new_oid : string) :
  Mongo.ObjectId new_oid = Some new_oid →
  Mongo.funds_collection d !! new_oid = None →
  let result := Mongo.create_fund (Some d) name fund_summary now new_oid in
  result.2 = Some new_oid
  ∧ Mongo.get_fund result.1 new_oid
    = Some (new_oid,
            {| Mongo.fund_name := name;
               Mongo.summary := Some (default "Empty" fund_summary);
               Mongo.created_at := now;
               Mongo.updated_at := now;
               Mongo.document_count := Some 0 |})
  ∧ (∀ other, Mongo.ObjectId other ≠ Some new_oid →
       Mongo.get_fund result.1 other = Mongo.get_fund (Some d) other)
  ∧ (∀ other, Mongo.get_fund_documents result.1 other
              = Mongo.get_fund_documents (Some d) other)
  ∧ length (Mongo.list_funds result.1) = S (length (Mongo.list_funds (Some d))).
Proof.
  intros Hoid Hfree result. subst result. unfold Mongo.create_fund. rewrite Hfree.
  cbn [fst snd]. split; [done|]. split.
  { rewrite (get_fund_lookup _ new_oid new_oid Hoid). cbn. rewrite lookup_insert_eq.
    by destruct fund_summary. }
  split.
  { intros other Hother. apply (get_fund_other _ _ new_oid); [|done].
    intros o Ho. cbn. by rewrite lookup_insert_ne. }
  split; [done|]. cbn.
  rewrite !length_map_to_list. by apply map_size_insert_None.
Qed.

Lemma create_fund_then_get_witness :
  let result := Mongo.create_fund (Some Sample.db) "Beta Fund" None 300
                  "65f0a1b2c3d4e5f601234599" in
  result.2 = Some "65f0a1b2c3d4e5f601234599"
  ∧ (fun entry => Mongo.summary entry.2)
      <$> Mongo.get_fund result.1 "65f0a1b2c3d4e5f601234599" = Some (Some "Empty").
Proof.
  intros result.
  destruct (create_fund_then_get Sample.db "Beta Fund" None 300 "65f0a1b2c3d4e5f601234599")
    as (Hid & Hget & _); [reflexivity | vm_compute; reflexivity |].
  split; [exact Hid|]. fold result in Hget. by rewrite Hget.
Defined.

(** X10. Adding a document to a stored fund files one more record under the
    fund, after the ones it had, and raises the fund's count by one: a count
    that matched the number of the fund's records still matches it.  The
    records of other funds, and the fund's summary, are as before. *)
Theorem add_document_keeps_count (d : Mongo.DB) (id : string) (fund : Mongo.Fund)
    (doc_data : Mongo.DocData) (now : Z) (new_oid : string) :
  Mongo.ObjectId id = Some id →
  Mongo.funds_collection d !! id = Some fund →
  Api.stored_count fund = Z.of_nat (length (Mongo.get_fund_documents (Some d) id)) →
  let result := Mongo.add_document_to_fund (Some d) id doc_data now new_oid in
  result.2 = Some new_oid
  ∧ Mongo.get_fund_documents result.1 id
    = Mongo.get_fund_documents (Some d) id
      ++ [{| Mongo.doc_oid := new_oid;
             Mongo.doc_file_name := Mongo.data_file_name doc_data;
             Mongo.doc_file_type := Mongo.data_file_type doc_data;
             Mongo.doc_id := Mongo.data_doc_id doc_data;
             Mongo.doc_size_bytes := Mongo.data_size_bytes doc_data;
             Mongo.doc_fund_id := id;
             Mongo.doc_created_at := now |}]
  ∧ (∃ fund',
       Mongo.get_fund result.1 id = Some (id, fund')
       ∧ Api.stored_count fund' = Z.of_nat (length (Mongo.get_fund_documents result.1 id))
       ∧ Mongo.summary fund' = Mongo.summary fund)
  ∧ (∀ other, other ≠ id →
       Mongo.get_fund_documents result.1 other = Mongo.get_fund_documents (Some d) other).
Proof.
  intros Hoid Hfund Hcount result. subst result.
  unfold Mongo.add_document_to_fund. rewrite Hoid. cbn [fst snd].
  split; [done|].
  assert (∀ other,
            Mongo.get_fund_documents
              (Some {| Mongo.funds_collection :=
                         alter Mongo.inc_document_count id (Mongo.funds_collection d);
                       Mongo.documents_collection :=
                         Mongo.documents_collection d
                         ++ [{| Mongo.doc_oid := new_oid;
                                Mongo.doc_file_name := Mongo.data_file_name doc_data;
                                Mongo.doc_file_type := Mongo.data_file_type doc_data;
                                Mongo.doc_id := Mongo.data_doc_id doc_data;
                                Mongo.doc_size_bytes := Mongo.data_size_bytes doc_data;
                                Mongo.doc_fund_id := id;
                                Mongo.doc_created_at := now |}] |}) other
            = Mongo.get_fund_documents (Some d) other
              ++ (if decide (id = other)
                  then [{| Mongo.doc_oid := new_oid;
                           Mongo.doc_file_name := Mongo.data_file_name doc_data;
                           Mongo.doc_file_type := Mongo.data_file_type doc_data;
                           Mongo.doc_id := Mongo.data_doc_id doc_data;
                           Mongo.doc_size_bytes := Mongo.data_size_bytes doc_data;
                           Mongo.doc_fund_id := id;
                           Mongo.doc_created_at := now |}]
                  else [])) as Hdocs.
  { intros other. cbn. rewrite filter_app. by f_equal. }
  split; [by rewrite Hdocs, decide_True|]. split.
  - exists (Mongo.inc_document_count fund). split.
    + rewrite (get_fund_lookup _ id id Hoid). cbn. by rewrite lookup_alter_eq, Hfund.
    + rewrite Hdocs, decide_True, length_app by done. split; [|done].
      unfold Api.stored_count in *. cbn [Mongo.inc_document_count Mongo.document_count length].
      destruct (Mongo.document_count fund); lia.
  - intros other Hother. by rewrite Hdocs, decide_False, app_nil_r.
Qed.

Lemma add_document_keeps_count_witness :
  let result := Mongo.add_document_to_fund (Some Sample.db) Sample.oid
                  {| Mongo.data_file_name := "q4.txt"; Mongo.data_file_type := "txt";
                     Mongo.data_doc_id := "uuid-4"; Mongo.data_size_bytes := 12 |}
                  300 "65f0a1b2c3d4e5f60123456d" in
  ∃ fund',
    Mongo.get_fund result.1 Sample.oid = Some (Sample.oid, fund')
    ∧ Api.stored_count fund' = 4.
Proof.
  intros result.
  destruct (add_document_keeps_count Sample.db Sample.oid Sample.fund
              {| Mongo.data_file_name := "q4.txt"; Mongo.data_file_type := "txt";
                 Mongo.data_doc_id := "uuid-4"; Mongo.data_size_bytes := 12 |}
              300 "65f0a1b2c3d4e5f60123456d")
    as (_ & _ & (fund' & Hget & Hcount & _) & _);
    [reflexivity | vm_compute; reflexivity | reflexivity |].
  exists fund'. split; [exact Hget|]. rewrite Hcount. vm_compute. reflexivity.
Defined.

(** X11. [add_document_to_fund] stores the record before it looks at the
    fund identifier: with an identifier that is no [ObjectId] the record is
    in the collection all the same, no fund is changed, and the call
    returns [None]. *)
Theorem add_document_invalid_fund_id (d : Mongo.DB) (id : string)
    (doc_data : Mongo.DocData) (now : Z) (new_oid : string) :
  Mongo.ObjectId id = None →
  let result := Mongo.add_document_to_fund (Some d) id doc_data now new_oid in
  result.2 = None
  ∧ length (Mongo.get_fund_documents result.1 id)
    = S (length (Mongo.get_fund_documents (Some d) id))
  ∧ (∀ other, Mongo.get_fund result.1 other = Mongo.get_fund (Some d) other).
Proof.
  intros Hoid result. subst result. unfold Mongo.add_document_to_fund. rewrite Hoid.
  cbn. split; [done|]. split; [|done].
  rewrite filter_app, length_app, filter_cons_True by done. cbn. lia.
Qed.

Lemma add_document_invalid_fund_id_witness :
  (Mongo.add_document_to_fund (Some Sample.db) "acme"
     {| Mongo.data_file_name := "q4.txt"; Mongo.data_file_type := "txt";
        Mongo.data_doc_id := "uuid-4"; Mongo.data_size_bytes := 12 |}
     300 "65f0a1b2c3d4e5f60123456d").2 = None.
Proof.
  apply (add_document_invalid_fund_id Sample.db "acme"
           {| Mongo.data_file_name := "q4.txt"; Mongo.data_file_type := "txt";
              Mongo.data_doc_id := "uuid-4"; Mongo.data_size_bytes := 12 |}
           300 "65f0a1b2c3d4e5f60123456d").
  reflexivity.
Defined.

Lemma set_summary_fixed (fund : Mongo.Fund) (s : string) (now : Z) :
  Mongo.set_summary fund s now = fund
  ↔ Mongo.summary fund = Some s ∧ Mongo.updated_at fund = now.
Proof.
  destruct fund as [name summary created updated count]. unfold Mongo.set_summary. cbn.
  split; [by intros [= <- <-] | by intros [-> ->]].
Qed.

(** X12. [update_fund_summary] on a stored fund sets the summary and the
    time of update and nothing else; it reports [False] exactly when both
    already had these values.  On a fund that is not stored it changes
    nothing and reports [False].  Other funds and the document records are
    never touched. *)
Theorem update_fund_summary_spec (d : Mongo.DB) (id s : string) (now : Z) :
  let result := Mongo.update_fund_summary (Some d) id s now in
  match Mongo.get_fund (Some d) id with
  | Some (oid, fund) =>
      Mongo.get_fund result.1 id
      = Some (oid, {| Mongo.fund_name := Mongo.fund_name fund;
                      Mongo.summary := Some s;
                      Mongo.created_at := Mongo.created_at fund;
                      Mongo.updated_at := now;
                      Mongo.document_count := Mongo.document_count fund |})
      ∧ (result.2 = false ↔ Mongo.summary fund = Some s ∧ Mongo.updated_at fund = now)
      ∧ (∀ other, Mongo.ObjectId other ≠ Some oid →
           Mongo.get_fund result.1 other = Mongo.get_fund (Some d) other)
  | None => result = (Some d, false)
  end
  ∧ ∀ other, Mongo.get_fund_documents result.1 other
             = Mongo.get_fund_documents (Some d) other.
Proof.
  intros result. subst result. unfold Mongo.update_fund_summary, Mongo.get_fund at 1.
  cbn [mbind option_bind].
  destruct (Mongo.ObjectId id) as [oid|] eqn:Hoid; [|done]. cbn [mbind option_bind].
  destruct (Mongo.funds_collection d !! oid) as [fund|] eqn:Hfund; [|done].
  cbn [mbind option_bind fst snd]. split; [|done]. split.
  { rewrite (get_fund_lookup _ id oid Hoid). cbn. by rewrite lookup_insert_eq. }
  split.
  { rewrite bool_decide_eq_false, <- set_summary_fixed. split; [apply dec_stable | tauto]. }
  intros other Hother. apply (get_fund_other _ _ oid); [|done].
  intros o Ho. cbn. by rewrite lookup_insert_ne.
Qed.

(** X13. [delete_fund] of the store leaves every other fund and the
    records filed under every other identifier as they are.  It reports
    [True] exactly when the fund was stored.  With an identifier that is an
    [ObjectId] it removes the records filed under it even when no such fund
    is stored; with one that is not, it changes nothing. *)
Theorem delete_fund_frame (d : Mongo.DB) (id : string) :
  let result := Mongo.delete_fund (Some d) id in
  (∀ other, other ≠ id →
     Mongo.get_fund_documents result.1 other = Mongo.get_fund_documents (Some d) other)
  ∧ (∀ other, Mongo.ObjectId other ≠ Mongo.ObjectId id →
       Mongo.get_fund result.1 other = Mongo.get_fund (Some d) other)
  ∧ (result.2 = true ↔ is_Some (Mongo.get_fund (Some d) id))
  ∧ Mongo.get_fund result.1 id = None
  ∧ match Mongo.ObjectId id with
    | Some _ => Mongo.get_fund_documents result.1 id = []
    | None => result.1 = Some d
    end.
Proof.
  intros result. subst result. unfold Mongo.delete_fund.
  destruct (Mongo.ObjectId id) as [oid|] eqn:Hoid; cbn [fst snd].
  - split.
    { intros other Hother. cbn. rewrite list_filter_filter. apply list_filter_iff.
      intros r. split; [tauto | intros ->; done]. }
    split.
    { intros other Hother. apply (get_fund_other _ _ oid); [|done].
      intros o Ho. cbn. by rewrite lookup_delete_ne. }
    split.
    { rewrite bool_decide_eq_true, (get_fund_lookup _ id oid Hoid).
      by rewrite fmap_is_Some. }
    split.
    { rewrite (get_fund_lookup _ id oid Hoid). cbn. by rewrite lookup_delete_eq. }
    cbn. apply filter_none. by intros r [Hr _]%list_elem_of_filter.
  - split; [done|]. split; [done|]. split.
    + split; [done|]. unfold Mongo.get_fund. cbn. rewrite Hoid. by intros [? [=]].
    + split; [|done]. unfold Mongo.get_fund. cbn. by rewrite Hoid.
Qed.

Lemma find_app {A} (f : A → bool) (l1 l2 : list A) :
  List.find f (l1 ++ l2)
  = match List.find f l1 with
    | Some x => Some x
    | None => List.find f l2
    end.
Proof. induction l1 as [|x l1 IH]; [done|]. cbn. by destruct (f x). Qed.

Lemma find_bool_decide_Some {A} (P : A → Prop) `{!∀ x, Decision (P x)}
    (l : list A) (x : A) :
  List.find (fun y => bool_decide (P y)) l = Some x → x ∈ l ∧ P x.
Proof.
  intros [Hin Hx]%find_some. split; [by apply list_elem_of_In|].
  by apply bool_decide_eq_true in Hx.
Qed.

Lemma find_bool_decide_None {A} (P : A → Prop) `{!∀ x, Decision (P x)} (l : list A) :
  List.find (fun y => bool_decide (P y)) l = None ↔ ∀ x, x ∈ l → ¬ P x.
Proof.
  split.
  - intros Hnone x Hx%list_elem_of_In HP.
    pose proof (find_none _ _ Hnone x Hx) as Hf. cbn in Hf.
    by rewrite bool_decide_eq_true_2 in Hf.
  - intros Hall. induction l as [|y l IH]; [done|]. cbn.
    rewrite bool_decide_eq_false_2 by (apply Hall, elem_of_cons; by left).
    apply IH. intros x Hx. apply Hall, elem_of_cons. by right.
Qed.

(** X14. [get_document] returns a stored record or nothing.  A record it
    returns carries the requested identifier as its [doc_id], or, when no
    record does, as its [_id]; it returns nothing only when no record
    carries the identifier in either place. *)
Theorem get_document_spec (d : Mongo.DB) (document_id : string) :
  match Mongo.get_document (Some d) document_id with
  | Some record =>
      record ∈ Mongo.documents_collection d
      ∧ (Mongo.doc_id record = document_id
         ∨ ((∀ r, r ∈ Mongo.documents_collection d → Mongo.doc_id r ≠ document_id)
            ∧ Mongo.ObjectId document_id = Some (Mongo.doc_oid record)))
  | None =>
      ∀ r, r ∈ Mongo.documents_collection d →
        Mongo.doc_id r ≠ document_id
        ∧ Mongo.ObjectId document_id ≠ Some (Mongo.doc_oid r)
  end.
Proof.
  unfold Mongo.get_document. cbn [mbind option_bind].
  destruct (List.find (fun r => bool_decide (Mongo.doc_id r = document_id)) _)
    as [record|] eqn:Hfind.
  { apply find_bool_decide_Some in Hfind as [Hin Hid]. split; [done | by left]. }
  pose proof (proj1 (find_bool_decide_None _ _) Hfind) as Hnone.
  destruct (Mongo.ObjectId document_id) as [oid|] eqn:Hoid.
  - destruct (List.find (fun r => bool_decide (Mongo.doc_oid r = oid)) _)
      as [record|] eqn:Hfind'.
    + apply find_bool_decide_Some in Hfind' as [Hin Hid]. split; [done|].
      right. split; [done | by rewrite Hid].
    + pose proof (proj1 (find_bool_decide_None _ _) Hfind') as Hnone'.
      intros r Hr. split; [by apply Hnone|]. intros [= ->]. by apply (Hnone' r).
  - intros r Hr. split; [by apply Hnone | done].
Qed.

(** X15. A document added to a fund is found by [get_document] under the
    document identifier it was stored with, provided no earlier record
    carries that identifier. *)
Theorem add_document_then_get_document (d : Mongo.DB) (id : string)
    (doc_data : Mongo.DocData) (now : Z) (new_oid : string) :
  (∀ r, r ∈ Mongo.documents_collection d → Mongo.doc_id r ≠ Mongo.data_doc_id doc_data) →
  Mongo.get_document (Mongo.add_document_to_fund (Some d) id doc_data now new_oid).1
    (Mongo.data_doc_id doc_data)
  = Some {| Mongo.doc_oid := new_oid;
            Mongo.doc_file_name := Mongo.data_file_name doc_data;
            Mongo.doc_file_type := Mongo.data_file_type doc_data;
            Mongo.doc_id := Mongo.data_doc_id doc_data;
            Mongo.doc_size_bytes := Mongo.data_size_bytes doc_data;
            Mongo.doc_fund_id := id;
            Mongo.doc_created_at := now |}.
Proof.
  intros Hfresh. unfold Mongo.add_document_to_fund, Mongo.get_document.
  assert (List.find (fun r => bool_decide (Mongo.doc_id r = Mongo.data_doc_id doc_data))
            (Mongo.documents_collection d) = None) as Hnone
    by (by apply find_bool_decide_None).
  destruct (Mongo.ObjectId id); cbn; rewrite find_app, Hnone; cbn;
    by rewrite bool_decide_eq_true_2.
Qed.

Lemma add_document_then_get_document_witness :
  Mongo.doc_file_name
    <$> Mongo.get_document
          (Mongo.add_document_to_fund (Some Sample.db) Sample.oid
             {| Mongo.data_file_name := "q4.txt"; Mongo.data_file_type := "txt";
                Mongo.data_doc_id := "uuid-4"; Mongo.data_size_bytes := 12 |}
             300 "65f0a1b2c3d4e5f60123456d").1 "uuid-4"
  = Some "q4.txt".
Proof.
  pose proof (add_document_then_get_document Sample.db Sample.oid
                {| Mongo.data_file_name := "q4.txt"; Mongo.data_file_type := "txt";
                   Mongo.data_doc_id := "uuid-4"; Mongo.data_size_bytes := 12 |}
                300 "65f0a1b2c3d4e5f60123456d") as Hget.
  cbn [Mongo.data_doc_id] in Hget. rewrite Hget; [reflexivity|].
  intros r Hr. vm_compute in Hr.
  repeat (apply elem_of_cons in Hr as [->|Hr]; [vm_compute; discriminate|]).
  by apply elem_of_nil in Hr.
Defined.

(** X16. The list of funds names every stored fund once: the identifiers
    listed are exactly the stored ones, without repetition; each entry
    reports the stored count of its fund and no documents. *)
Theorem list_funds_lists_each_fund_once (app : App) (d : Mongo.DB) :
  mongodb app = Some d →
  NoDup (Api.fund_id <$> Api.list_funds app)
  ∧ (∀ oid, oid ∈ Api.fund_id <$> Api.list_funds app
            ↔ is_Some (Mongo.funds_collection d !! oid))
  ∧ length (Api.list_funds app) = size (Mongo.funds_collection d)
  ∧ (∀ r, r ∈ Api.list_funds app →
       Api.documents r = []
       ∧ ∃ fund, Mongo.funds_collection d !! Api.fund_id r = Some fund
                 ∧ Api.fund_name r = Mongo.fund_name fund
                 ∧ Api.document_count r = Api.stored_count fund).
Proof.
  intros Hdb. unfold Api.list_funds, Mongo.list_funds. rewrite Hdb.
  rewrite <- list_fmap_compose.
  assert (Api.fund_id ∘ (fun entry : string * Mongo.Fund =>
                           Api.fund_response entry.1 entry.2 (Api.stored_count entry.2) [])
          <$> map_to_list (Mongo.funds_collection d)
          = (map_to_list (Mongo.funds_collection d)).*1) as -> by done.
  split; [apply NoDup_fst_map_to_list|]. split.
  { intros oid. rewrite list_elem_of_fmap. split.
    - intros ([k f] & -> & Hin%elem_of_map_to_list). by eexists.
    - intros [f Hf]. exists (oid, f). split; [done | by apply elem_of_map_to_list]. }
  split; [by rewrite length_fmap, length_map_to_list|].
  intros r ([k f] & -> & Hin%elem_of_map_to_list)%list_elem_of_fmap.
  split; [done|]. by exists f.
Qed.

Lemma list_funds_lists_each_fund_once_witness :
  NoDup (Api.fund_id <$> Api.list_funds Sample.app)
  ∧ length (Api.list_funds Sample.app) = 1%nat.
Proof.
  destruct (list_funds_lists_each_fund_once Sample.app Sample.db eq_refl)
    as (Hnodup & _ & Hlength & _).
  split; [exact Hnodup|]. rewrite Hlength. vm_compute. reflexivity.
Defined.

(** * Further properties of the indexer *)

Lemma chunks_lookup (split_text : DocumentProcessor.Splitter -> string -> list string)
    (text : string) (metadata : gmap string value) (uuid4 : string) (i : nat)
    (c : RAG.Document) :
  DocumentProcessor.chunks split_text text metadata uuid4 !! i = Some c →
  RAG.metadata c
  = DocumentProcessor.chunk_metadata metadata uuid4
      (length (DocumentProcessor.chunks split_text text metadata uuid4)) i.
Proof.
  unfold DocumentProcessor.chunks, DocumentProcessor.set_metadata.
  rewrite list_lookup_imap, length_imap.
  destruct (_ !! i); [|done]. by intros [= <-].
Qed.

Lemma append_same_length (u1 u2 s1 s2 : string) :
  String.length u1 = String.length u2 → u1 +:+ s1 = u2 +:+ s2 → u1 = u2.
Proof.
  revert u2. induction u1 as [|c u1 IH]; intros [|c' u2]; cbn; try done.
  intros [= Hlen]. rewrite !append_cons. intros [= -> Heq]. f_equal. by apply IH.
Qed.

(** X17. Within one call the chunk identifiers [f"{doc_id}_{i}"] are
    pairwise different; and chunks of two calls that drew different
    identifiers of one length, as [uuid4] does, never share a chunk
    identifier. *)
Theorem chunk_ids_distinct
    (split_text : DocumentProcessor.Splitter -> string -> list string)
    (text : string) (metadata : gmap string value) (uuid4 : string) :
  NoDup ((fun c => RAG.metadata c !! "chunk_id")
           <$> DocumentProcessor.chunks split_text text metadata uuid4)
  ∧ ∀ text' metadata' uuid4' c c',
      String.length uuid4 = String.length uuid4' →
      uuid4 ≠ uuid4' →
      c ∈ DocumentProcessor.chunks split_text text metadata uuid4 →
      c' ∈ DocumentProcessor.chunks split_text text' metadata' uuid4' →
      RAG.metadata c !! "chunk_id" ≠ RAG.metadata c' !! "chunk_id".
Proof.
  assert (∀ t m u i c,
            DocumentProcessor.chunks split_text t m u !! i = Some c →
            RAG.metadata c !! "chunk_id" = Some (VStr (u +:+ "_" +:+ pretty (Z.of_nat i))))
    as Hid.
  { intros t m u i c Hc. rewrite (chunks_lookup _ _ _ _ _ _ Hc).
    unfold DocumentProcessor.chunk_metadata.
    rewrite !lookup_insert_ne by done. apply lookup_insert_eq. }
  split.
  - apply NoDup_alt. intros i j x.
    rewrite !list_lookup_fmap.
    destruct (_ !! i) as [ci|] eqn:Hi; [|done].
    destruct (_ !! j) as [cj|] eqn:Hj; [|done]. cbn.
    rewrite (Hid _ _ _ _ _ Hi), (Hid _ _ _ _ _ Hj). intros [= <-] [= Heq].
    apply (inj (String.app uuid4)), (inj (String.app "_")), (inj pretty) in Heq. lia.
  - intros text' metadata' uuid4' c c' Hlen Hne
      [i Hi]%list_elem_of_lookup_1 [j Hj]%list_elem_of_lookup_1.
    rewrite (Hid _ _ _ _ _ Hi), (Hid _ _ _ _ _ Hj). intros [= Heq].
    by apply append_same_length in Heq.
Qed.

Section ProcessFile.

Variable split_text : DocumentProcessor.Splitter -> string -> list string.
Variable extract_text : string -> string -> option string.
Variable basename splitext : string -> string.
Variable getsize : string -> option Z.
Variable isoformat : Z -> string.

(** The four outcomes of [process_file]. *)
Lemma process_file_cases (app : App) (file_path fund_id : string) (now : Z)
    (uuid4 new_oid : string) :
  let file_extension := PyStr.lower (splitext file_path) in
  let metadata :=
    DocumentProcessor.file_metadata isoformat (basename file_path) file_extension fund_id now in
  let result :=
    DocumentProcessor.process_file split_text extract_text basename splitext getsize isoformat
      app file_path fund_id now uuid4 new_oid in
  result = (app, false)
  ∨ ∃ text stored,
      extract_text file_path file_extension = Some text
      ∧ PyStr.all_space text = false
      ∧ vectordb app = Some stored
      ∧ ((getsize file_path = None
          ∧ result
            = ({| mongodb := mongodb app;
                  vectordb := Some (stored
                                    ++ DocumentProcessor.chunks split_text text metadata uuid4) |},
               false))
         ∨ ∃ size,
             getsize file_path = Some size
             ∧ result
               = ({| mongodb :=
                       (Mongo.add_document_to_fund (mongodb app) fund_id
                          {| Mongo.data_file_name := basename file_path;
                             Mongo.data_file_type :=
                               DocumentProcessor.remove_dots file_extension;
                             Mongo.data_doc_id := uuid4;
                             Mongo.data_size_bytes := size |} now new_oid).1;
                     vectordb := Some (stored
                                       ++ DocumentProcessor.chunks split_text text
                                            metadata uuid4) |},
                  true)).
Proof.
  cbv zeta. unfold DocumentProcessor.process_file.
  destruct (extract_text _ _) as [text|] eqn:Htext; [|by left].
  destruct (DocumentProcessor.is_blank text) eqn:Hblank; [by left|].
  assert (PyStr.all_space text = false) as Hspace.
  { destruct (PyStr.all_space text) eqn:Hs; [|done].
    apply is_blank_all_space in Hs. congruence. }
  unfold DocumentProcessor._add_to_pinecone.
  destruct (vectordb app) as [stored|] eqn:Hindex; [|by left].
  right. exists text, stored. split; [done|]. split; [done|]. split; [done|].
  destruct (getsize file_path) as [size|]; [right; by exists size | by left].
Qed.

End ProcessFile.

(** X18. When a file with text is processed with the index loaded and its
    size readable, [process_file] reports success, whether or not the fund is
    stored.  The chunks are appended to the index, each carrying the drawn
    document identifier, the fund identifier, the base name of the file and
    its extension without dots; and one record is filed under the fund in
    the database, carrying the same document identifier and file name. *)
Theorem process_file_links_record_and_chunks
    (split_text : DocumentProcessor.Splitter -> string -> list string)
    (extract_text : string -> string -> option string)
    (basename splitext : string -> string)
    (getsize : string -> option Z) (isoformat : Z -> string)
    (app : App) (file_path fund_id : string) (now : Z) (uuid4 new_oid text : string)
    (stored : list RAG.Document) (d : Mongo.DB) (size : Z) :
  extract_text file_path (PyStr.lower (splitext file_path)) = Some text →
  PyStr.all_space text = false →
  vectordb app = Some stored →
  mongodb app = Some d →
  getsize file_path = Some size →
  let result :=
    DocumentProcessor.process_file split_text extract_text basename splitext getsize isoformat
      app file_path fund_id now uuid4 new_oid in
  result.2 = true
  ∧ (∃ added,
       vectordb result.1 = Some (stored ++ added)
       ∧ RAG.page_content <$> added = split_text DocumentProcessor.text_splitter text
       ∧ ∀ c, c ∈ added →
           RAG.metadata c !! "doc_id" = Some (VStr uuid4)
           ∧ RAG.metadata c !! "fund_id" = Some (VStr fund_id)
           ∧ RAG.metadata c !! "file_name" = Some (VStr (basename file_path))
           ∧ RAG.metadata c !! "file_type"
             = Some (VStr (DocumentProcessor.remove_dots (PyStr.lower (splitext file_path)))))
  ∧ Mongo.get_fund_documents (mongodb result.1) fund_id
    = Mongo.get_fund_documents (Some d) fund_id
      ++ [{| Mongo.doc_oid := new_oid;
             Mongo.doc_file_name := basename file_path;
             Mongo.doc_file_type :=
               DocumentProcessor.remove_dots (PyStr.lower (splitext file_path));
             Mongo.doc_id := uuid4;
             Mongo.doc_size_bytes := size;
             Mongo.doc_fund_id := fund_id;
             Mongo.doc_created_at := now |}].
Proof.
  intros Htext Hspace Hindex Hdb Hsize result.
  destruct (process_file_cases split_text extract_text basename splitext getsize isoformat
              app file_path fund_id now uuid4 new_oid)
    as [Hfail|(text' & stored' & Htext' & _ & Hindex' & Hcases)].
  { exfalso. revert Hfail. unfold DocumentProcessor.process_file.
    rewrite Htext.
    destruct (DocumentProcessor.is_blank text) eqn:Hb;
      [apply is_blank_iff in Hb; congruence|].
    unfold DocumentProcessor._add_to_pinecone. rewrite Hindex, Hsize. by intros [= _]. }
  destruct Hcases as [[Hnone _]|(size' & Hsize' & Hresult)]; [congruence|].
  assert (text' = text) as -> by congruence.
  assert (stored' = stored) as -> by congruence.
  assert (size' = size) as -> by congruence.
  subst result. rewrite Hresult. cbn [fst snd vectordb mongodb].
  split; [done|]. split.
  - eexists. split; [done|]. split.
    + apply list_eq. intros i.
      unfold DocumentProcessor.chunks, DocumentProcessor.set_metadata,
        DocumentProcessor.create_documents.
      rewrite list_lookup_fmap, list_lookup_imap, list_lookup_fmap.
      by destruct (split_text _ _ !! i).
    + intros c [i Hc]%list_elem_of_lookup_1.
      rewrite (chunks_lookup _ _ _ _ _ _ Hc).
      unfold DocumentProcessor.chunk_metadata, DocumentProcessor.file_metadata, dict_get.
      split_and!.
      * rewrite lookup_insert_ne by done. apply lookup_insert_eq.
      * rewrite !lookup_insert_ne by done. apply lookup_insert_eq.
      * rewrite lookup_insert_eq. by f_equal.
      * rewrite !lookup_insert_ne by done. apply lookup_insert_eq.
  - rewrite Hdb. unfold Mongo.add_document_to_fund.
    destruct (Mongo.ObjectId fund_id);
      cbn [fst Mongo.get_fund_documents Mongo.documents_collection];
      by rewrite filter_app, filter_cons_True.
Qed.

Lemma process_file_links_record_and_chunks_witness :
  let result :=
    DocumentProcessor.process_file Sample.split_text
      (fun _ _ => Some "Margins rose in Q2.") Sample.basename Sample.splitext
      Sample.getsize Sample.isoformat
      Sample.app "q2.txt" Sample.oid 300 "0f8fad5b-d9cb-469f-a165-70867728950e"
      "65f0a1b2c3d4e5f60123456d" in
  result.2 = true
  ∧ length <$> vectordb result.1 = Some 2%nat
  ∧ length (Mongo.get_fund_documents (mongodb result.1) Sample.oid) = 4%nat.
Proof.
  intros result.
  destruct (process_file_links_record_and_chunks Sample.split_text
              (fun _ _ => Some "Margins rose in Q2.") Sample.basename Sample.splitext
              Sample.getsize Sample.isoformat
              Sample.app "q2.txt" Sample.oid 300 "0f8fad5b-d9cb-469f-a165-70867728950e"
              "65f0a1b2c3d4e5f60123456d" "Margins rose in Q2." Sample.stored Sample.db 4)
    as (Hok & _ & Hdocs); [reflexivity..|].
  split; [exact Hok|]. split; [vm_compute; reflexivity|].
  fold result in Hdocs. rewrite Hdocs. vm_compute. reflexivity.
Defined.

(** X19. [process_file] never removes anything.  With the index not loaded
    it changes nothing and reports failure.  Otherwise the index afterwards
    is the index before followed by the chunks added, if any; the database
    keeps its funds, and its document records are the ones before followed
    by at most one new record. *)
Theorem process_file_never_removes
    (split_text : DocumentProcessor.Splitter -> string -> list string)
    (extract_text : string -> string -> option string)
    (basename splitext : string -> string)
    (getsize : string -> option Z) (isoformat : Z -> string)
    (app : App) (file_path fund_id : string) (now : Z) (uuid4 new_oid : string) :
  let result :=
    DocumentProcessor.process_file split_text extract_text basename splitext getsize isoformat
      app file_path fund_id now uuid4 new_oid in
  match vectordb app with
  | None => result = (app, false)
  | Some stored => ∃ added, vectordb result.1 = Some (stored ++ added)
  end
  ∧ match mongodb app with
    | None => mongodb result.1 = None
    | Some d =>
        ∃ d' added,
          mongodb result.1 = Some d'
          ∧ Mongo.documents_collection d' = Mongo.documents_collection d ++ added
          ∧ (length added ≤ 1)%nat
          ∧ dom (Mongo.funds_collection d') = dom (Mongo.funds_collection d)
    end.
Proof.
  intros result. subst result.
  pose proof (process_file_cases split_text extract_text basename splitext getsize isoformat
                app file_path fund_id now uuid4 new_oid) as Hcases.
  cbv zeta in Hcases.
  destruct Hcases
    as [->|(text & stored & _ & _ & Hindex & [[_ ->]|(size & _ & ->)])];
    cbn [fst snd vectordb mongodb].
  - split.
    + destruct (vectordb app) as [stored|]; [|done]. exists []. by rewrite app_nil_r.
    + destruct (mongodb app) as [d|]; [|done]. exists d, []. rewrite app_nil_r. split_and!; try done. cbn. lia.
  - rewrite Hindex. split; [by eexists|].
    destruct (mongodb app) as [d|]; [|done]. exists d, []. rewrite app_nil_r. split_and!; try done. cbn. lia.
  - rewrite Hindex. split; [by eexists|].
    destruct (mongodb app) as [d|]; [|done]. unfold Mongo.add_document_to_fund.
    destruct (Mongo.ObjectId fund_id); cbn [fst]; eexists _, [_]; cbn;
      (split; [done|]); (split; [done|]); (split; [lia|]); [|done].
    apply dom_alter_L.
Qed.

(** X20. There is no rollback: when the size of the file cannot be read
    after its text was indexed, [process_file] reports failure, files no
    record, and the chunks stay in the index. *)
Theorem process_file_size_failure_leaves_chunks
    (split_text : DocumentProcessor.Splitter -> string -> list string)
    (extract_text : string -> string -> option string)
    (basename splitext : string -> string)
    (getsize : string -> option Z) (isoformat : Z -> string)
    (app : App) (file_path fund_id : string) (now : Z) (uuid4 new_oid text : string)
    (stored : list RAG.Document) :
  extract_text file_path (PyStr.lower (splitext file_path)) = Some text →
  PyStr.all_space text = false →
  vectordb app = Some stored →
  getsize file_path = None →
  let result :=
    DocumentProcessor.process_file split_text extract_text basename splitext getsize isoformat
      app file_path fund_id now uuid4 new_oid in
  result.2 = false
  ∧ mongodb result.1 = mongodb app
  ∧ ∃ added,
      vectordb result.1 = Some (stored ++ added)
      ∧ RAG.page_content <$> added = split_text DocumentProcessor.text_splitter text.
Proof.
  intros Htext Hspace Hindex Hsize result. subst result.
  unfold DocumentProcessor.process_file. rewrite Htext.
  destruct (DocumentProcessor.is_blank text) eqn:Hb;
    [apply is_blank_iff in Hb; congruence|].
  unfold DocumentProcessor._add_to_pinecone. rewrite Hindex, Hsize. cbn [fst snd mongodb vectordb].
  split; [done|]. split; [done|]. eexists. split; [done|].
  apply list_eq. intros i.
  unfold DocumentProcessor.chunks, DocumentProcessor.set_metadata,
    DocumentProcessor.create_documents.
  rewrite list_lookup_fmap, list_lookup_imap, list_lookup_fmap.
  by destruct (split_text _ _ !! i).
Qed.

Lemma process_file_size_failure_leaves_chunks_witness :
  let result :=
    DocumentProcessor.process_file Sample.split_text
      (fun _ _ => Some "Margins rose in Q2.") Sample.basename Sample.splitext
      (fun _ => None) Sample.isoformat
      Sample.app "q2.txt" Sample.oid 300 "0f8fad5b-d9cb-469f-a165-70867728950e"
      "65f0a1b2c3d4e5f60123456d" in
  result.2 = false
  ∧ mongodb result.1 = mongodb Sample.app
  ∧ length <$> vectordb result.1 = Some 2%nat.
Proof.
  intros result.
  destruct (process_file_size_failure_leaves_chunks Sample.split_text
              (fun _ _ => Some "Margins rose in Q2.") Sample.basename Sample.splitext
              (fun _ => None) Sample.isoformat
              Sample.app "q2.txt" Sample.oid 300 "0f8fad5b-d9cb-469f-a165-70867728950e"
              "65f0a1b2c3d4e5f60123456d" "Margins rose in Q2." Sample.stored)
    as (Hfalse & Hdb & _); [reflexivity..|].
  split; [exact Hfalse|]. split; [exact Hdb|]. vm_compute. reflexivity.
Defined.

(** * Properties of the upload endpoints *)

Lemma length_append (s t : string) :
  String.length (s +:+ t) = (String.length s + String.length t)%nat.
Proof. induction s as [|c s IH]; [done|]. rewrite append_cons. cbn. by rewrite IH. Qed.

Lemma length_take (n : nat) (s : string) :
  String.length (PyStr.take n s) = (n `min` String.length s)%nat.
Proof.
  revert s. induction n as [|n IH]; intros [|c s]; cbn [PyStr.take String.length]; try done.
  by rewrite IH.
Qed.

Lemma take_append (n : nat) (s : string) : ∃ rest, s = PyStr.take n s +:+ rest.
Proof.
  revert s. induction n as [|n IH]; intros [|c s]; cbn [PyStr.take].
  - by exists "".
  - by exists (String c s).
  - by exists "".
  - destruct (IH s) as [rest Hrest]. exists rest. rewrite append_cons. by rewrite <- Hrest.
Qed.

(** X21. The content that [upload_chat_attachment] returns is never longer
    than 2003 characters: a text of at most 2000 characters is returned
    whole, a longer one as its first 2000 characters followed by three
    dots. *)
Theorem content_preview_bound (file_content : string) :
  (String.length (Upload.content_preview file_content) ≤ 2003)%nat
  ∧ ((String.length file_content ≤ 2000)%nat
     ∧ Upload.content_preview file_content = file_content
     ∨ (2000 < String.length file_content)%nat
       ∧ String.length (Upload.content_preview file_content) = 2003%nat
       ∧ ∃ head rest,
           String.length head = 2000%nat
           ∧ file_content = head +:+ rest
           ∧ Upload.content_preview file_content = head +:+ "...").
Proof.
  unfold Upload.content_preview.
  destruct (2000 <? String.length file_content)%nat eqn:Hlong.
  - apply Nat.ltb_lt in Hlong.
    assert (String.length (PyStr.take 2000 file_content) = 2000%nat) as Htake
      by (rewrite length_take; lia).
    assert (String.length (PyStr.take 2000 file_content +:+ "...") = 2003%nat) as Hlen
      by (rewrite length_append, Htake; reflexivity).
    split; [lia|]. right. split; [done|]. split; [done|].
    destruct (take_append 2000 file_content) as [rest Hrest].
    by exists (PyStr.take 2000 file_content), rest.
  - apply Nat.ltb_ge in Hlong. split; [lia|]. by left.
Qed.

(** X22. The text that [upload_document] hands to the model is cut to
    [40000 // n] characters for [n] documents, so never to more than 40000:
    of the two bounds of line 122 the first one never applies. *)
Theorem char_limit_bounds (processed_documents : list string) :
  let n := length processed_documents in
  Upload.char_limit n = 40000 / Z.max 1 (Z.of_nat n)
  ∧ 0 ≤ Upload.char_limit n ≤ 40000
  ∧ Z.of_nat n * Upload.char_limit n ≤ 40000
  ∧ Z.of_nat
      (String.length
         (PyStr.take (Z.to_nat (Upload.char_limit n))
            (PyStr.join Upload.separator processed_documents)))
    ≤ Upload.char_limit n.
Proof.
  intros n. unfold Upload.char_limit.
  assert (0 ≤ 40000 / Z.max 1 (Z.of_nat n) ≤ 40000) as Hq.
  { split; [apply Z.div_pos; lia|]. apply Z.div_le_upper_bound; lia. }
  rewrite Z.min_r by lia. split; [done|]. split; [done|]. split.
  - destruct (decide (n = 0%nat)) as [->|Hn]; [lia|].
    rewrite Z.max_r by lia. apply Z.mul_div_le. lia.
  - rewrite length_take. lia.
Qed.

Lemma find_all_false {A} (f : A → bool) (l : list A) :
  (∀ x, x ∈ l → f x = false) → List.find f l = None.
Proof.
  induction l as [|x l IH]; intros Hall; [done|]. cbn.
  rewrite Hall by (apply elem_of_cons; by left).
  apply IH. intros y Hy. apply Hall, elem_of_cons. by right.
Qed.

Lemma newest_doc_elem (documents : list Mongo.DocRecord) :
  match Upload.newest_doc documents with
  | Some doc => doc ∈ documents
  | None => documents = []
  end.
Proof.
  induction documents as [|doc rest IH]; [done|]. cbn.
  destruct (Upload.newest_doc rest) as [later|].
  - destruct (_ <? _); apply elem_of_cons; [by right | by left].
  - apply elem_of_cons. by left.
Qed.

Section FundAttachment.

Variable split_text : DocumentProcessor.Splitter -> string -> list string.
Variable extract_text : string -> string -> option string.
Variable basename splitext : string -> string.
Variable getsize : string -> option Z.
Variable isoformat : Z -> string.
Variable splitroot : string -> string.

(** What a successful [process_file] leaves in the database of a stored
    fund: the records filed under the fund, followed by the new one. *)
Lemma process_file_success_documents (app : App) (file_path id : string) (now : Z)
    (uuid4 new_oid : string) (app' : App) :
  is_Some (mongodb app) →
  DocumentProcessor.process_file split_text extract_text basename splitext getsize isoformat
    app file_path id now uuid4 new_oid = (app', true) →
  ∃ size,
    Mongo.get_fund_documents (mongodb app') id
    = Mongo.get_fund_documents (mongodb app) id
      ++ [{| Mongo.doc_oid := new_oid;
             Mongo.doc_file_name := basename file_path;
             Mongo.doc_file_type :=
               DocumentProcessor.remove_dots (PyStr.lower (splitext file_path));
             Mongo.doc_id := uuid4;
             Mongo.doc_size_bytes := size;
             Mongo.doc_fund_id := id;
             Mongo.doc_created_at := now |}].
Proof.
  intros [d Hdb] Hresult.
  pose proof (process_file_cases split_text extract_text basename splitext getsize isoformat
                app file_path id now uuid4 new_oid) as Hcases.
  cbv zeta in Hcases. rewrite Hresult in Hcases.
  destruct Hcases as [[=]|(text & stored & _ & _ & _ & [[_ [=]]|(size & _ & [= ->])])].
  exists size. rewrite Hdb. unfold Mongo.add_document_to_fund.
  destruct (Mongo.ObjectId id);
    cbn [fst mongodb Mongo.get_fund_documents Mongo.documents_collection];
    by rewrite filter_app, filter_cons_True.
Qed.

End FundAttachment.

(** The first hit of [List.find]: the element found satisfies the test and
    no element before it does. *)
Lemma find_first {A} (f : A → bool) (l : list A) (x : A) :
  List.find f l = Some x →
  ∃ i : nat, l !! i = Some x ∧ f x = true
             ∧ ∀ (j : nat) y, (j < i)%nat → l !! j = Some y → f y = false.
Proof.
  induction l as [|a l IH]; [done|]. cbn. destruct (f a) eqn:Ha.
  - intros [= ->]. exists 0%nat. split; [done|]. split; [done|]. intros j y Hj. lia.
  - intros Hfind. destruct (IH Hfind) as (i & Hi & Hx & Hbefore).
    exists (S i). split; [done|]. split; [done|].
    intros [|j] y Hj Hy; [by injection Hy as <-|].
    apply (Hbefore j); [lia | done].
Qed.

Lemma find_None_all {A} (f : A → bool) (l : list A) :
  List.find f l = None → ∀ x, x ∈ l → f x = false.
Proof.
  induction l as [|a l IH]; intros Hfind x Hx; [by apply elem_of_nil in Hx|].
  cbn in Hfind. destruct (f a) eqn:Ha; [done|].
  apply elem_of_cons in Hx as [->|Hx]; [done | by apply IH].
Qed.

(** [sorted(documents, key=created_at, reverse=True)[0]]: the sort is
    stable, so this is the first of the records created last. *)
Lemma newest_doc_first (documents : list Mongo.DocRecord) (doc : Mongo.DocRecord) :
  Upload.newest_doc documents = Some doc →
  ∃ i : nat,
    documents !! i = Some doc
    ∧ (∀ d, d ∈ documents → Mongo.doc_created_at d ≤ Mongo.doc_created_at doc)
    ∧ ∀ (j : nat) earlier, (j < i)%nat → documents !! j = Some earlier →
        Mongo.doc_created_at earlier < Mongo.doc_created_at doc.
Proof.
  revert doc. induction documents as [|first rest IH]; intros doc; [done|].
  cbn [Upload.newest_doc].
  destruct (Upload.newest_doc rest) as [later|] eqn:Hrest.
  - destruct (IH later eq_refl) as (i & Hi & Hmax & Hbefore).
    destruct (Mongo.doc_created_at first <? Mongo.doc_created_at later) eqn:Hlt;
      intros [= <-].
    + apply Z.ltb_lt in Hlt. exists (S i). split; [done|]. split.
      * intros d [->|Hd]%elem_of_cons; [lia | by apply Hmax].
      * intros [|j] earlier Hj Hearlier; [injection Hearlier as <-; lia|].
        apply (Hbefore j); [lia | done].
    + apply Z.ltb_ge in Hlt. exists 0%nat. split; [done|]. split.
      * intros d [->|Hd]%elem_of_cons; [lia|]. specialize (Hmax d Hd). lia.
      * intros j earlier Hj. lia.
  - pose proof (newest_doc_elem rest) as Hnone. rewrite Hrest in Hnone. subst rest.
    intros [= <-]. exists 0%nat. split; [done|]. split.
    + intros d [->|Hd]%elem_of_cons; [lia | by apply elem_of_nil in Hd].
    + intros j earlier Hj. lia.
Qed.

(** X23. The document that [upload_fund_chat_attachment] reports (lines
    524-539).  There is none only when no record is filed under the fund.
    Otherwise it is the first record whose file name starts with the base
    name of the upload and an underscore and ends with its extension; and
    when no record has such a name, the first of the records created last. *)
Theorem latest_doc_choice (base_name extension : string)
    (documents : list Mongo.DocRecord) :
  let named doc :=
    (PyStr.startswith (base_name +:+ "_") (Mongo.doc_file_name doc)
     && PyStr.endswith extension (Mongo.doc_file_name doc))%bool in
  match Upload.latest_doc base_name extension documents with
  | None => documents = []
  | Some doc =>
      ∃ i : nat,
        documents !! i = Some doc
        ∧ ((named doc = true
            ∧ ∀ (j : nat) earlier, (j < i)%nat → documents !! j = Some earlier →
                named earlier = false)
           ∨ ((∀ d, d ∈ documents → named d = false)
              ∧ (∀ d, d ∈ documents → Mongo.doc_created_at d ≤ Mongo.doc_created_at doc)
              ∧ ∀ (j : nat) earlier, (j < i)%nat → documents !! j = Some earlier →
                  Mongo.doc_created_at earlier < Mongo.doc_created_at doc))
  end.
Proof.
  intros named. unfold Upload.latest_doc.
  destruct documents as [|first rest] eqn:Hdocuments; [done|]. rewrite <- Hdocuments.
  unfold Upload.matching_doc. fold named.
  destruct (List.find named documents) as [found|] eqn:Hfind.
  - destruct (find_first _ _ _ Hfind) as (i & Hi & Hnamed & Hbefore).
    exists i. split; [done|]. left. by split.
  - pose proof (find_None_all _ _ Hfind) as Hnone.
    destruct (Upload.newest_doc documents) as [doc|] eqn:Hnewest.
    + destruct (newest_doc_first _ _ Hnewest) as (i & Hi & Hmax & Hbefore).
      exists i. split; [done|]. right. by split_and!.
    + pose proof (newest_doc_elem documents) as Hempty.
      rewrite Hnewest in Hempty. by rewrite Hempty in Hdocuments.
Qed.

(** X24. When the file is saved under a name that starts with the base
    name of the upload and an underscore and ends with its extension, as
    [save_file] names it, and no record already filed under the fund has
    such a name, [upload_fund_chat_attachment] answers with the identifier of
    the document it has just added. *)
Theorem fund_attachment_returns_new_document
    (split_text : DocumentProcessor.Splitter -> string -> list string)
    (extract_text : string -> string -> option string)
    (basename splitext : string -> string)
    (getsize : string -> option Z) (isoformat : Z -> string)
    (splitroot : string -> string)
    (app : App) (id name file_path : string) (now : Z)
    (uuid4 new_oid : string) (app' : App) :
  is_Some (Mongo.get_fund (mongodb app) id) →
  DocumentProcessor.process_file split_text extract_text basename splitext getsize
    isoformat app file_path id now uuid4 new_oid = (app', true) →
  PyStr.startswith (splitroot name +:+ "_") (basename file_path) = true →
  PyStr.endswith (splitext name) (basename file_path) = true →
  (∀ doc, doc ∈ Mongo.get_fund_documents (mongodb app) id →
     PyStr.startswith (splitroot name +:+ "_") (Mongo.doc_file_name doc) = false
     ∨ PyStr.endswith (splitext name) (Mongo.doc_file_name doc) = false) →
  ∃ response,
    Upload.upload_fund_chat_attachment split_text extract_text basename splitext getsize
      isoformat splitroot app id name (Some file_path) now uuid4 new_oid
    = (app', Api.Ok response)
    ∧ Upload.att_document_id response = Some uuid4.
Proof.
  intros [fund Hfund] Hprocess Hstart Hend Hearlier.
  unfold Upload.upload_fund_chat_attachment, Upload.process_file.
  rewrite Hfund, Hprocess.
  assert (is_Some (mongodb app)) as Hdb.
  { unfold Mongo.get_fund in Hfund. destruct (mongodb app); [by eexists | done]. }
  destruct (process_file_success_documents split_text extract_text basename splitext
              getsize isoformat app file_path id now uuid4 new_oid app' Hdb Hprocess)
    as [size Hdocs].
  rewrite Hdocs. unfold Upload.latest_doc, Upload.matching_doc.
  rewrite find_app.
  assert (List.find
            (fun doc => (PyStr.startswith (splitroot name +:+ "_") (Mongo.doc_file_name doc)
                         && PyStr.endswith (splitext name) (Mongo.doc_file_name doc))%bool)
            (Mongo.get_fund_documents (mongodb app) id) = None) as ->.
  { apply find_all_false. intros doc Hdoc.
    destruct (Hearlier doc Hdoc) as [H|H]; rewrite H; [done | apply andb_false_r]. }
  cbn [List.find Mongo.doc_file_name]. rewrite Hstart, Hend. cbn [andb].
  destruct (Mongo.get_fund_documents (mongodb app) id); eexists; by split.
Qed.

Lemma fund_attachment_returns_new_document_witness :
  ∃ app' response,
    Upload.upload_fund_chat_attachment Sample.split_text
      (fun _ _ => Some "Margins rose in Q2.") Sample.basename (fun _ => ".txt")
      Sample.getsize Sample.isoformat (fun _ => "q2")
      Sample.app Sample.oid "q2.txt" (Some "q2_1a2b3c4d.txt") 300
      "0f8fad5b-d9cb-469f-a165-70867728950e" "65f0a1b2c3d4e5f60123456d"
    = (app', Api.Ok response)
    ∧ Upload.att_document_id response = Some "0f8fad5b-d9cb-469f-a165-70867728950e".
Proof.
  eexists. eapply (fund_attachment_returns_new_document Sample.split_text
            (fun _ _ => Some "Margins rose in Q2.") Sample.basename (fun _ => ".txt")
            Sample.getsize Sample.isoformat (fun _ => "q2")
            Sample.app Sample.oid "q2.txt" "q2_1a2b3c4d.txt" 300
            "0f8fad5b-d9cb-469f-a165-70867728950e" "65f0a1b2c3d4e5f60123456d").
  - vm_compute. by eexists.
  - vm_compute. reflexivity.
  - vm_compute. reflexivity.
  - vm_compute. reflexivity.
  - intros doc Hdoc. vm_compute in Hdoc.
    repeat (apply elem_of_cons in Hdoc as [->|Hdoc]; [left; vm_compute; reflexivity|]).
    by apply elem_of_nil in Hdoc.
Defined.

(** ** The batch upload *)

(** The first loop of [upload_document] adds one response per file, and
    the text of every file that was read. *)
Lemma first_loop_spec (files : list Upload.UploadFile)
    (responses : list Upload.DocumentUploadResponse) (processed : list string) :
  fold_left Upload.first_step files (responses, processed)
  = (responses
     ++ ((fun file =>
            match Upload.first_pass file with
            | inl _ => {| Upload.filename := Upload.upload_filename file;
                          Upload.status := "success";
                          Upload.message := "Document processed successfully";
                          Upload.fund_id := None |}
            | inr e => {| Upload.filename := Upload.upload_filename file;
                          Upload.status := "error";
                          Upload.message := "Error: " +:+ e;
                          Upload.fund_id := None |}
            end) <$> files),
     processed
     ++ omap (fun file => match Upload.first_pass file with
                          | inl text => Some text
                          | inr _ => None
                          end) files).
Proof.
  revert responses processed.
  induction files as [|file files IH]; intros responses processed.
  - cbn. by rewrite !app_nil_r.
  - cbn [fold_left]. unfold Upload.first_step at 2.
    destruct (Upload.first_pass file) as [text|e] eqn:Hfirst;
      rewrite IH, fmap_cons; cbn [omap list_omap]; rewrite Hfirst, <- !app_assoc; try done.
Qed.

Lemma mark_error_spec (idx : nat) (msg : string)
    (responses : list Upload.DocumentUploadResponse) :
  (idx < length responses)%nat →
  ∃ responses',
    Upload.mark_error idx msg responses = Some responses'
    ∧ length responses' = length responses
    ∧ (∃ r', responses' !! idx = Some r' ∧ Upload.status r' = "error")
    ∧ ∀ i r, responses !! i = Some r →
        ∃ r', responses' !! i = Some r'
              ∧ Upload.filename r' = Upload.filename r
              ∧ Upload.fund_id r' = Upload.fund_id r
              ∧ (Upload.status r' = Upload.status r ∨ Upload.status r' = "error")
              ∧ (Upload.status r = "error" → Upload.status r' = "error").
Proof.
  intros Hidx. unfold Upload.mark_error.
  destruct (responses !! idx) as [response|] eqn:Hresponse.
  2:{ apply lookup_ge_None in Hresponse. lia. }
  eexists. split; [done|]. split; [by rewrite length_insert|]. split.
  { eexists. by rewrite list_lookup_insert_eq. }
  intros i r Hr. destruct (decide (i = idx)) as [->|Hne].
  - eexists. rewrite list_lookup_insert_eq by done. split; [done|].
    assert (r = response) as -> by congruence. cbn. by split_and!; [..|right|].
  - exists r. rewrite list_lookup_insert_ne by done. by split_and!; [..|left|].
Qed.

Lemma marked_refl (responses : list Upload.DocumentUploadResponse) :
  Spec.marked responses responses.
Proof. split; [done|]. intros i r Hr. exists r. by split_and!; [..|left|]. Qed.

Lemma marked_trans (r1 r2 r3 : list Upload.DocumentUploadResponse) :
  Spec.marked r1 r2 → Spec.marked r2 r3 → Spec.marked r1 r3.
Proof.
  intros [Hlen12 H12] [Hlen23 H23]. split; [congruence|].
  intros i r Hr.
  destruct (H12 i r Hr) as (r' & Hr' & Hname & Hid & Hstatus & Herror).
  destruct (H23 i r' Hr') as (r'' & Hr'' & Hname' & Hid' & Hstatus' & Herror').
  exists r''. split; [done|]. split; [congruence|]. split; [congruence|]. split.
  - destruct Hstatus' as [->| ->]; [done | by right].
  - intros He. by apply Herror', Herror.
Qed.

Section SecondLoop.

Variable split_text : DocumentProcessor.Splitter -> string -> list string.
Variable extract_text : string -> string -> option string.
Variable basename splitext : string -> string.
Variable getsize : string -> option Z.
Variable isoformat : Z -> string.

(** The second loop of [upload_document] never meets an [IndexError] when
    every index lies within the responses; it only marks errors; a file left
    as a success was saved a second time; and it keeps every property of the
    state that [process_file] keeps. *)
Lemma second_loop_spec (P : App → Prop) (id : string) :
  (∀ app file_path now uuid4 new_oid,
     P app →
     P (DocumentProcessor.process_file split_text extract_text basename splitext
          getsize isoformat app file_path id now uuid4 new_oid).1) →
  ∀ (entries : list (nat * Upload.UploadFile)) (app : App)
    (responses : list Upload.DocumentUploadResponse),
    P app →
    (∀ idx file, (idx, file) ∈ entries → (idx < length responses)%nat) →
    ∃ app' responses',
      fold_left (Upload.second_step split_text extract_text basename splitext
                   getsize isoformat id)
        entries (app, Some responses) = (app', Some responses')
      ∧ P app'
      ∧ Spec.marked responses responses'
      ∧ ∀ idx file r',
          (idx, file) ∈ entries → responses' !! idx = Some r' →
          Upload.status r' = "success" →
          ∃ file_path, Upload.second_save file = inl file_path.
Proof.
  intros Hkeeps entries.
  induction entries as [|[idx file] entries IH]; intros app responses HP Hidx.
  { exists app, responses. split; [done|]. split; [done|]. split; [apply marked_refl|].
    by intros idx file r' ?%elem_of_nil. }
  assert (idx < length responses)%nat as Hlt by (apply (Hidx idx file), elem_of_cons; by left).
  assert (∃ app1 responses1,
            Upload.second_step split_text extract_text basename splitext getsize isoformat id
              (app, Some responses) (idx, file) = (app1, Some responses1)
            ∧ P app1
            ∧ Spec.marked responses responses1
            ∧ (∀ r1, responses1 !! idx = Some r1 → Upload.status r1 = "success" →
                 ∃ file_path, Upload.second_save file = inl file_path)) as Hstep.
  { unfold Upload.second_step, Upload.process_file.
    destruct (Upload.second_save file) as [file_path|e] eqn:Hsave.
    - pose proof (Hkeeps app file_path (Upload.upload_now file) (Upload.upload_uuid4 file)
                    (Upload.upload_oid file) HP) as HP'.
      destruct (DocumentProcessor.process_file _ _ _ _ _ _ _ _ _ _ _ _) as [app1 success].
      destruct success.
      + exists app1, responses. split; [done|]. split; [done|].
        split; [apply marked_refl | by eexists].
      + destruct (mark_error_spec idx "Failed to process document" responses Hlt)
          as (responses1 & -> & Hlen & _ & Hmarked).
        exists app1, responses1. split; [done|]. split; [done|].
        split; [by split | by eexists].
    - destruct (mark_error_spec idx ("Error: " +:+ e) responses Hlt)
        as (responses1 & -> & Hlen & (r' & Hr' & Hstatus) & Hmarked).
      exists app, responses1. split; [done|]. split; [done|]. split; [by split|].
      intros r1 Hr1 Hsuccess. assert (r1 = r') as -> by congruence.
      rewrite Hstatus in Hsuccess. discriminate. }
  destruct Hstep as (app1 & responses1 & Hstep & HP1 & Hmarked1 & Hsaved1).
  destruct (IH app1 responses1 HP1) as (app' & responses' & Hfold & HP' & Hmarked' & Hsaved').
  { intros idx' file' Hin. rewrite (proj1 Hmarked1).
    apply (Hidx idx' file'), elem_of_cons. by right. }
  exists app', responses'. cbn [fold_left]. rewrite Hstep.
  split; [done|]. split; [done|]. split; [by eapply marked_trans|].
  intros idx' file' r' [[= -> ->]|Hin]%elem_of_cons Hr' Hsuccess.
  - assert (idx < length responses1)%nat as Hlt1 by (by rewrite (proj1 Hmarked1)).
    destruct (lookup_lt_is_Some_2 _ _ Hlt1) as [r1 Hr1].
    apply (Hsaved1 r1 Hr1).
    destruct (proj2 Hmarked' idx r1 Hr1) as (r'' & Hr'' & _ & _ & [<-|He] & _).
    + congruence.
    + assert (r'' = r') as -> by congruence. rewrite He in Hsuccess. discriminate.
  - by apply (Hsaved' idx' file' r').
Qed.

End SecondLoop.

Lemma elem_of_imap_pair (files : list Upload.UploadFile) (idx : nat) (file : Upload.UploadFile) :
  (idx, file) ∈ imap pair files ↔ files !! idx = Some file.
Proof.
  rewrite list_elem_of_lookup. split.
  - intros [i Hi]. rewrite list_lookup_imap in Hi.
    destruct (files !! i) eqn:Hfile; [|done]. cbn in Hi. by injection Hi as <- <-.
  - intros Hfile. exists idx. by rewrite list_lookup_imap, Hfile.
Qed.

Lemma process_file_keeps_index_prefix
    (split_text : DocumentProcessor.Splitter -> string -> list string)
    (extract_text : string -> string -> option string)
    (basename splitext : string -> string)
    (getsize : string -> option Z) (isoformat : Z -> string)
    (index : option (list RAG.Document))
    (app : App) (file_path id : string) (now : Z) (uuid4 new_oid : string) :
  match index with
  | Some stored => ∃ added, vectordb app = Some (stored ++ added)
  | None => vectordb app = None
  end →
  match index with
  | Some stored =>
      ∃ added,
        vectordb (DocumentProcessor.process_file split_text extract_text basename splitext
                    getsize isoformat app file_path id now uuid4 new_oid).1
        = Some (stored ++ added)
  | None =>
      vectordb (DocumentProcessor.process_file split_text extract_text basename splitext
                  getsize isoformat app file_path id now uuid4 new_oid).1 = None
  end.
Proof.
  intros Hprefix.
  pose proof (process_file_cases split_text extract_text basename splitext getsize isoformat
                app file_path id now uuid4 new_oid) as Hcases.
  cbv zeta in Hcases.
  destruct Hcases as [->|(text & stored' & _ & _ & Hindex & [[_ ->]|(size & _ & ->)])];
    [done|..]; cbn [fst vectordb]; rewrite Hindex in Hprefix;
    (destruct index as [stored|]; [|done]);
    destruct Hprefix as [added [= ->]]; eexists; by rewrite <- app_assoc.
Qed.

(** X25. How a batch upload ends.  It answers 500 exactly when the fund
    cannot be created, and then nothing has been indexed.  Otherwise it
    answers with one status per file, in the order of the files, each
    carrying the identifier of the new fund; an index into the statuses is
    never out of range.  A file is reported as a success only if its text was
    read in the first pass and it was saved in the second; and the vector
    index afterwards is the index before, followed by what was added. *)
Theorem upload_document_outcome
    (split_text : DocumentProcessor.Splitter -> string -> list string)
    (extract_text : string -> string -> option string)
    (basename splitext : string -> string)
    (getsize : string -> option Z) (isoformat : Z -> string)
    (complete : string -> string -> string + string)
    (app : App) (files : list Upload.UploadFile) (fund_name : string)
    (now : Z) (new_oid : string) :
  match Upload.upload_document split_text extract_text basename splitext getsize isoformat
          complete app files fund_name now new_oid with
  | (app', Api.Ok responses) =>
      (∃ d, mongodb app = Some d ∧ Mongo.funds_collection d !! new_oid = None)
      ∧ new_oid ≠ ""
      ∧ Upload.filename <$> responses = Upload.upload_filename <$> files
      ∧ (∀ r, r ∈ responses →
           Upload.fund_id r = Some new_oid
           ∧ (Upload.status r = "success" ∨ Upload.status r = "error"))
      ∧ (∀ (i : nat) r file,
           responses !! i = Some r → files !! i = Some file →
           Upload.status r = "success" →
           (∃ text, Upload.first_pass file = inl text)
           ∧ ∃ file_path, Upload.second_save file = inl file_path)
      ∧ match vectordb app with
        | Some stored => ∃ added, vectordb app' = Some (stored ++ added)
        | None => vectordb app' = None
        end
  | (app', Api.HTTPException code) =>
      code = 500
      ∧ vectordb app' = vectordb app
      ∧ (mongodb app = None
         ∨ ∃ d, mongodb app = Some d
                ∧ (is_Some (Mongo.funds_collection d !! new_oid) ∨ new_oid = ""))
  end.
Proof.
  unfold Upload.upload_document. rewrite first_loop_spec, !app_nil_l. cbv beta iota.
  set (responses0 := _ <$> files). set (processed := omap _ files).
  unfold Mongo.create_fund.
  destruct (mongodb app) as [d|] eqn:Hdb.
  2:{ split; [done|]. split; [done|]. by left. }
  destruct (Mongo.funds_collection d !! new_oid) as [existing|] eqn:Hfree.
  { split; [done|]. split; [done|]. right. exists d. split; [done|]. left. by eexists. }
  destruct new_oid as [|c oid'] eqn:Hoid; cbn [PyStr.truthy].
  { split; [done|]. split; [done|]. right. exists d. split; [done|]. by right. }
  assert (new_oid ≠ "") as Hne by (by rewrite Hoid).
  rewrite <- Hoid in *. clear Hoid oid' c.
  lazymatch goal with
  | |- context [fold_left _ (imap pair files) (?start, Some responses0)] =>
      destruct (second_loop_spec split_text extract_text basename splitext getsize isoformat
                  (fun a => match vectordb app with
                            | Some stored => ∃ added, vectordb a = Some (stored ++ added)
                            | None => vectordb a = None
                            end)
                  new_oid
                  (fun a path t u o =>
                     process_file_keeps_index_prefix split_text extract_text basename splitext
                       getsize isoformat (vectordb app) a path new_oid t u o)
                  (imap pair files) start responses0)
        as (app' & responses' & -> & Hindex & [Hlen Hmarked] & Hsaved)
  end.
  { cbn. destruct (vectordb app); [|done]. exists []. by rewrite app_nil_r. }
  { intros idx file Hin%elem_of_imap_pair. unfold responses0. rewrite length_fmap.
    by eapply lookup_lt_Some. }
  assert (∀ (i : nat) r', responses' !! i = Some r' →
            ∃ file, files !! i = Some file
                    ∧ Upload.filename r' = Upload.upload_filename file
                    ∧ Upload.fund_id r' = None
                    ∧ (Upload.status r' = "success" ∨ Upload.status r' = "error")
                    ∧ (Upload.status r' = "success" →
                       ∃ text, Upload.first_pass file = inl text)) as Hshape.
  { intros i r' Hr'.
    assert (i < length responses0)%nat as Hi by (rewrite <- Hlen; by eapply lookup_lt_Some).
    destruct (lookup_lt_is_Some_2 _ _ Hi) as [r0 Hr0].
    destruct (Hmarked i r0 Hr0) as (r'' & Hr'' & Hname & Hid & Hstatus & Herror).
    assert (r'' = r') as -> by congruence.
    unfold responses0 in Hr0. rewrite list_lookup_fmap in Hr0.
    destruct (files !! i) as [file|] eqn:Hfile; [|done]. injection Hr0 as <-.
    exists file. split; [done|].
    destruct (Upload.first_pass file) as [text|e]; cbn in *.
    - split; [done|]. split; [done|]. split; [tauto|]. intros _. by eexists.
    - split; [done|]. split; [done|]. rewrite (Herror eq_refl).
      split; [by right | done]. }
  split; [by exists d|]. split; [done|]. split.
  { apply list_eq. intros i. rewrite !list_lookup_fmap.
    destruct (responses' !! i) as [r'|] eqn:Hr'.
    - destruct (Hshape i r' Hr') as (file & -> & Hname & _). cbn. by rewrite <- Hname.
    - apply lookup_ge_None in Hr'. rewrite lookup_ge_None_2; [done|].
      unfold responses0 in Hlen. rewrite length_fmap in Hlen. lia. }
  split.
  { intros r (r' & -> & [i Hr']%list_elem_of_lookup_1)%list_elem_of_fmap.
    destruct (Hshape i r' Hr') as (file & _ & _ & _ & Hstatus & _). by split. }
  split; [|exact Hindex].
  intros i r file Hr Hfile Hsuccess. rewrite list_lookup_fmap in Hr.
  destruct (responses' !! i) as [r'|] eqn:Hr'; [|done]. injection Hr as <-.
  destruct (Hshape i r' Hr') as (file' & Hfile' & _ & _ & _ & Hfirst).
  assert (file' = file) as -> by congruence.
  split; [by apply Hfirst|].
  apply (Hsaved i file r'); [by apply elem_of_imap_pair | done | done].
Qed.

Lemma process_file_keeps_in_step
    (split_text : DocumentProcessor.Splitter -> string -> list string)
    (extract_text : string -> string -> option string)
    (basename splitext : string -> string)
    (getsize : string -> option Z) (isoformat : Z -> string)
    (id s : string) (app : App) (file_path : string) (now : Z) (uuid4 new_oid : string) :
  Mongo.ObjectId id = Some id →
  Spec.in_step id s app →
  Spec.in_step id s
    (DocumentProcessor.process_file split_text extract_text basename splitext getsize
       isoformat app file_path id now uuid4 new_oid).1.
Proof.
  intros Hoid Hstep.
  pose proof (process_file_cases split_text extract_text basename splitext getsize isoformat
                app file_path id now uuid4 new_oid) as Hcases.
  cbv zeta in Hcases.
  destruct Hcases as [->|(text & stored & _ & _ & _ & [[_ ->]|(size & _ & ->)])];
    [done | done |].
  destruct Hstep as (d & fund & Hdb & Hfund & Hsummary & Hcount).
  cbn [fst]. unfold Spec.in_step. cbn [mongodb]. rewrite Hdb.
  unfold Mongo.add_document_to_fund. rewrite Hoid. cbn [fst].
  eexists _, (Mongo.inc_document_count fund). split; [done|].
  cbn [Mongo.funds_collection Mongo.get_fund_documents Mongo.documents_collection].
  split; [by rewrite lookup_alter_eq, Hfund|]. split; [done|].
  rewrite filter_app, filter_cons_True, filter_nil, length_app by done.
  unfold Api.stored_count in *. cbn [Mongo.inc_document_count Mongo.document_count length].
  cbn [Mongo.get_fund_documents] in Hcount.
  destruct (Mongo.document_count fund); lia.
Qed.

(** X26. After a batch upload into a database that held no record under
    the new identifier, the new fund is stored with the summary computed from
    the texts read, and its document count is the number of records filed
    under it, however many files failed.  A read of the fund straight after
    the upload therefore issues the summary query only if that summary is
    "Empty". *)
Theorem upload_document_fund_in_step
    (split_text : DocumentProcessor.Splitter -> string -> list string)
    (extract_text : string -> string -> option string)
    (basename splitext : string -> string)
    (getsize : string -> option Z) (isoformat : Z -> string)
    (complete : string -> string -> string + string)
    (similarity_search : list RAG.Document -> string -> Z -> RAG.Filter -> list RAG.Document)
    (qa_chain : list RAG.Document -> string -> option string)
    (get_image_data : string -> option string)
    (app : App) (d : Mongo.DB) (files : list Upload.UploadFile) (fund_name : string)
    (now later : Z) (new_oid : string) :
  Mongo.ObjectId new_oid = Some new_oid →
  mongodb app = Some d →
  Mongo.funds_collection d !! new_oid = None →
  Mongo.get_fund_documents (Some d) new_oid = [] →
  let summary :=
    Upload.fund_summary complete
      (omap (fun file => match Upload.first_pass file with
                         | inl text => Some text
                         | inr _ => None
                         end) files) in
  ∃ app' responses fund,
    Upload.upload_document split_text extract_text basename splitext getsize isoformat
      complete app files fund_name now new_oid = (app', Api.Ok responses)
    ∧ Mongo.get_fund (mongodb app') new_oid = Some (new_oid, fund)
    ∧ Mongo.summary fund = Some summary
    ∧ Api.stored_count fund
      = Z.of_nat (length (Mongo.get_fund_documents (mongodb app') new_oid))
    ∧ ((∃ q k, Api.RagQuery q new_oid k
               ∈ (Api.get_fund similarity_search qa_chain get_image_data
                    app' new_oid later).2)
       ↔ summary = "Empty").
Proof.
  intros Hoid Hdb Hfree Hnone summary.
  unfold Upload.upload_document. rewrite first_loop_spec, !app_nil_l. cbv beta iota.
  fold summary. set (responses0 := _ <$> files).
  unfold Mongo.create_fund. rewrite Hdb, Hfree.
  destruct new_oid as [|c oid'] eqn:Hnew; [done|]. cbn [PyStr.truthy].
  rewrite <- Hnew in *. clear Hnew oid' c.
  lazymatch goal with
  | |- context [fold_left _ (imap pair files) (?start, Some responses0)] =>
      destruct (second_loop_spec split_text extract_text basename splitext getsize isoformat
                  (Spec.in_step new_oid summary) new_oid
                  (fun a path t u o =>
                     process_file_keeps_in_step split_text extract_text basename splitext
                       getsize isoformat new_oid summary a path t u o Hoid)
                  (imap pair files) start responses0)
        as (app' & responses' & -> & Hstep & _)
  end.
  { eexists _, _. split; [done|]. cbn [Mongo.funds_collection].
    split; [apply lookup_insert_eq|]. split; [done|].
    cbn in Hnone. cbn. by rewrite Hnone. }
  { intros idx file Hin%elem_of_imap_pair. unfold responses0. rewrite length_fmap.
    by eapply lookup_lt_Some. }
  destruct Hstep as (d' & fund & Hdb' & Hfund & Hsummary & Hcount).
  assert (Mongo.get_fund (mongodb app') new_oid = Some (new_oid, fund)) as Hget.
  { rewrite Hdb', (get_fund_lookup _ new_oid new_oid Hoid). by rewrite Hfund. }
  eexists app', _, fund. split; [done|]. split; [done|]. split; [done|].
  split; [by rewrite Hdb'|].
  rewrite (get_fund_calls _ _ _ _ _ _ _ _ Hget), summary_needed_spec, Hdb', Hsummary.
  split; [intros [[= ->]|[Hne _]]; done | intros ->; by left].
Qed.

Lemma upload_document_fund_in_step_witness :
  ∃ app' responses fund,
    Upload.upload_document Sample.split_text (fun _ _ => Some "Margins rose in Q2.")
      Sample.basename Sample.splitext Sample.getsize Sample.isoformat Sample.complete
      Sample.app Sample.uploads "Beta Fund" 300 Sample.new_oid = (app', Api.Ok responses)
    ∧ Mongo.get_fund (mongodb app') Sample.new_oid = Some (Sample.new_oid, fund)
    ∧ Mongo.summary fund = Some "Margins rose."
    ∧ Api.stored_count fund = 1
    ∧ length (Mongo.get_fund_documents (mongodb app') Sample.new_oid) = 1%nat.
Proof.
  destruct (upload_document_fund_in_step Sample.split_text
              (fun _ _ => Some "Margins rose in Q2.") Sample.basename Sample.splitext
              Sample.getsize Sample.isoformat Sample.complete Sample.search Sample.chain
              Sample.image Sample.app Sample.db Sample.uploads "Beta Fund" 300 400
              Sample.new_oid)
    as (app' & responses & fund & Hrun & Hget & Hsummary & Hcount & _);
    [vm_compute; reflexivity..|].
  exists app', responses, fund. split; [exact Hrun|]. split; [exact Hget|].
  split; [rewrite Hsummary; vm_compute; reflexivity|].
  assert (app' = (Upload.upload_document Sample.split_text
                    (fun _ _ => Some "Margins rose in Q2.") Sample.basename Sample.splitext
                    Sample.getsize Sample.isoformat Sample.complete Sample.app Sample.uploads
                    "Beta Fund" 300 Sample.new_oid).1) as Happ by (by rewrite Hrun).
  assert (length (Mongo.get_fund_documents (mongodb app') Sample.new_oid) = 1%nat) as Hlen.
  { rewrite Happ. vm_compute. reflexivity. }
  split; [by rewrite Hcount, Hlen | exact Hlen].
Defined.
